(** * Carbonite: aggregate consistency, reconciliation and ranking

    A shallow embedding of the storage-side engine defined by the
    "Realtime Global Aggregation and Leaderboard System" migration
    (tables [user_actions], [user_stats], [global_emissions],
    [sync_audit_log]; the trigger function
    [global_sync_trigger_function] with its two triggers; the functions
    [get_leaderboard] and [sync_global_emissions_from_user_stats]) and of
    the read side in [services/climateStats.ts].

    Conventions of the embedding.
    - A [NUMERIC(p,s)] value is the integer number of [10^-s] units, so a
      column of scale 4 holds [v] as [v * 10^4] and the literal [0.01] is
      [100].  Sums and differences of scale-4 values are exact in
      PostgreSQL, so no rounding is lost.  A value that does not fit the
      precision of its column makes PostgreSQL raise an error, which
      aborts the statement and everything its triggers did.
    - [TIMESTAMPTZ] is an integer count of microseconds; [NOW()] is the
      start time of the enclosing transaction and is passed in.
    - [UUID] values are kept in their text form.
    - A table is the list of its rows in physical (insertion) order. *)

From Stdlib Require Import ZArith List String Bool Lia.
From Stdlib Require Import QArith Lqa.
From Stdlib Require Import Sorted Permutation.
Import ListNotations.
Open Scope Z_scope.

(** ** Errors and the result monad *)

Inductive sql_error : Type :=
| numeric_value_out_of_range
| check_violation
| unique_violation
| foreign_key_violation
| invalid_row_count_in_limit_clause
| NotFound
| InvalidInput.

Inductive result (A : Type) : Type :=
| Ok (a : A)
| Err (e : sql_error).

Arguments Ok {A} a.
Arguments Err {A} e.

Definition bind {A B : Type} (r : result A) (k : A -> result B) : result B :=
  match r with
  | Ok a => k a
  | Err e => Err e
  end.

Definition check (b : bool) (e : sql_error) : result unit :=
  if b then Ok tt else Err e.

Declare Scope sql_scope.
Delimit Scope sql_scope with sql.
Notation "x <- c ;; k" := (bind c (fun x => k))
  (at level 61, c at next level, right associativity) : sql_scope.
Notation "c ;;; k" := (bind c (fun _ => k))
  (at level 61, right associativity) : sql_scope.
Open Scope sql_scope.

(** ** Column types *)

Abbreviation uuid := string (only parsing).
Abbreviation timestamptz := Z (only parsing).
Abbreviation numeric := Z (only parsing).

(** [NUMERIC(p,s)] in units of [10^-s]: at most [p] digits. *)
Definition fits_numeric (p : Z) (v : numeric) : bool := Z.abs v <? 10 ^ p.

(** [INTEGER] and [BIGINT]. *)
Definition fits_int4 (v : Z) : bool := (- 2 ^ 31 <=? v) && (v <? 2 ^ 31).
Definition fits_int8 (v : Z) : bool := (- 2 ^ 63 <=? v) && (v <? 2 ^ 63).

(** The tolerance of the sync check, [0.01], in units of [10^-4]. *)
Definition epsilon : numeric := 100.

(** ** Tables *)

Record users_row : Type := {
  u_user_id : uuid;
  u_email : string;
  u_username : option string
}.

Record user_actions_row : Type := {
  action_id : uuid;
  ua_user_id : uuid;
  action_type : string;
  quantity : numeric;               (* NUMERIC(12,3), CHECK (quantity > 0) *)
  unit_ : string;
  emissions_saved_lbs : numeric;    (* NUMERIC(14,4), CHECK (>= 0) *)
  verified : bool;                  (* NOT NULL DEFAULT FALSE *)
  created_at : timestamptz;
  verified_at : option timestamptz  (* nullable *)
}.

Record user_stats_row : Type := {
  us_user_id : uuid;
  total_emissions_lbs : numeric;    (* NUMERIC(16,4), CHECK (>= 0) *)
  action_count : Z;                 (* INTEGER, CHECK (>= 0) *)
  monthly_lbs : list (string * numeric);  (* JSONB DEFAULT '{}' *)
  yearly_lbs : list (string * numeric);   (* JSONB DEFAULT '{}' *)
  last_updated : timestamptz
}.

(** The singleton row [id = 1] of [global_emissions]: the migration
    inserts it, the key with [CHECK (id = 1)] allows no second row, and
    no statement of the schema deletes it. *)
Record global_emissions_row : Type := {
  total_lbs_saved : numeric;        (* NUMERIC(20,4), CHECK (>= 0) *)
  total_actions : Z;                (* BIGINT, CHECK (>= 0) *)
  ge_last_updated : timestamptz
}.

(** [log_id] is a random key and is left out. *)
Record sync_audit_log_row : Type := {
  check_timestamp : timestamptz;
  was_in_sync : bool;
  user_stats_sum : numeric;         (* NUMERIC(20,4) *)
  global_total : numeric;           (* NUMERIC(20,4) *)
  discrepancy : numeric;            (* NUMERIC(20,4) *)
  fixed : bool;
  details : option string
}.

Record db : Type := {
  users : list users_row;
  user_actions : list user_actions_row;
  user_stats : list user_stats_row;
  global_emissions : global_emissions_row;
  sync_audit_log : list sync_audit_log_row
}.

(** The database right after the migration, with the given accounts. *)
Definition db_init (us : list users_row) : db :=
  {| users := us;
     user_actions := [];
     user_stats := [];
     global_emissions :=
       {| total_lbs_saved := 0; total_actions := 0; ge_last_updated := 0 |};
     sync_audit_log := [] |}.

(** ** Row lookup and replacement by key *)

Fixpoint replace_first {A : Type} (p : A -> bool) (y : A) (l : list A) : list A :=
  match l with
  | [] => []
  | x :: t => if p x then y :: t else x :: replace_first p y t
  end.

Definition is_action (id : uuid) (r : user_actions_row) : bool :=
  String.eqb (action_id r) id.

Definition is_stats_of (uid : uuid) (r : user_stats_row) : bool :=
  String.eqb (us_user_id r) uid.

Definition is_user (uid : uuid) (r : users_row) : bool :=
  String.eqb (u_user_id r) uid.

Definition find_action (id : uuid) (st : db) : option user_actions_row :=
  find (is_action id) (user_actions st).

Definition find_stats (uid : uuid) (st : db) : option user_stats_row :=
  find (is_stats_of uid) (user_stats st).

Definition user_exists (uid : uuid) (st : db) : bool :=
  existsb (is_user uid) (users st).

(** ** Column constraints of the two rollup tables *)

Definition user_stats_row_ok (r : user_stats_row) : result unit :=
  check (fits_numeric 16 (total_emissions_lbs r)) numeric_value_out_of_range ;;;
  check (fits_int4 (action_count r)) numeric_value_out_of_range ;;;
  check (0 <=? total_emissions_lbs r) check_violation ;;;
  check (0 <=? action_count r) check_violation.

Definition global_emissions_row_ok (r : global_emissions_row) : result unit :=
  check (fits_numeric 20 (total_lbs_saved r)) numeric_value_out_of_range ;;;
  check (fits_int8 (total_actions r)) numeric_value_out_of_range ;;;
  check (0 <=? total_lbs_saved r) check_violation ;;;
  check (0 <=? total_actions r) check_violation.

Definition user_actions_row_ok (r : user_actions_row) : result unit :=
  check (fits_numeric 12 (quantity r)) numeric_value_out_of_range ;;;
  check (fits_numeric 14 (emissions_saved_lbs r)) numeric_value_out_of_range ;;;
  check (0 <? quantity r) check_violation ;;;
  check (0 <=? emissions_saved_lbs r) check_violation.

(** ** The aggregator: [global_sync_trigger_function] *)

(** [INSERT INTO user_stats (user_id, total_emissions_lbs, action_count,
    last_updated) VALUES (NEW.user_id, NEW.emissions_saved_lbs, 1, NOW())
    ON CONFLICT (user_id) DO UPDATE SET ...].  PostgreSQL builds the
    proposed row and checks its column constraints before it looks for a
    conflicting key; the reference to [users] is checked only when the
    row is really inserted. *)
Definition upsert_user_stats (now : timestamptz) (NEW : user_actions_row)
    (st : db) : result db :=
  let EXCLUDED := {| us_user_id := ua_user_id NEW;
                     total_emissions_lbs := emissions_saved_lbs NEW;
                     action_count := 1;
                     monthly_lbs := [];
                     yearly_lbs := [];
                     last_updated := now |} in
  user_stats_row_ok EXCLUDED ;;;
  match find_stats (ua_user_id NEW) st with
  | None =>
      check (user_exists (ua_user_id NEW) st) foreign_key_violation ;;;
      Ok {| users := users st;
            user_actions := user_actions st;
            user_stats := user_stats st ++ [EXCLUDED];
            global_emissions := global_emissions st;
            sync_audit_log := sync_audit_log st |}
  | Some old =>
      let r := {| us_user_id := us_user_id old;
                  total_emissions_lbs :=
                    total_emissions_lbs old + total_emissions_lbs EXCLUDED;
                  action_count := action_count old + 1;
                  monthly_lbs := monthly_lbs old;
                  yearly_lbs := yearly_lbs old;
                  last_updated := now |} in
      user_stats_row_ok r ;;;
      Ok {| users := users st;
            user_actions := user_actions st;
            user_stats :=
              replace_first (is_stats_of (ua_user_id NEW)) r (user_stats st);
            global_emissions := global_emissions st;
            sync_audit_log := sync_audit_log st |}
  end.

(** [UPDATE global_emissions SET total_lbs_saved = total_lbs_saved +
    NEW.emissions_saved_lbs, total_actions = total_actions + 1,
    last_updated = NOW() WHERE id = 1] *)
Definition bump_global_emissions (now : timestamptz) (NEW : user_actions_row)
    (st : db) : result db :=
  let g := global_emissions st in
  let g' := {| total_lbs_saved := total_lbs_saved g + emissions_saved_lbs NEW;
               total_actions := total_actions g + 1;
               ge_last_updated := now |} in
  global_emissions_row_ok g' ;;;
  Ok {| users := users st;
        user_actions := user_actions st;
        user_stats := user_stats st;
        global_emissions := g';
        sync_audit_log := sync_audit_log st |}.

(** [OLD] is [None] when the function runs for an [INSERT]: every field
    of [OLD] is then null and [OLD.verified IS NULL] holds.  The function
    returns the database it leaves and the record it [RETURN]s. *)
Definition global_sync_trigger_function (now : timestamptz)
    (OLD : option user_actions_row) (NEW : user_actions_row) (st : db)
    : result (db * user_actions_row) :=
  if verified NEW &&
     match OLD with None => true | Some o => negb (verified o) end
  then
    st1 <- upsert_user_stats now NEW st ;;
    st2 <- bump_global_emissions now NEW st1 ;;
    Ok (st2, {| action_id := action_id NEW;
                ua_user_id := ua_user_id NEW;
                action_type := action_type NEW;
                quantity := quantity NEW;
                unit_ := unit_ NEW;
                emissions_saved_lbs := emissions_saved_lbs NEW;
                verified := verified NEW;
                created_at := created_at NEW;
                verified_at := Some now |})
  else Ok (st, NEW).

(** ** The triggers on [user_actions]

    Both are [AFTER ... FOR EACH ROW] triggers.  PostgreSQL runs an AFTER
    row trigger once the row is already stored and ignores the record the
    function returns, so the assignment to [NEW.verified_at] inside the
    function does not reach the table.  An error raised by the function
    aborts the statement that fired it. *)

(** [global_sync_trigger]: [AFTER UPDATE ... WHEN (NEW.verified = TRUE AND
    (OLD.verified IS NULL OR OLD.verified = FALSE))]. *)
Definition global_sync_trigger (now : timestamptz)
    (OLD NEW : user_actions_row) (st : db) : result db :=
  if verified NEW && negb (verified OLD)
  then r <- global_sync_trigger_function now (Some OLD) NEW st ;; Ok (fst r)
  else Ok st.

(** [global_sync_insert_trigger]: [AFTER INSERT ... WHEN (NEW.verified =
    TRUE)]. *)
Definition global_sync_insert_trigger (now : timestamptz)
    (NEW : user_actions_row) (st : db) : result db :=
  if verified NEW
  then r <- global_sync_trigger_function now None NEW st ;; Ok (fst r)
  else Ok st.

(** ** Statements on [user_actions] *)

Definition with_user_actions (l : list user_actions_row) (st : db) : db :=
  {| users := users st;
     user_actions := l;
     user_stats := user_stats st;
     global_emissions := global_emissions st;
     sync_audit_log := sync_audit_log st |}.

(** [INSERT INTO user_actions VALUES (...)] of one fully given row. *)
Definition insert_user_action (now : timestamptz) (NEW : user_actions_row)
    (st : db) : result db :=
  user_actions_row_ok NEW ;;;
  check (match find_action (action_id NEW) st with None => true | Some _ => false end)
        unique_violation ;;;
  check (user_exists (ua_user_id NEW) st) foreign_key_violation ;;;
  global_sync_insert_trigger now NEW
    (with_user_actions (user_actions st ++ [NEW]) st).

Definition set_verified (v : bool) (r : user_actions_row) : user_actions_row :=
  {| action_id := action_id r;
     ua_user_id := ua_user_id r;
     action_type := action_type r;
     quantity := quantity r;
     unit_ := unit_ r;
     emissions_saved_lbs := emissions_saved_lbs r;
     verified := v;
     created_at := created_at r;
     verified_at := verified_at r |}.

(** [UPDATE user_actions SET verified = v WHERE action_id = id]; the
    second component is the number of rows the statement changed. *)
Definition update_verified (now : timestamptz) (id : uuid) (v : bool)
    (st : db) : result (db * nat) :=
  match find_action id st with
  | None => Ok (st, 0%nat)
  | Some OLD =>
      let NEW := set_verified v OLD in
      st' <- global_sync_trigger now OLD NEW
               (with_user_actions
                  (replace_first (is_action id) NEW (user_actions st)) st) ;;
      Ok (st', 1%nat)
  end.

(** Modelled from the spec: [append] of section 4.1, whose caller is not
    among the sources (the table, its constraints and its triggers are).
    It stores a new unverified event: [verified] and [verified_at] take
    their column defaults, [created_at] is [NOW()], the key is the
    generated [id]; a quantity that is not positive is [InvalidInput]. *)
Definition append (now : timestamptz) (id : uuid) (actor : uuid)
    (kind : string) (qty : numeric) (unit_name : string) (lbs : numeric)
    (st : db) : result db :=
  check (0 <? qty) InvalidInput ;;;
  insert_user_action now
    {| action_id := id;
       ua_user_id := actor;
       action_type := kind;
       quantity := qty;
       unit_ := unit_name;
       emissions_saved_lbs := lbs;
       verified := false;
       created_at := now;
       verified_at := None |} st.

(** Modelled from the spec: [markVerified] of section 4.1, whose caller
    is not among the sources.  It sets the flag of one event with the
    statement above, which fires [global_sync_trigger], and reports
    [NotFound] when no event has that key. *)
Definition markVerified (now : timestamptz) (id : uuid) (st : db) : result db :=
  r <- update_verified now id true st ;;
  match snd r with
  | O => Err NotFound
  | S _ => Ok (fst r)
  end.

(** ** The reconciler: [sync_global_emissions_from_user_stats] *)

(** [SELECT COALESCE(SUM(total_emissions_lbs), 0) FROM user_stats] *)
Definition stats_sum (st : db) : numeric :=
  fold_right Z.add 0 (map total_emissions_lbs (user_stats st)).

(** The row the function returns. *)
Record sync_result : Type := {
  r_was_in_sync : bool;
  r_user_stats_sum : numeric;
  r_global_total : numeric;
  r_fixed : bool
}.

Definition sync_audit_log_row_ok (r : sync_audit_log_row) : result unit :=
  check (fits_numeric 20 (user_stats_sum r)) numeric_value_out_of_range ;;;
  check (fits_numeric 20 (global_total r)) numeric_value_out_of_range ;;;
  check (fits_numeric 20 (discrepancy r)) numeric_value_out_of_range.

Definition sync_global_emissions_from_user_stats (now : timestamptz)
    (st : db) : result (db * sync_result) :=
  let stats_sum := stats_sum st in
  let global_val := total_lbs_saved (global_emissions st) in
  let is_synced := Z.abs (stats_sum - global_val) <? epsilon in
  let ret := {| r_was_in_sync := is_synced;
                r_user_stats_sum := stats_sum;
                r_global_total := global_val;
                r_fixed := negb is_synced |} in
  if negb is_synced then
    let g' := {| total_lbs_saved := stats_sum;
                 total_actions := total_actions (global_emissions st);
                 ge_last_updated := now |} in
    let a := {| check_timestamp := now;
                was_in_sync := false;
                user_stats_sum := stats_sum;
                global_total := global_val;
                discrepancy := Z.abs (stats_sum - global_val);
                fixed := true;
                details := None |} in
    global_emissions_row_ok g' ;;;
    sync_audit_log_row_ok a ;;;
    Ok ({| users := users st;
           user_actions := user_actions st;
           user_stats := user_stats st;
           global_emissions := g';
           sync_audit_log := sync_audit_log st ++ [a] |}, ret)
  else Ok (st, ret).

(** ** A history of statements

    Each statement runs in its own transaction at its own time; one that
    raises an error is rolled back and leaves the database as it was. *)

Inductive statement : Type :=
| Append (id actor : uuid) (kind : string) (qty : numeric)
         (unit_name : string) (lbs : numeric)
| MarkVerified (id : uuid)
| Insert (NEW : user_actions_row).

Definition exec (now : timestamptz) (s : statement) (st : db) : result db :=
  match s with
  | Append id actor kind qty unit_name lbs =>
      append now id actor kind qty unit_name lbs st
  | MarkVerified id => markVerified now id st
  | Insert NEW => insert_user_action now NEW st
  end.

Definition commit (now : timestamptz) (s : statement) (st : db) : db :=
  match exec now s st with
  | Ok st' => st'
  | Err _ => st
  end.

Fixpoint run (h : list (timestamptz * statement)) (st : db) : db :=
  match h with
  | [] => st
  | (now, s) :: h' => run h' (commit now s st)
  end.

(** ** The ranker: [get_leaderboard] *)

(** [SELECT MAX(ua.verified_at) FROM user_actions ua WHERE ua.user_id =
    uid AND ua.verified = TRUE]; nulls do not take part in [MAX], and the
    aggregate of no value is null. *)
Definition max_null (t : option timestamptz) (acc : option timestamptz)
    : option timestamptz :=
  match t, acc with
  | None, _ => acc
  | Some a, None => Some a
  | Some a, Some b => Some (Z.max a b)
  end.

Definition max_verified_at (uid : uuid) (st : db) : option timestamptz :=
  fold_right max_null None
    (map verified_at
       (filter (fun ua => String.eqb (ua_user_id ua) uid && verified ua)
          (user_actions st))).

(** A row of the common table expression [ranked_users]. *)
Record ranked_users_row : Type := {
  ru_user_id : uuid;
  ru_username : string;
  ru_total_emissions_lbs : numeric;
  ru_action_count : Z;
  ru_last_update_timestamp : timestamptz;
  last_verified_action_at : timestamptz
}.

Definition ranked_users (st : db) : list ranked_users_row :=
  flat_map
    (fun us =>
       if 0 <? total_emissions_lbs us then
         map (fun u =>
                {| ru_user_id := us_user_id us;
                   ru_username :=
                     match u_username u with
                     | Some n => n
                     | None => u_email u
                     end;
                   ru_total_emissions_lbs := total_emissions_lbs us;
                   ru_action_count := action_count us;
                   ru_last_update_timestamp := last_updated us;
                   last_verified_action_at :=
                     match max_verified_at (us_user_id us) st with
                     | Some t => t
                     | None => last_updated us
                     end |})
             (filter (is_user (us_user_id us)) (users st))
       else [])
    (user_stats st).

(** [ORDER BY total_emissions_lbs DESC, last_verified_action_at DESC]:
    [a] sorts strictly before [b]. *)
Definition sorts_before (a b : ranked_users_row) : bool :=
  (ru_total_emissions_lbs b <? ru_total_emissions_lbs a) ||
  ((ru_total_emissions_lbs a =? ru_total_emissions_lbs b) &&
   (last_verified_action_at b <? last_verified_action_at a)).

(** Rows that agree on both keys are peers. *)
Definition peers (a b : ranked_users_row) : bool :=
  (ru_total_emissions_lbs a =? ru_total_emissions_lbs b) &&
  (last_verified_action_at a =? last_verified_action_at b).

(** SQL leaves the order of peers open.  PostgreSQL returns them in the
    order in which its plan happens to deliver the rows to the sort, and
    that order may differ between two executions on the same contents,
    for instance under another [LIMIT].  A [scan] is one such delivery:
    any rearrangement of the rows. *)
Record scan : Type := {
  deliver : list ranked_users_row -> list ranked_users_row;
  deliver_Permutation : forall l, Permutation (deliver l) l
}.

(** The sort keeps the rows that neither sorts before the other in the
    order they arrive in; for the JavaScript of the read side this is the
    stable [Array.prototype.sort]. *)
Fixpoint insert_by {A : Type} (before : A -> A -> bool) (x : A) (l : list A)
    : list A :=
  match l with
  | [] => [x]
  | y :: t => if before y x then y :: insert_by before x t else x :: y :: t
  end.

Definition order_by {A : Type} (before : A -> A -> bool) (l : list A) : list A :=
  fold_right (insert_by before) [] l.

(** [ROW_NUMBER() OVER (ORDER BY ...)], counting from [k]. *)
Fixpoint row_number {A : Type} (k : Z) (l : list A) : list (Z * A) :=
  match l with
  | [] => []
  | x :: t => (k, x) :: row_number (k + 1) t
  end.

(** [ROUND(v, 2)] on a scale-4 value: ties go away from zero. *)
Definition round2 (v : numeric) : numeric :=
  Z.sgn v * ((Z.abs v + 50) / 100) * 100.

(** A row of the table the function returns. *)
Record leaderboard_row : Type := {
  rank : Z;
  lb_user_id : uuid;
  lb_username : string;
  lb_total_emissions_lbs : numeric;
  lb_action_count : Z;
  last_update_timestamp : timestamptz
}.

Definition select_row (p : Z * ranked_users_row) : leaderboard_row :=
  {| rank := fst p;
     lb_user_id := ru_user_id (snd p);
     lb_username := ru_username (snd p);
     lb_total_emissions_lbs := round2 (ru_total_emissions_lbs (snd p));
     lb_action_count := ru_action_count (snd p);
     last_update_timestamp := ru_last_update_timestamp (snd p) |}.

(** The numbered, ordered and cut rows before the final projection.  The
    window and the final [ORDER BY] use the same keys, so one sort serves
    both; among peers it follows the scan [s] of this execution. *)
Definition ranked_rows (s : scan) (limit_count : Z) (st : db)
    : list (Z * ranked_users_row) :=
  firstn (Z.to_nat limit_count)
    (row_number 1 (order_by sorts_before (deliver s (ranked_users st)))).

(** A negative [LIMIT] is an error in PostgreSQL. *)
Definition get_leaderboard (s : scan) (limit_count : Z) (st : db)
    : result (list leaderboard_row) :=
  check (0 <=? limit_count) invalid_row_count_in_limit_clause ;;;
  Ok (map select_row (ranked_rows s limit_count st)).

(** ** More of the migration *)

(** [::INTEGER] on a count or a row number. *)
Definition to_integer (v : Z) : result Z :=
  check (fits_int4 v) numeric_value_out_of_range ;;; Ok v.

(** [get_active_users_count]: [SELECT COUNT(DISTINCT user_id)::INTEGER
    FROM user_actions WHERE verified = TRUE]. *)
Definition get_active_users_count (st : db) : result Z :=
  to_integer
    (Z.of_nat
       (List.length
          (nodup string_dec (map ua_user_id (filter verified (user_actions st)))))).

(** The view [consistency_check]. *)
Record consistency_check_row : Type := {
  user_stats_sum_lbs : numeric;
  global_total_lbs : numeric;
  in_sync : bool
}.

Definition consistency_check (st : db) : consistency_check_row :=
  {| user_stats_sum_lbs := stats_sum st;
     global_total_lbs := total_lbs_saved (global_emissions st);
     in_sync :=
       Z.abs (stats_sum st - total_lbs_saved (global_emissions st)) <? epsilon |}.

(** The JSON object [hourly_sync_check] builds, and the arguments of its
    [RAISE WARNING]. *)
Record hourly_result : Type := {
  hr_timestamp : timestamptz;
  hr_was_in_sync : bool;
  hr_user_stats_sum : numeric;
  hr_global_total : numeric;
  hr_discrepancy : numeric;
  hr_fixed : bool;
  hr_in_sync : bool;
  hr_alert_channel : string
}.

Record sync_warning : Type := {
  w_user_stats_sum : numeric;
  w_global_total : numeric;
  w_discrepancy : numeric;
  w_fixed : bool
}.

(** [hourly_sync_check]: the database it leaves, the JSON it returns and
    the warning it raises, if any. *)
Definition hourly_sync_check (now : timestamptz) (st : db)
    : result (db * hourly_result * option sync_warning) :=
  c <- sync_global_emissions_from_user_stats now st ;;
  let check_result := snd c in
  let discrepancy :=
    Z.abs (r_user_stats_sum check_result - r_global_total check_result) in
  let result :=
    {| hr_timestamp := now;
       hr_was_in_sync := r_was_in_sync check_result;
       hr_user_stats_sum := round2 (r_user_stats_sum check_result);
       hr_global_total := round2 (r_global_total check_result);
       hr_discrepancy := round2 discrepancy;
       hr_fixed := r_fixed check_result;
       hr_in_sync :=
         Z.abs (r_user_stats_sum check_result - r_global_total check_result)
         <? epsilon;
       hr_alert_channel := "System admin or monitoring dashboard" |} in
  Ok (fst c, result,
      if negb (r_was_in_sync check_result)
      then Some {| w_user_stats_sum := round2 (r_user_stats_sum check_result);
                   w_global_total := round2 (r_global_total check_result);
                   w_discrepancy := round2 discrepancy;
                   w_fixed := r_fixed check_result |}
      else None).


(** * The read side: [services/climateStats.ts]

    A JavaScript [number] is an exact rational here (the rounding of
    IEEE doubles is left out; the inputs of the examples below are small
    integers, which doubles hold exactly).  The statements on numbers
    are kept to what the rounding leaves alone: zero, signs, the order of
    results, and the equality of results that the code computes by the
    same operations in the same order.  None relies on the exact value
    of a product or of a sum.  An ISO time string is the instant it
    denotes; where the code cuts the text itself, the row carries the
    cut.  A remote table is either readable, or answers with an error
    object, or makes the request reject. *)

Module TS.

Abbreviation number := Q (only parsing).
Abbreviation timestamp := Z (only parsing).

Inductive period : Type := all_time | yearly | monthly | weekly.
Inductive scope : Type := global | country.

Definition period_eqb (a b : period) : bool :=
  match a, b with
  | all_time, all_time | yearly, yearly | monthly, monthly | weekly, weekly => true
  | _, _ => false
  end.

Definition scope_eqb (a b : scope) : bool :=
  match a, b with
  | global, global | country, country => true
  | _, _ => false
  end.

(** ** JavaScript values *)

(** [x || y] on numbers that may be null or undefined: [0] is falsy. *)
Definition truthy (x : option number) : bool :=
  match x with
  | Some q => negb (Qeq_bool q 0)
  | None => false
  end.

Definition or_else (x y : option number) : option number :=
  if truthy x then x else y.

(** [parseFloat(x || d)] *)
Definition parseFloat_or (x : option number) (d : number) : number :=
  if truthy x then match x with Some q => q | None => d end else d.

(** [n || 0] on a count. *)
Definition count_or_0 (n : option Z) : Z :=
  match n with Some k => k | None => 0%Z end.

(** [s || 'Anonymous'] *)
Definition or_Anonymous (s : option string) : string :=
  match s with
  | Some EmptyString | None => "Anonymous"
  | Some n => n
  end.

Definition lt_number (a b : number) : bool := negb (Qle_bool b a).

(** [lbs * 0.453592] and [kg * 2.20462], without the rounding of the
    double product. *)
Definition lbsToKg (lbs : number) : number := (lbs * (453592 # 1000000))%Q.
Definition kgToLbs (kg : number) : number := (kg * (220462 # 100000))%Q.

(** ** Requests *)

Inductive table (A : Type) : Type :=
| Rows (l : list A)
| Failing
| Throwing.

Arguments Rows {A} l.
Arguments Failing {A}.
Arguments Throwing {A}.

Record response (A : Type) : Type := { data : option A; error : bool }.
Arguments data {A} r.
Arguments error {A} r.

Inductive promise (A : Type) : Type :=
| Resolved (a : A)
| Rejected.

Arguments Resolved {A} a.
Arguments Rejected {A}.

Definition await {A B : Type} (p : promise A) (k : A -> promise B) : promise B :=
  match p with
  | Resolved a => k a
  | Rejected => Rejected
  end.

(** [try { return body } catch { return handler }] *)
Definition try_catch {A : Type} (body : promise A) (handler : A) : A :=
  match body with
  | Resolved a => a
  | Rejected => handler
  end.

(** A query that returns the rows [q] selects. *)
Definition select {A B : Type} (t : table A) (q : list A -> list B)
    : promise (response (list B)) :=
  match t with
  | Rows l => Resolved {| data := Some (q l); error := false |}
  | Failing => Resolved {| data := None; error := true |}
  | Throwing => Rejected
  end.

(** [.maybeSingle()]: no row is null data, several rows are an error. *)
Definition maybeSingle {A : Type} (t : table A) (q : list A -> list A)
    : promise (response A) :=
  match t with
  | Rows l =>
      match q l with
      | [] => Resolved {| data := None; error := false |}
      | [x] => Resolved {| data := Some x; error := false |}
      | _ => Resolved {| data := None; error := true |}
      end
  | Failing => Resolved {| data := None; error := true |}
  | Throwing => Rejected
  end.

(** ** Rows of the three schema generations *)

(** [user_stats_summary], with [users!inner(username)] joined in. *)
Record UserStatsSummaryRow : Type := {
  uss_user_id : string;
  uss_total_co2_saved_kg : option number;
  uss_total_actions : option Z;
  uss_current_month_co2 : option number;
  uss_current_year_co2 : option number;
  uss_streak_days : option Z;
  uss_last_action_date : option timestamp;
  uss_updated_at : timestamp;
  uss_username : option string
}.

(** [user_statistics], with [users!inner(username)] joined in. *)
Record UserStatisticsRow : Type := {
  ust_user_id : string;
  ust_total_co2_saved_kg : option number;
  ust_total_actions_count : option Z;
  ust_current_month_co2_saved : option number;
  ust_current_year_co2_saved : option number;
  ust_streak_days : option Z;
  ust_last_action_date : option timestamp;
  ust_updated_at : timestamp;
  ust_username : option string
}.

(** The legacy [user_actions] with its joined [action_templates].
    [logged_at] arrives as ISO text, and a row keeps the two things the
    code reads of it: the instant the text denotes ([new Date(...)], the
    order of the query) and the characters before its [T]
    ([split('T')[0]]), a calendar day, kept like every date as the
    instant of its midnight UTC.  The day follows the offset the text
    was printed with, so it need not be the UTC day of the instant. *)
Record UserActionRow : Type := {
  a_user_id : string;
  custom_emissions_saved : option number;
  template_emissions_saved : option number;
  a_logged_at : timestamp;
  a_logged_at_day : timestamp
}.

Record LeaderboardSnapshotRow : Type := {
  ls_scope : scope;
  ls_scope_value : string;
  ls_period : period;
  ls_user_id : string;
  ls_rank : Z;
  ls_co2_saved_kg : option number;
  ls_snapshot_time : timestamp;
  ls_username : option string
}.

Record LeaderboardsRow : Type := {
  l_scope : scope;
  l_scope_id : option string;
  l_period : period;
  l_user_id : string;
  l_rank : Z;
  l_co2_saved_kg : option number;
  l_updated_at : timestamp;
  l_username : option string
}.

Record UserActionEventRow : Type := {
  e_event_id : Z;
  e_user_id : string;
  e_action_id : Z;
  e_quantity : option number;
  e_co2_saved_kg : option number;
  e_event_timestamp : timestamp;
  e_action_date : timestamp
}.

Record UserActionLogRow : Type := {
  g_log_id : Z;
  g_user_id : string;
  g_action_id : Z;
  g_quantity : option number;
  g_co2_saved_kg : option number;
  g_logged_at : timestamp;
  g_action_date : timestamp;
  g_notes : option string;
  g_location : option string
}.

(** An entry of [getLeaderboard] in [./leaderboard], a module that is
    not among the sources: its answer is a field of the server. *)
Record LegacyLeaderboardEntry : Type := {
  le_user_id : string;
  le_username : string;
  le_total_emissions_lbs : number;
  le_last_update_timestamp : timestamp
}.

Record server : Type := {
  user_stats_summary : table UserStatsSummaryRow;
  user_statistics : table UserStatisticsRow;
  user_actions : table UserActionRow;
  leaderboard_snapshots : table LeaderboardSnapshotRow;
  leaderboards : table LeaderboardsRow;
  user_action_events : table UserActionEventRow;
  user_action_logs : table UserActionLogRow;
  getLeaderboard : nat -> promise (list LegacyLeaderboardEntry)
}.

(** ** What the functions return *)

Record UserStatistics : Type := {
  user_id : string;
  total_co2_saved_kg : number;
  total_actions_count : Z;
  current_month_co2_saved : number;
  current_year_co2_saved : number;
  streak_days : Z;
  last_action_date : option timestamp;
  updated_at : timestamp
}.

Record LeaderboardEntry : Type := {
  rank : Z;
  le_user : string;
  username : string;
  co2_saved_kg : number;
  le_period : period;
  le_updated_at : timestamp
}.

Record UserActionLog : Type := {
  log_id : Z;
  al_user_id : string;
  action_id : Z;
  quantity : number;
  al_co2_saved_kg : number;
  logged_at : timestamp;
  action_date : timestamp;
  notes : option string;
  location : option string
}.

(** The clock of one call: [new Date()] and the starts of its month and
    year. *)
Record clock : Type := {
  now : timestamp;
  thisMonth : timestamp;
  thisYear : timestamp
}.

(** ** Helpers shared by the queries *)

Definition is_given (s : option string) : bool :=
  match s with
  | Some EmptyString | None => false
  | Some _ => true
  end.

Definition for_user (userId : option string) (uid : string) : bool :=
  match userId with
  | Some u => if is_given userId then String.eqb uid u else true
  | None => true
  end.

(** [.order(col, { ascending: false })] on a nullable number: PostgreSQL
    puts nulls first in a descending order. *)
Definition desc_before (a b : option number) : bool :=
  match a, b with
  | None, Some _ => true
  | Some x, Some y => lt_number y x
  | _, _ => false
  end.

Definition newest_first {A : Type} (at_ : A -> timestamp) (l : list A) : list A :=
  order_by (fun a b => at_ b <? at_ a) l.

(** [value || d] *)
Definition num_or (x : option number) (d : number) : number :=
  parseFloat_or x d.

(** [action.custom_emissions_saved ||
     ((action.action_templates?.emissions_saved || 0) * 2.20462)],
    then the conversion to kilograms. *)
Definition emissionsKg (a : UserActionRow) : number :=
  let emissionsLbs :=
    num_or (custom_emissions_saved a)
      (kgToLbs (num_or (template_emissions_saved a) 0%Q)) in
  lbsToKg emissionsLbs.

(** ** Actor rollup *)

Record tally : Type := {
  totalCo2Kg : number;
  monthCo2Kg : number;
  yearCo2Kg : number;
  actionCount : Z;
  lastActionDate : option timestamp
}.

Definition tally_action (c : clock) (acc : tally) (action : UserActionRow) : tally :=
  let kg := emissionsKg action in
  {| totalCo2Kg := (totalCo2Kg acc + kg)%Q;
     monthCo2Kg := if thisMonth c <=? a_logged_at action
                   then (monthCo2Kg acc + kg)%Q else monthCo2Kg acc;
     yearCo2Kg := if thisYear c <=? a_logged_at action
                  then (yearCo2Kg acc + kg)%Q else yearCo2Kg acc;
     actionCount := actionCount acc + 1;
     lastActionDate := match lastActionDate acc with
                       | None => Some (a_logged_at action)
                       | Some d => Some d
                       end |}.

Definition calculateUserStatisticsFromActions (s : server) (c : clock)
    (userId : string) : option UserStatistics :=
  try_catch
    (await (select (user_actions s)
              (fun l => newest_first a_logged_at
                          (filter (fun a => String.eqb (a_user_id a) userId) l)))
       (fun r =>
          if error r then Resolved None
          else
            let actions := match data r with Some l => l | None => [] end in
            let t := fold_left (tally_action c) actions
                       {| totalCo2Kg := 0%Q; monthCo2Kg := 0%Q; yearCo2Kg := 0%Q;
                          actionCount := 0; lastActionDate := None |} in
            Resolved (Some {| user_id := userId;
                              total_co2_saved_kg := totalCo2Kg t;
                              total_actions_count := actionCount t;
                              current_month_co2_saved := monthCo2Kg t;
                              current_year_co2_saved := yearCo2Kg t;
                              streak_days := 0;
                              last_action_date := lastActionDate t;
                              updated_at := now c |})))
    None.

Definition getUserStatistics (s : server) (c : clock) (userId : string)
    : option UserStatistics :=
  try_catch
    (await (maybeSingle (user_stats_summary s)
              (filter (fun r => String.eqb (uss_user_id r) userId)))
       (fun prod =>
          match error prod, data prod with
          | false, Some prodData =>
              Resolved (Some
                {| user_id := uss_user_id prodData;
                   total_co2_saved_kg := parseFloat_or (uss_total_co2_saved_kg prodData) 0%Q;
                   total_actions_count := count_or_0 (uss_total_actions prodData);
                   current_month_co2_saved := parseFloat_or (uss_current_month_co2 prodData) 0%Q;
                   current_year_co2_saved := parseFloat_or (uss_current_year_co2 prodData) 0%Q;
                   streak_days := count_or_0 (uss_streak_days prodData);
                   last_action_date := uss_last_action_date prodData;
                   updated_at := uss_updated_at prodData |})
          | _, _ =>
              await (maybeSingle (user_statistics s)
                       (filter (fun r => String.eqb (ust_user_id r) userId)))
                (fun prev =>
                   match error prev, data prev with
                   | false, Some prevData =>
                       Resolved (Some
                         {| user_id := ust_user_id prevData;
                            total_co2_saved_kg := parseFloat_or (ust_total_co2_saved_kg prevData) 0%Q;
                            total_actions_count := count_or_0 (ust_total_actions_count prevData);
                            current_month_co2_saved := parseFloat_or (ust_current_month_co2_saved prevData) 0%Q;
                            current_year_co2_saved := parseFloat_or (ust_current_year_co2_saved prevData) 0%Q;
                            streak_days := count_or_0 (ust_streak_days prevData);
                            last_action_date := ust_last_action_date prevData;
                            updated_at := ust_updated_at prevData |})
                   | _, _ =>
                       Resolved (calculateUserStatisticsFromActions s c userId)
                   end)
          end))
    (calculateUserStatisticsFromActions s c userId).

(** ** Leaderboard *)

(** A row of [stats], which holds rows of either stats table. *)
Record stat : Type := {
  stat_user_id : string;
  stat_total_co2_saved_kg : option number;
  current_month_co2 : option number;
  current_year_co2 : option number;
  stat_current_month_co2_saved : option number;
  stat_current_year_co2_saved : option number;
  stat_username : option string
}.

Definition stat_of_summary (r : UserStatsSummaryRow) : stat :=
  {| stat_user_id := uss_user_id r;
     stat_total_co2_saved_kg := uss_total_co2_saved_kg r;
     current_month_co2 := uss_current_month_co2 r;
     current_year_co2 := uss_current_year_co2 r;
     stat_current_month_co2_saved := None;
     stat_current_year_co2_saved := None;
     stat_username := uss_username r |}.

Definition stat_of_statistics (r : UserStatisticsRow) : stat :=
  {| stat_user_id := ust_user_id r;
     stat_total_co2_saved_kg := ust_total_co2_saved_kg r;
     current_month_co2 := None;
     current_year_co2 := None;
     stat_current_month_co2_saved := ust_current_month_co2_saved r;
     stat_current_year_co2_saved := ust_current_year_co2_saved r;
     stat_username := ust_username r |}.

(** [.order('total_co2_saved_kg', { ascending: false }).limit(limit)] *)
Definition top_by_total (limit : nat) (l : list stat) : list stat :=
  firstn limit
    (order_by (fun a b => desc_before (stat_total_co2_saved_kg a)
                            (stat_total_co2_saved_kg b)) l).

Definition getCo2Value (p : period) (x : stat) : number :=
  match p with
  | yearly =>
      parseFloat_or (or_else (current_year_co2 x) (stat_current_year_co2_saved x)) 0%Q
  | monthly =>
      parseFloat_or (or_else (current_month_co2 x) (stat_current_month_co2_saved x)) 0%Q
  | weekly =>
      let monthly :=
        parseFloat_or (or_else (current_month_co2 x) (stat_current_month_co2_saved x)) 0%Q in
      (monthly / 4)%Q
  | all_time => parseFloat_or (stat_total_co2_saved_kg x) 0%Q
  end.

(** [.sort((a, b) => b.co2_saved_kg - a.co2_saved_kg)]: the sort of
    JavaScript is stable. *)
Definition sort_by_co2 (l : list LeaderboardEntry) : list LeaderboardEntry :=
  order_by (fun a b => lt_number (co2_saved_kg b) (co2_saved_kg a)) l.

Definition calculateLeaderboardFromStats (s : server) (c : clock)
    (p : period) (limit : nat) : list LeaderboardEntry :=
  try_catch
    (await (select (user_stats_summary s)
              (fun l => top_by_total limit (map stat_of_summary l)))
       (fun first =>
          await
            (if error first
                || match data first with
                   | None | Some [] => true
                   | Some _ => false
                   end
             then select (user_statistics s)
                    (fun l => top_by_total limit (map stat_of_statistics l))
             else Resolved first)
            (fun r =>
               match error r, data r with
               | false, Some stats =>
                   Resolved
                     (sort_by_co2
                        (map (fun ix =>
                                {| rank := fst ix;
                                   le_user := stat_user_id (snd ix);
                                   username := or_Anonymous (stat_username (snd ix));
                                   co2_saved_kg := getCo2Value p (snd ix);
                                   le_period := p;
                                   le_updated_at := now c |})
                             (row_number 1 stats)))
               | _, _ =>
                   await (getLeaderboard s limit)
                     (fun entries =>
                        Resolved
                          (map (fun ix =>
                                  {| rank := fst ix;
                                     le_user := le_user_id (snd ix);
                                     username := le_username (snd ix);
                                     co2_saved_kg :=
                                       lbsToKg (le_total_emissions_lbs (snd ix));
                                     le_period := all_time;
                                     le_updated_at :=
                                       le_last_update_timestamp (snd ix) |})
                               (row_number 1 entries)))
               end)))
    [].

Definition getLeaderboardEntries (s : server) (c : clock) (p : period)
    (sc : scope) (scopeId : option string) (limit : nat)
    : list LeaderboardEntry :=
  try_catch
    (await (select (leaderboard_snapshots s)
              (fun l =>
                 firstn limit
                   (order_by (fun a b => ls_rank a <? ls_rank b)
                      (filter
                         (fun r =>
                            scope_eqb (ls_scope r) sc
                            && period_eqb (ls_period r) p
                            && match sc, scopeId with
                               | country, Some v =>
                                   if is_given scopeId
                                   then String.eqb (ls_scope_value r) v
                                   else true
                               | country, None => true
                               | global, _ => String.eqb (ls_scope_value r) "global"
                               end) l))))
       (fun snap =>
          match error snap, data snap with
          | false, Some (e :: snapshotData) =>
              Resolved
                (map (fun entry =>
                        {| rank := ls_rank entry;
                           le_user := ls_user_id entry;
                           username := or_Anonymous (ls_username entry);
                           co2_saved_kg := parseFloat_or (ls_co2_saved_kg entry) 0%Q;
                           le_period := ls_period entry;
                           le_updated_at := ls_snapshot_time entry |})
                     (e :: snapshotData))
          | _, _ =>
              await (select (leaderboards s)
                       (fun l =>
                          firstn limit
                            (order_by (fun a b => l_rank a <? l_rank b)
                               (filter
                                  (fun r =>
                                     scope_eqb (l_scope r) sc
                                     && period_eqb (l_period r) p
                                     && match sc, scopeId with
                                        | country, Some v =>
                                            if is_given scopeId
                                            then match l_scope_id r with
                                                 | Some i => String.eqb i v
                                                 | None => false
                                                 end
                                            else true
                                        | _, _ => true
                                        end) l))))
                (fun prev =>
                   match error prev, data prev with
                   | false, Some (e :: prevData) =>
                       Resolved
                         (map (fun entry =>
                                 {| rank := l_rank entry;
                                    le_user := l_user_id entry;
                                    username := or_Anonymous (l_username entry);
                                    co2_saved_kg := parseFloat_or (l_co2_saved_kg entry) 0%Q;
                                    le_period := l_period entry;
                                    le_updated_at := l_updated_at entry |})
                              (e :: prevData))
                   | _, _ => Resolved (calculateLeaderboardFromStats s c p limit)
                   end)
          end))
    (calculateLeaderboardFromStats s c p limit).

(** ** Recent events *)

Definition getRecentActionsFromOldSchema (s : server) (userId : option string)
    (limit : nat) : list UserActionLog :=
  try_catch
    (await (select (user_actions s)
              (fun l =>
                 firstn limit
                   (newest_first a_logged_at
                      (filter (fun a => for_user userId (a_user_id a)) l))))
       (fun r =>
          match error r, data r with
          | false, Some rows =>
              Resolved
                (map (fun ix =>
                        {| log_id := fst ix;
                           al_user_id := a_user_id (snd ix);
                           action_id := 0;
                           quantity := 1%Q;
                           al_co2_saved_kg := emissionsKg (snd ix);
                           logged_at := a_logged_at (snd ix);
                           action_date := a_logged_at_day (snd ix);
                           notes := None;
                           location := None |})
                     (row_number 1 rows))
          | _, _ => Resolved []
          end))
    [].

Definition getRecentActionLogs (s : server) (userId : option string)
    (limit : nat) : list UserActionLog :=
  try_catch
    (await (select (user_action_events s)
              (fun l =>
                 firstn limit
                   (newest_first e_event_timestamp
                      (filter (fun e => for_user userId (e_user_id e)) l))))
       (fun ev =>
          match error ev, data ev with
          | false, Some (e :: eventData) =>
              Resolved
                (map (fun event =>
                        {| log_id := e_event_id event;
                           al_user_id := e_user_id event;
                           action_id := e_action_id event;
                           quantity := parseFloat_or (e_quantity event) 1%Q;
                           al_co2_saved_kg := parseFloat_or (e_co2_saved_kg event) 0%Q;
                           logged_at := e_event_timestamp event;
                           action_date := e_action_date event;
                           notes := None;
                           location := None |})
                     (e :: eventData))
          | _, _ =>
              await (select (user_action_logs s)
                       (fun l =>
                          firstn limit
                            (newest_first g_logged_at
                               (filter (fun g => for_user userId (g_user_id g)) l))))
                (fun lg =>
                   match error lg, data lg with
                   | false, Some (e :: logData) =>
                       Resolved
                         (map (fun log =>
                                 {| log_id := g_log_id log;
                                    al_user_id := g_user_id log;
                                    action_id := g_action_id log;
                                    quantity := parseFloat_or (g_quantity log) 1%Q;
                                    al_co2_saved_kg := parseFloat_or (g_co2_saved_kg log) 0%Q;
                                    logged_at := g_logged_at log;
                                    action_date := g_action_date log;
                                    notes := g_notes log;
                                    location := g_location log |})
                              (e :: logData))
                   | _, _ => Resolved (getRecentActionsFromOldSchema s userId limit)
                   end)
          end))
    (getRecentActionsFromOldSchema s userId limit).

(** ** The remaining exports of the service *)

(** [.single()]: anything but one row is an error. *)
Definition single {A : Type} (t : table A) (q : list A -> list A)
    : promise (response A) :=
  match t with
  | Rows l =>
      match q l with
      | [x] => Resolved {| data := Some x; error := false |}
      | _ => Resolved {| data := None; error := true |}
      end
  | Failing => Resolved {| data := None; error := true |}
  | Throwing => Rejected
  end.

(** [.select('*', { count: 'exact', head: true })]: the number of rows,
    null when the request answers with an error. *)
Definition count_rows {A : Type} (t : table A) : promise (option Z) :=
  match t with
  | Rows l => Resolved (Some (Z.of_nat (List.length l)))
  | Failing => Resolved None
  | Throwing => Rejected
  end.

Record GlobalStatsRollupRow : Type := {
  rollup_key : string;
  gr_total_users : option Z;
  gr_total_co2_saved_kg : option number;
  gr_total_actions : option Z;
  gr_computed_at : timestamp
}.

Record GlobalStatisticsRow : Type := {
  gs_id : Z;
  gs_total_users : option Z;
  gs_total_co2_saved_kg : option number;
  gs_total_actions_count : option Z;
  gs_countries_count : option Z;
  gs_last_updated : timestamp
}.

Record GlobalEmissionsRow : Type := {
  gem_id : Z;
  gem_total_lbs_saved : option number
}.

(** The tables only the global statistics read. *)
Record global_tables : Type := {
  global_stats_rollup : table GlobalStatsRollupRow;
  global_statistics : table GlobalStatisticsRow;
  global_emissions : table GlobalEmissionsRow;
  profiles : table unit
}.

Record GlobalStatistics : Type := {
  id : Z;
  total_users : Z;
  g_total_co2_saved_kg : number;
  g_total_actions_count : Z;
  countries_count : Z;
  last_updated : timestamp
}.

Record GlobalStatsRollup : Type := {
  r_rollup_key : string;
  r_total_users : Z;
  r_total_co2_saved_kg : number;
  r_total_actions : Z;
  r_computed_at : timestamp
}.

Definition calculateGlobalStatisticsFromExisting (s : server) (g : global_tables)
    (c : clock) : option GlobalStatistics :=
  try_catch
    (await (maybeSingle (global_emissions g)
              (filter (fun r => gem_id r =? 1)))
       (fun globalEmissions =>
          await (count_rows (profiles g))
            (fun userCount =>
               await (count_rows (user_actions s))
                 (fun actionCount =>
                    let totalLbs :=
                      parseFloat_or
                        (match data globalEmissions with
                         | Some r => gem_total_lbs_saved r
                         | None => None
                         end) 0%Q in
                    let totalKg := lbsToKg totalLbs in
                    Resolved (Some {| id := 1;
                                      total_users := count_or_0 userCount;
                                      g_total_co2_saved_kg := totalKg;
                                      g_total_actions_count := count_or_0 actionCount;
                                      countries_count := 0;
                                      last_updated := now c |})))))
    None.

Definition getGlobalStatistics (s : server) (g : global_tables) (c : clock)
    : option GlobalStatistics :=
  try_catch
    (await (single (global_stats_rollup g)
              (filter (fun r => String.eqb (rollup_key r) "global_all_time")))
       (fun rollup =>
          match error rollup, data rollup with
          | false, Some rollupData =>
              Resolved (Some
                {| id := 1;
                   total_users := count_or_0 (gr_total_users rollupData);
                   g_total_co2_saved_kg :=
                     parseFloat_or (gr_total_co2_saved_kg rollupData) 0%Q;
                   g_total_actions_count := count_or_0 (gr_total_actions rollupData);
                   countries_count := 0;
                   last_updated := gr_computed_at rollupData |})
          | _, _ =>
              await (single (global_statistics g)
                       (filter (fun r => gs_id r =? 1)))
                (fun prev =>
                   match error prev, data prev with
                   | false, Some prevData =>
                       Resolved (Some
                         {| id := gs_id prevData;
                            total_users := count_or_0 (gs_total_users prevData);
                            g_total_co2_saved_kg :=
                              parseFloat_or (gs_total_co2_saved_kg prevData) 0%Q;
                            g_total_actions_count :=
                              count_or_0 (gs_total_actions_count prevData);
                            countries_count :=
                              count_or_0 (gs_countries_count prevData);
                            last_updated := gs_last_updated prevData |})
                   | _, _ =>
                       Resolved (calculateGlobalStatisticsFromExisting s g c)
                   end)
          end))
    (calculateGlobalStatisticsFromExisting s g c).

Definition getGlobalStatsRollup (g : global_tables) (rollupKey : string)
    : option GlobalStatsRollup :=
  try_catch
    (await (maybeSingle (global_stats_rollup g)
              (filter (fun r => String.eqb (rollup_key r) rollupKey)))
       (fun r =>
          match error r, data r with
          | false, Some data =>
              Resolved (Some
                {| r_rollup_key := rollup_key data;
                   r_total_users := count_or_0 (gr_total_users data);
                   r_total_co2_saved_kg :=
                     parseFloat_or (gr_total_co2_saved_kg data) 0%Q;
                   r_total_actions := count_or_0 (gr_total_actions data);
                   r_computed_at := gr_computed_at data |})
          | _, _ => Resolved None
          end))
    None.


End TS.

(** * [services/simpleEmissionLogging.ts] and its caller, the dashboard

    The service is the TypeScript that precedes the migration in the
    first source part; [pages/Dashboard.tsx] imports it under that name.
    The three database functions it calls through [supabase.rpc] are not
    among the sources: their answers are fields of the backend. *)

Module SimpleEmissionLogging.

Import TS.

(** A row of [user_stats] as the service selects it. *)
Record UserStatsRow : Type := {
  s_user_id : string;
  total_lbs : option number;
  total_emissions_lbs : option number
}.

(** A row of [global_emissions] as the service selects it. *)
Record GlobalRow : Type := {
  g_id : Z;
  g_total_lbs : option number;
  g_total_lbs_saved : option number
}.

Record backend : Type := {
  rpc_get_user_total : string -> promise (response number);
  rpc_get_global_total : promise (response number);
  rpc_recompute_all_totals : promise (response unit);
  user_stats : table UserStatsRow;
  global_emissions : table GlobalRow;
  user_actions : table UserActionRow
}.

(** [a ?? b ?? 0]: only null and undefined fall through. *)
Definition coalesce (a b : option number) : number :=
  match a, b with
  | Some x, _ => x
  | None, Some y => y
  | None, None => 0%Q
  end.

(** The body of the [forEach] of [calculateUserTotalFromActions]. *)
Definition add_action (total : number) (action : UserActionRow) : number :=
  if truthy (custom_emissions_saved action)
  then (total + num_or (custom_emissions_saved action) 0)%Q
  else if truthy (template_emissions_saved action)
       then (total + num_or (template_emissions_saved action) 0
                     * (220462 # 100000))%Q
       else total.

Definition calculateUserTotalFromActions (b : backend) (userId : string)
    : number :=
  try_catch
    (await (select (user_actions b)
              (filter (fun a => String.eqb (a_user_id a) userId)))
       (fun r =>
          if error r then Resolved 0%Q
          else
            Resolved
              (fold_left add_action
                 (match data r with Some l => l | None => [] end) 0%Q)))
    0%Q.

Definition getUserTotal (b : backend) (userId : string) : number :=
  try_catch
    (await (rpc_get_user_total b userId)
       (fun rpc =>
          match error rpc, data rpc with
          | false, Some rpcData => Resolved (parseFloat_or (Some rpcData) 0%Q)
          | _, _ =>
              await (maybeSingle (user_stats b)
                       (filter (fun r => String.eqb (s_user_id r) userId)))
                (fun r =>
                   match error r, data r with
                   | false, Some data =>
                       Resolved (coalesce (total_lbs data) (total_emissions_lbs data))
                   | _, _ => Resolved (calculateUserTotalFromActions b userId)
                   end)
          end))
    (calculateUserTotalFromActions b userId).

Definition calculateGlobalTotalFromUserStats (b : backend) : number :=
  try_catch
    (await (select (user_stats b) (fun l => l))
       (fun r =>
          if error r then Resolved 0%Q
          else
            Resolved
              (fold_left (fun sum stat =>
                            (sum + coalesce (total_lbs stat)
                                     (total_emissions_lbs stat))%Q)
                 (match data r with Some l => l | None => [] end) 0%Q)))
    0%Q.

Definition getGlobalTotal (b : backend) : number :=
  try_catch
    (await (rpc_get_global_total b)
       (fun rpc =>
          match error rpc, data rpc with
          | false, Some rpcData => Resolved (parseFloat_or (Some rpcData) 0%Q)
          | _, _ =>
              await (maybeSingle (global_emissions b)
                       (filter (fun r => g_id r =? 1)))
                (fun r =>
                   match error r, data r with
                   | false, Some data =>
                       Resolved (coalesce (g_total_lbs data) (g_total_lbs_saved data))
                   | _, _ => Resolved (calculateGlobalTotalFromUserStats b)
                   end)
          end))
    (calculateGlobalTotalFromUserStats b).

(** [recomputeAllTotals] rethrows: it resolves with the global total or
    rejects. *)
Definition recomputeAllTotals (b : backend) : promise number :=
  await (rpc_recompute_all_totals b)
    (fun r => if error r then Rejected else Resolved (getGlobalTotal b)).

End SimpleEmissionLogging.

Module Dashboard.

Import TS.

Record profile : Type := {
  p_id : string;
  current_streak : Z
}.

Record stats : Type := {
  totalEmissionsSaved : number;
  actionsThisMonth : Z;
  currentStreak : Z;
  globalTotalLbs : number;
  monthlyCo2Kg : number;
  yearlyCo2Kg : number
}.

(** What one run of [loadDashboardData] stores: the actions to show,
    when the query returned any data, and the figures. *)
Record loaded : Type := {
  actions : option (list UserActionRow);
  figures : stats
}.

(** [loadDashboardData]; [thisMonth] is the start of the current month
    in local time.  Without a profile nothing is stored. *)
Definition loadDashboardData (b : SimpleEmissionLogging.backend)
    (p : option profile) (thisMonth : timestamp) : option loaded :=
  match p with
  | None => None
  | Some profile =>
      Some
        (try_catch
           (let userTotal := SimpleEmissionLogging.getUserTotal b (p_id profile) in
            let globalTotal := SimpleEmissionLogging.getGlobalTotal b in
            await (select (SimpleEmissionLogging.user_actions b)
                     (fun l =>
                        firstn 10
                          (newest_first a_logged_at
                             (filter (fun a => String.eqb (a_user_id a) (p_id profile))
                                l))))
              (fun actionsResult =>
                 match data actionsResult with
                 | Some actionsData =>
                     let monthActions :=
                       filter (fun a => thisMonth <=? a_logged_at a) actionsData in
                     Resolved
                       {| actions := Some actionsData;
                          figures :=
                            {| totalEmissionsSaved := userTotal;
                               actionsThisMonth := Z.of_nat (List.length monthActions);
                               currentStreak := current_streak profile;
                               globalTotalLbs := globalTotal;
                               monthlyCo2Kg :=
                                 (fold_left
                                    (fun sum a =>
                                       (sum + num_or (custom_emissions_saved a) 0)%Q)
                                    monthActions 0
                                  * (453592 # 1000000))%Q;
                               yearlyCo2Kg := (userTotal * (453592 # 1000000))%Q |} |}
                 | None =>
                     Resolved
                       {| actions := None;
                          figures :=
                            {| totalEmissionsSaved := userTotal;
                               actionsThisMonth := 0;
                               currentStreak := current_streak profile;
                               globalTotalLbs := globalTotal;
                               monthlyCo2Kg := 0;
                               yearlyCo2Kg := (userTotal * (453592 # 1000000))%Q |} |}
                 end))
           {| actions := None;
              figures :=
                {| totalEmissionsSaved := 0;
                   actionsThisMonth := 0;
                   currentStreak := current_streak profile;
                   globalTotalLbs := 0;
                   monthlyCo2Kg := 0;
                   yearlyCo2Kg := 0 |} |})
  end.

End Dashboard.


(** * Vocabulary of the statements *)

(** How far the global counter is from the sum of the actor rollups. *)
Definition drift (st : db) : Z :=
  total_lbs_saved (global_emissions st) - stats_sum st.

(** Two databases that differ at most in the rollup tables. *)
Definition same_log (st st' : db) : Prop :=
  users st' = users st /\ user_actions st' = user_actions st /\
  sync_audit_log st' = sync_audit_log st.

(** What one aggregation of [q] for actor [uid] does to the rollups: the
    actor's row is created with total [q] and count 1, or its total grows
    by [q] and its count by one; every other actor's row is untouched;
    the global total grows by [q] and the global count by one. *)
Definition applies_delta (uid : uuid) (q : numeric) (st st' : db) : Prop :=
  match find_stats uid st with
  | None =>
      exists r', find_stats uid st' = Some r' /\
                 total_emissions_lbs r' = q /\ action_count r' = 1
  | Some r =>
      exists r', find_stats uid st' = Some r' /\
                 total_emissions_lbs r' = total_emissions_lbs r + q /\
                 action_count r' = action_count r + 1
  end /\
  (forall other, other <> uid -> find_stats other st' = find_stats other st) /\
  total_lbs_saved (global_emissions st') =
    total_lbs_saved (global_emissions st) + q /\
  total_actions (global_emissions st') = total_actions (global_emissions st) + 1.

(** The rollup columns can hold the values that aggregation produces,
    and the actor is a known account. *)
Definition delta_fits (uid : uuid) (q : numeric) (st : db) : Prop :=
  user_exists uid st = true /\
  0 <= q < 10 ^ 16 /\
  match find_stats uid st with
  | None => True
  | Some r =>
      0 <= total_emissions_lbs r + q < 10 ^ 16 /\
      0 <= action_count r + 1 < 2 ^ 31
  end /\
  0 <= total_lbs_saved (global_emissions st) + q < 10 ^ 20 /\
  0 <= total_actions (global_emissions st) + 1 < 2 ^ 63.

(** [a] may stand in front of [b] under a strict order [before]: [b]
    does not sort strictly first. *)
Definition in_order {A : Type} (before : A -> A -> bool) (a b : A) : Prop :=
  before b a = false.

(** No two rows of the list are peers: the two keys of the ranking order
    the list fully. *)
Fixpoint no_peers (l : list ranked_users_row) : bool :=
  match l with
  | [] => true
  | x :: t => forallb (fun y => negb (peers x y)) t && no_peers t
  end.

(** The rows of the list are pairwise different and pairwise not
    peers. *)
Definition apart (l : list ranked_users_row) : Prop :=
  NoDup l /\ forall a b, In a l -> In b l -> a <> b -> peers a b = false.

(** ** The rollups recomputed from the event log *)

(** The savings and the number of the verified events of a list. *)
Definition verified_lbs (l : list user_actions_row) : Z :=
  fold_right Z.add 0
    (map (fun r => if verified r then emissions_saved_lbs r else 0) l).

Definition verified_count (l : list user_actions_row) : Z :=
  fold_right Z.add 0 (map (fun r => if verified r then 1 else 0) l).

Definition by_actor (uid : uuid) (l : list user_actions_row)
    : list user_actions_row :=
  filter (fun r => String.eqb (ua_user_id r) uid) l.

(** An actor's rollup, read as zero when the actor has none. *)
Definition actor_total (uid : uuid) (st : db) : Z :=
  match find_stats uid st with
  | Some r => total_emissions_lbs r
  | None => 0
  end.

Definition actor_count (uid : uuid) (st : db) : Z :=
  match find_stats uid st with
  | Some r => action_count r
  | None => 0
  end.

Definition stats_keys (st : db) : list uuid := map us_user_id (user_stats st).

(** [st'] is [st] after one aggregation of [q] for actor [u], seen
    through every actor's rollup. *)
Definition aggregated (u : uuid) (q : numeric) (st st' : db) : Prop :=
  0 <= q /\
  (forall uid, actor_total uid st' =
               actor_total uid st + (if String.eqb u uid then q else 0)) /\
  (forall uid, actor_count uid st' =
               actor_count uid st + (if String.eqb u uid then 1 else 0)) /\
  stats_keys st' =
    match find_stats u st with
    | Some _ => stats_keys st
    | None => stats_keys st ++ [u]
    end /\
  total_lbs_saved (global_emissions st') =
    total_lbs_saved (global_emissions st) + q /\
  total_actions (global_emissions st') = total_actions (global_emissions st) + 1.

(** [st'] has the rollups of [st]. *)
Definition same_rollups (st st' : db) : Prop :=
  user_stats st' = user_stats st /\ global_emissions st' = global_emissions st.


(** Every rollup holds what the verified events of the log add up to. *)
Definition matches_log (st : db) : Prop :=
  (forall uid,
     actor_total uid st = verified_lbs (by_actor uid (user_actions st)) /\
     actor_count uid st = verified_count (by_actor uid (user_actions st))) /\
  total_lbs_saved (global_emissions st) = verified_lbs (user_actions st) /\
  total_actions (global_emissions st) = verified_count (user_actions st).

(** No rollup of [st'] is below the one of [st]. *)
Definition rollups_le (st st' : db) : Prop :=
  (forall uid, actor_total uid st <= actor_total uid st' /\
               actor_count uid st <= actor_count uid st') /\
  total_lbs_saved (global_emissions st) <= total_lbs_saved (global_emissions st') /\
  total_actions (global_emissions st) <= total_actions (global_emissions st').

(** The actors that have a verified event, with repetitions. *)
Definition verified_actors (st : db) : list uuid :=
  map ua_user_id (filter verified (user_actions st)).

(** Every actor has at most one rollup, and the actors with a rollup are
    those with a verified event. *)
Definition rollups_cover_verified (st : db) : Prop :=
  NoDup (stats_keys st) /\
  forall uid, In uid (stats_keys st) <-> In uid (verified_actors st).


(** A list of recent entries is at most [limit] long, runs from the
    newest to the oldest and, when an actor is asked for, holds only that
    actor's entries. *)
Definition recent_ok (userId : option string) (limit : nat)
    (r : list TS.UserActionLog) : Prop :=
  (List.length r <= limit)%nat /\
  StronglySorted (fun a b => TS.logged_at b <= TS.logged_at a) r /\
  Forall (fun e => TS.for_user userId (TS.al_user_id e) = true) r.

(** The rank fields of a list are the numbers 1, ..., N in some order. *)
Definition ranks_cover (l : list TS.LeaderboardEntry) : Prop :=
  Permutation (map TS.rank l) (map Z.of_nat (seq 1 (List.length l))).

(** A list of entries runs from the largest value to the smallest. *)
Definition by_value (l : list TS.LeaderboardEntry) : Prop :=
  StronglySorted (fun a b => (TS.co2_saved_kg b <= TS.co2_saved_kg a)%Q) l.



(** ** Example databases *)

(** The second scenario of the specification: A holds 5.0, B holds 3.0
    and the global total was overwritten with 100.0. *)
Definition tampered : db :=
  {| users := [];
     user_actions := [];
     user_stats :=
       [ {| us_user_id := "A"; total_emissions_lbs := 50000; action_count := 1;
            monthly_lbs := []; yearly_lbs := []; last_updated := 1 |};
         {| us_user_id := "B"; total_emissions_lbs := 30000; action_count := 1;
            monthly_lbs := []; yearly_lbs := []; last_updated := 2 |} ];
     global_emissions :=
       {| total_lbs_saved := 1000000; total_actions := 2; ge_last_updated := 2 |};
     sync_audit_log := [] |}.

Definition alice : users_row :=
  {| u_user_id := "A"; u_email := "a@example.org"; u_username := Some "alice"%string |}.

Definition bob : users_row :=
  {| u_user_id := "B"; u_email := "b@example.org"; u_username := None |}.

(** An event of 5.0 lbs by A, as [append] stores it. *)
Definition e1 : user_actions_row :=
  {| action_id := "e1"; ua_user_id := "A"; action_type := "bike";
     quantity := 1000; unit_ := "km"; emissions_saved_lbs := 50000;
     verified := false; created_at := 10; verified_at := None |}.

(** The database after A appended [e1]. *)
Definition one_pending : db :=
  {| users := [alice; bob];
     user_actions := [e1];
     user_stats := [];
     global_emissions :=
       {| total_lbs_saved := 0; total_actions := 0; ge_last_updated := 0 |};
     sync_audit_log := [] |}.

(** A later event of 2.0 lbs by A. *)
Definition e3 : user_actions_row :=
  {| action_id := "e3"; ua_user_id := "A"; action_type := "walk";
     quantity := 3000; unit_ := "km"; emissions_saved_lbs := 20000;
     verified := false; created_at := 30; verified_at := None |}.

(** The database after [e1] was verified at time 20 and A appended
    [e3]. *)
Definition second_pending : db :=
  {| users := [alice; bob];
     user_actions := [set_verified true e1; e3];
     user_stats :=
       [ {| us_user_id := "A"; total_emissions_lbs := 50000; action_count := 1;
            monthly_lbs := []; yearly_lbs := []; last_updated := 20 |} ];
     global_emissions :=
       {| total_lbs_saved := 50000; total_actions := 1; ge_last_updated := 20 |};
     sync_audit_log := [] |}.

(** [second_pending] with A's total one unit below the largest value of
    its [NUMERIC(16,4)] column. *)
Definition at_the_limit : db :=
  {| users := [alice; bob];
     user_actions := [set_verified true e1; e3];
     user_stats :=
       [ {| us_user_id := "A"; total_emissions_lbs := 10 ^ 16 - 1;
            action_count := 1;
            monthly_lbs := []; yearly_lbs := []; last_updated := 20 |} ];
     global_emissions :=
       {| total_lbs_saved := 10 ^ 16 - 1; total_actions := 1;
          ge_last_updated := 20 |};
     sync_audit_log := [] |}.


(** An event of 3.0 lbs by B that arrives already verified. *)
Definition e2 : user_actions_row :=
  {| action_id := "e2"; ua_user_id := "B"; action_type := "bus";
     quantity := 2000; unit_ := "km"; emissions_saved_lbs := 30000;
     verified := true; created_at := 40; verified_at := None |}.

(** The first scenario of the specification: A appends 5.0 and is
    verified, then B appends 3.0 and is verified. *)
Definition five_then_three : list (timestamptz * statement) :=
  [ (1, Append "e1" "A" "bike" 1000 "km" 50000);
    (2, MarkVerified "e1");
    (3, Append "e2" "B" "bus" 2000 "km" 30000);
    (4, MarkVerified "e2") ].

(** The third scenario: A and B both reach 10.0, A verified at time 2
    and B at time 4. *)
Definition ten_each : list (timestamptz * statement) :=
  [ (1, Append "e1" "A" "bike" 1000 "km" 100000);
    (2, MarkVerified "e1");
    (3, Append "e2" "B" "bus" 2000 "km" 100000);
    (4, MarkVerified "e2") ].

(** A and B both reach 10.0 and are verified in one transaction, at
    time 4: their rows are peers. *)
Definition ten_each_at_once : list (timestamptz * statement) :=
  [ (1, Append "e1" "A" "bike" 1000 "km" 100000);
    (3, Append "e2" "B" "bus" 2000 "km" 100000);
    (4, MarkVerified "e1");
    (4, MarkVerified "e2") ].

(** ** Example scans *)

(** The rows reach the sort in the order the tables store them in, or in
    the opposite order. *)
Definition as_stored : scan :=
  {| deliver := fun l => l;
     deliver_Permutation := fun l => Permutation_refl l |}.

Definition backwards : scan :=
  {| deliver := fun l => rev l;
     deliver_Permutation := fun l => Permutation_sym (Permutation_rev l) |}.

(** ** Example servers for the read side *)

Definition noon : TS.clock :=
  {| TS.now := 1000; TS.thisMonth := 0; TS.thisYear := 0 |}.

(** A row of [user_stats_summary]: all-time total, total of the current
    month, and the time of the actor's latest action. *)
Definition summary (uid : string) (total month : Q) (seen : Z)
    : TS.UserStatsSummaryRow :=
  {| TS.uss_user_id := uid;
     TS.uss_total_co2_saved_kg := Some total;
     TS.uss_total_actions := Some 1;
     TS.uss_current_month_co2 := Some month;
     TS.uss_current_year_co2 := Some total;
     TS.uss_streak_days := Some 0;
     TS.uss_last_action_date := Some seen;
     TS.uss_updated_at := seen;
     TS.uss_username := Some uid |}.

(** A server on which only [user_stats_summary] holds rows. *)
Definition summaries (l : list TS.UserStatsSummaryRow) : TS.server :=
  {| TS.user_stats_summary := TS.Rows l;
     TS.user_statistics := TS.Rows [];
     TS.user_actions := TS.Rows [];
     TS.leaderboard_snapshots := TS.Rows [];
     TS.leaderboards := TS.Rows [];
     TS.user_action_events := TS.Rows [];
     TS.user_action_logs := TS.Rows [];
     TS.getLeaderboard := fun _ => TS.Resolved [] |}.

(** A legacy event: its actor, its savings in pounds and its time in
    milliseconds, which the server printed in UTC. *)
Definition event_of (uid : string) (lbs : Q) (at_ : Z) : TS.UserActionRow :=
  {| TS.a_user_id := uid;
     TS.custom_emissions_saved := Some lbs;
     TS.template_emissions_saved := None;
     TS.a_logged_at := at_;
     TS.a_logged_at_day := 86400000 * (at_ / 86400000) |}.

(** An event of one o'clock in the morning of January 2nd, 1970 at
    offset +02:00, printed with that offset: the instant lies in January
    1st UTC, the text shows January 2nd. *)
Definition event_printed_ahead (uid : string) (lbs : Q) : TS.UserActionRow :=
  {| TS.a_user_id := uid;
     TS.custom_emissions_saved := Some lbs;
     TS.template_emissions_saved := None;
     TS.a_logged_at := 82800000;
     TS.a_logged_at_day := 86400000 |}.

(** A server on which only the legacy events table holds rows. *)
Definition legacy_events (l : list TS.UserActionRow) : TS.server :=
  {| TS.user_stats_summary := TS.Rows [];
     TS.user_statistics := TS.Rows [];
     TS.user_actions := TS.Rows l;
     TS.leaderboard_snapshots := TS.Rows [];
     TS.leaderboards := TS.Rows [];
     TS.user_action_events := TS.Rows [];
     TS.user_action_logs := TS.Rows [];
     TS.getLeaderboard := fun _ => TS.Resolved [] |}.


(** A server whose legacy events table answers with an error. *)
Definition broken_events : TS.server :=
  {| TS.user_stats_summary := TS.Rows [];
     TS.user_statistics := TS.Rows [];
     TS.user_actions := TS.Failing;
     TS.leaderboard_snapshots := TS.Rows [];
     TS.leaderboards := TS.Rows [];
     TS.user_action_events := TS.Rows [];
     TS.user_action_logs := TS.Rows [];
     TS.getLeaderboard := fun _ => TS.Resolved [] |}.


(** Global tables that all answer with an error. *)
Definition no_globals : TS.global_tables :=
  {| TS.global_stats_rollup := TS.Failing;
     TS.global_statistics := TS.Failing;
     TS.global_emissions := TS.Failing;
     TS.profiles := TS.Failing |}.


(** Global tables of which only the current rollup table can be read. *)
Definition rollup_only (l : list TS.GlobalStatsRollupRow) : TS.global_tables :=
  {| TS.global_stats_rollup := TS.Rows l;
     TS.global_statistics := TS.Failing;
     TS.global_emissions := TS.Failing;
     TS.profiles := TS.Failing |}.

Definition all_time_rollup : TS.GlobalStatsRollupRow :=
  {| TS.rollup_key := "global_all_time";
     TS.gr_total_users := Some 3;
     TS.gr_total_co2_saved_kg := Some 12%Q;
     TS.gr_total_actions := None;
     TS.gr_computed_at := 500 |}.

Definition carol : Dashboard.profile :=
  {| Dashboard.p_id := "C"; Dashboard.current_streak := 4 |}.

(** A backend without the database functions and without a global row:
    only [user_stats] and the events can be read. *)
Definition tables_only (stats : list SimpleEmissionLogging.UserStatsRow)
    (events : list TS.UserActionRow) : SimpleEmissionLogging.backend :=
  {| SimpleEmissionLogging.rpc_get_user_total :=
       fun _ => TS.Resolved {| TS.data := None; TS.error := true |};
     SimpleEmissionLogging.rpc_get_global_total :=
       TS.Resolved {| TS.data := None; TS.error := true |};
     SimpleEmissionLogging.rpc_recompute_all_totals :=
       TS.Resolved {| TS.data := None; TS.error := true |};
     SimpleEmissionLogging.user_stats := TS.Rows stats;
     SimpleEmissionLogging.global_emissions := TS.Failing;
     SimpleEmissionLogging.user_actions := TS.Rows events |}.

Definition stats_of (uid : string) (lbs : Q) : SimpleEmissionLogging.UserStatsRow :=
  {| SimpleEmissionLogging.s_user_id := uid;
     SimpleEmissionLogging.total_lbs := None;
     SimpleEmissionLogging.total_emissions_lbs := Some lbs |}.


Definition legacy_A : TS.LegacyLeaderboardEntry :=
  {| TS.le_user_id := "A"; TS.le_username := "alice";
     TS.le_total_emissions_lbs := 10; TS.le_last_update_timestamp := 100 |}.

(** A server on which only the legacy leaderboard service has data; the
    argument is the state of the prior-generation stats table. *)
Definition legacy_only (prior : TS.table TS.UserStatisticsRow) : TS.server :=
  {| TS.user_stats_summary := TS.Rows [];
     TS.user_statistics := prior;
     TS.user_actions := TS.Rows [];
     TS.leaderboard_snapshots := TS.Rows [];
     TS.leaderboards := TS.Rows [];
     TS.user_action_events := TS.Rows [];
     TS.user_action_logs := TS.Rows [];
     TS.getLeaderboard := fun _ => TS.Resolved [legacy_A] |}.

(** * Properties *)

(** ** The result monad *)

Lemma bind_Ok {A B : Type} (r : result A) (k : A -> result B) (b : B) :
  bind r k = Ok b <-> exists a, r = Ok a /\ k a = Ok b.
Proof.
  destruct r as [a | e]; simpl; split.
  - intros H. exists a. auto.
  - intros [a' [Ha Hk]]. now inversion Ha; subst.
  - discriminate.
  - intros [a' [Ha _]]. discriminate.
Qed.

Lemma check_Ok (b : bool) (e : sql_error) (u : unit) :
  check b e = Ok u <-> b = true.
Proof.
  destruct b, u; simpl; split; intros; try reflexivity; discriminate.
Qed.

(** Splits a hypothesis [c1 ;;; c2 ;;; ... = Ok _] into its steps. *)
Ltac ok_steps H :=
  repeat match type of H with
         | bind _ _ = Ok _ =>
             let a := fresh "a" in
             let Ha := fresh "Hstep" in
             apply bind_Ok in H; destruct H as [a [Ha H]];
             try (apply check_Ok in Ha)
         | check _ _ = Ok _ => apply check_Ok in H
         end.

(** Settles a closed goal built from comparisons of numerals. *)
Ltac evaluate :=
  vm_compute; repeat split; try reflexivity; try discriminate.

Lemma user_stats_row_ok_iff (r : user_stats_row) :
  user_stats_row_ok r = Ok tt <->
  0 <= total_emissions_lbs r < 10 ^ 16 /\ 0 <= action_count r < 2 ^ 31.
Proof.
  unfold user_stats_row_ok, fits_numeric, fits_int4. split.
  - intros H. ok_steps H.
    apply andb_prop in Hstep0. destruct Hstep0 as [_ Hhi].
    apply Z.ltb_lt in Hstep, Hhi. apply Z.leb_le in Hstep1, H. lia.
  - intros [[H1 H2] [H3 H4]].
    replace (Z.abs (total_emissions_lbs r) <? 10 ^ 16) with true
      by (symmetry; apply Z.ltb_lt; lia).
    replace (- 2 ^ 31 <=? action_count r) with true
      by (symmetry; apply Z.leb_le; lia).
    replace (action_count r <? 2 ^ 31) with true
      by (symmetry; apply Z.ltb_lt; lia).
    replace (0 <=? total_emissions_lbs r) with true
      by (symmetry; apply Z.leb_le; lia).
    replace (0 <=? action_count r) with true
      by (symmetry; apply Z.leb_le; lia).
    reflexivity.
Qed.

Lemma global_emissions_row_ok_iff (g : global_emissions_row) :
  global_emissions_row_ok g = Ok tt <->
  0 <= total_lbs_saved g < 10 ^ 20 /\ 0 <= total_actions g < 2 ^ 63.
Proof.
  unfold global_emissions_row_ok, fits_numeric, fits_int8. split.
  - intros H. ok_steps H.
    apply andb_prop in Hstep0. destruct Hstep0 as [_ Hhi].
    apply Z.ltb_lt in Hstep, Hhi. apply Z.leb_le in Hstep1, H. lia.
  - intros [[H1 H2] [H3 H4]].
    replace (Z.abs (total_lbs_saved g) <? 10 ^ 20) with true
      by (symmetry; apply Z.ltb_lt; lia).
    replace (- 2 ^ 63 <=? total_actions g) with true
      by (symmetry; apply Z.leb_le; lia).
    replace (total_actions g <? 2 ^ 63) with true
      by (symmetry; apply Z.ltb_lt; lia).
    replace (0 <=? total_lbs_saved g) with true
      by (symmetry; apply Z.leb_le; lia).
    replace (0 <=? total_actions g) with true
      by (symmetry; apply Z.leb_le; lia).
    reflexivity.
Qed.

Lemma sync_audit_log_row_ok_intro (a : sync_audit_log_row) :
  Z.abs (user_stats_sum a) < 10 ^ 20 ->
  Z.abs (global_total a) < 10 ^ 20 ->
  Z.abs (discrepancy a) < 10 ^ 20 ->
  sync_audit_log_row_ok a = Ok tt.
Proof.
  intros H1 H2 H3. unfold sync_audit_log_row_ok, fits_numeric.
  apply Z.ltb_lt in H1, H2, H3. now rewrite H1, H2, H3.
Qed.

(** ** Lookup and replacement *)

Section Lists.
Context {A : Type}.
Variables (p q : A -> bool).

Lemma replace_first_same (x : A) (l : list A) :
  find p l = Some x -> replace_first p x l = l.
Proof.
  induction l as [| a t IH]; simpl; [discriminate |].
  destruct (p a) eqn:E; intros H.
  - now inversion H.
  - now rewrite IH.
Qed.

Lemma find_replace_first (x y : A) (l : list A) :
  find p l = Some x -> p y = true -> find p (replace_first p y l) = Some y.
Proof.
  induction l as [| a t IH]; simpl; [discriminate |].
  destruct (p a) eqn:E; intros H Hy; simpl.
  - now rewrite Hy.
  - rewrite E. now apply IH.
Qed.

Lemma find_replace_first_other (x y : A) (l : list A) :
  find p l = Some x -> q x = false -> q y = false ->
  find q (replace_first p y l) = find q l.
Proof.
  induction l as [| a t IH]; simpl; [discriminate |].
  destruct (p a) eqn:E; intros H Hx Hy; simpl.
  - inversion H; subst. now rewrite Hx, Hy.
  - now rewrite IH.
Qed.

Lemma find_snoc (y : A) (l : list A) :
  find p (l ++ [y]) =
  match find p l with
  | Some x => Some x
  | None => if p y then Some y else None
  end.
Proof.
  induction l as [| a t IH]; simpl; [reflexivity |].
  now destruct (p a).
Qed.

Lemma sum_replace_first (f : A -> Z) (x y : A) (l : list A) :
  find p l = Some x ->
  fold_right Z.add 0 (map f (replace_first p y l)) =
  fold_right Z.add 0 (map f l) - f x + f y.
Proof.
  induction l as [| a t IH]; simpl; [discriminate |].
  destruct (p a) eqn:E; intros H; simpl.
  - inversion H; subst. lia.
  - rewrite IH by exact H. lia.
Qed.

Lemma sum_snoc (f : A -> Z) (y : A) (l : list A) :
  fold_right Z.add 0 (map f (l ++ [y])) = fold_right Z.add 0 (map f l) + f y.
Proof.
  induction l as [| a t IH]; simpl; lia.
Qed.
End Lists.

(** ** The aggregator keeps the drift *)

Lemma upsert_user_stats_sum now NEW st st1 :
  upsert_user_stats now NEW st = Ok st1 ->
  stats_sum st1 = stats_sum st + emissions_saved_lbs NEW /\
  global_emissions st1 = global_emissions st /\ same_log st st1.
Proof.
  unfold upsert_user_stats, stats_sum, same_log. intros H.
  apply bind_Ok in H as [u [_ H]].
  destruct (find_stats (ua_user_id NEW) st) as [old |] eqn:F;
    ok_steps H; inversion H; subst; clear H; simpl.
  - rewrite (sum_replace_first _ total_emissions_lbs old) by exact F.
    simpl. repeat split; try reflexivity. lia.
  - rewrite sum_snoc. simpl. repeat split; reflexivity.
Qed.

Lemma bump_global_emissions_total now NEW st st2 :
  bump_global_emissions now NEW st = Ok st2 ->
  total_lbs_saved (global_emissions st2) =
    total_lbs_saved (global_emissions st) + emissions_saved_lbs NEW /\
  total_actions (global_emissions st2) = total_actions (global_emissions st) + 1 /\
  user_stats st2 = user_stats st /\ same_log st st2.
Proof.
  unfold bump_global_emissions, same_log. intros H.
  ok_steps H. inversion H; subst; simpl. repeat split.
Qed.

Lemma trigger_function_drift now OLD NEW st st' R :
  global_sync_trigger_function now OLD NEW st = Ok (st', R) ->
  drift st' = drift st /\ same_log st st'.
Proof.
  unfold global_sync_trigger_function.
  destruct (verified NEW && _); intros H.
  - apply bind_Ok in H as [st1 [H1 H]].
    apply bind_Ok in H as [st2 [H2 H]].
    inversion H; subst; clear H.
    apply upsert_user_stats_sum in H1.
    apply bump_global_emissions_total in H2.
    destruct H1 as [Hs [Hg [Hu [Ha Hl]]]].
    destruct H2 as [Ht [_ [Hus [Hu' [Ha' Hl']]]]].
    unfold drift, stats_sum, same_log in *.
    rewrite Ht, Hus, Hs, Hg. repeat split; try congruence. lia.
  - inversion H; subst. unfold same_log. repeat split.
Qed.

Lemma with_user_actions_drift l st : drift (with_user_actions l st) = drift st.
Proof. reflexivity. Qed.

Lemma insert_trigger_drift now NEW st st' :
  global_sync_insert_trigger now NEW st = Ok st' -> drift st' = drift st.
Proof.
  unfold global_sync_insert_trigger. destruct (verified NEW); intros H.
  - apply bind_Ok in H as [[s R] [H1 H]]. inversion H; subst; simpl.
    now apply trigger_function_drift in H1.
  - now inversion H.
Qed.

Lemma update_trigger_drift now OLD NEW st st' :
  global_sync_trigger now OLD NEW st = Ok st' -> drift st' = drift st.
Proof.
  unfold global_sync_trigger.
  destruct (verified NEW && negb (verified OLD)); intros H.
  - apply bind_Ok in H as [[s R] [H1 H]]. inversion H; subst; simpl.
    now apply trigger_function_drift in H1.
  - now inversion H.
Qed.

Lemma insert_user_action_drift now NEW st st' :
  insert_user_action now NEW st = Ok st' -> drift st' = drift st.
Proof.
  unfold insert_user_action. intros H. ok_steps H.
  apply insert_trigger_drift in H. now rewrite H, with_user_actions_drift.
Qed.

Lemma update_verified_drift now id v st st' n :
  update_verified now id v st = Ok (st', n) -> drift st' = drift st.
Proof.
  unfold update_verified.
  destruct (find_action id st) as [OLD |]; intros H.
  - apply bind_Ok in H as [s [H1 H]]. inversion H; subst; clear H.
    apply update_trigger_drift in H1.
    now rewrite H1, with_user_actions_drift.
  - now inversion H.
Qed.

Lemma markVerified_Ok now id st st' :
  markVerified now id st = Ok st' <-> update_verified now id true st = Ok (st', 1%nat).
Proof.
  unfold markVerified, update_verified.
  destruct (find_action id st) as [OLD |]; simpl.
  - destruct (global_sync_trigger _ _ _ _) as [s | e]; simpl; split; intros H;
      now inversion H.
  - split; intros H; discriminate.
Qed.

Lemma exec_drift now s st st' :
  exec now s st = Ok st' -> drift st' = drift st.
Proof.
  destruct s as [id actor kind qty unit_name lbs | id | NEW]; simpl.
  - unfold append. intros H. ok_steps H.
    now apply insert_user_action_drift in H.
  - intros H. apply markVerified_Ok in H.
    now apply update_verified_drift in H.
  - apply insert_user_action_drift.
Qed.

Lemma commit_drift now s st : drift (commit now s st) = drift st.
Proof.
  unfold commit. destruct (exec now s st) as [st' |] eqn:E; [| reflexivity].
  now apply exec_drift in E.
Qed.

Lemma run_drift h st : drift (run h st) = drift st.
Proof.
  revert st. induction h as [| [now s] h IH]; intros st; simpl; [reflexivity |].
  now rewrite IH, commit_drift.
Qed.

(** ** The reconciler *)

Lemma sync_when_in_sync now st :
  Z.abs (stats_sum st - total_lbs_saved (global_emissions st)) < epsilon ->
  sync_global_emissions_from_user_stats now st =
  Ok (st, {| r_was_in_sync := true;
             r_user_stats_sum := stats_sum st;
             r_global_total := total_lbs_saved (global_emissions st);
             r_fixed := false |}).
Proof.
  intros H. unfold sync_global_emissions_from_user_stats.
  apply Z.ltb_lt in H. now rewrite H.
Qed.

Lemma sync_leaves_in_sync now st st' r :
  sync_global_emissions_from_user_stats now st = Ok (st', r) ->
  Z.abs (total_lbs_saved (global_emissions st') - stats_sum st') < epsilon.
Proof.
  unfold sync_global_emissions_from_user_stats.
  destruct (Z.abs (stats_sum st - total_lbs_saved (global_emissions st)) <? epsilon)
    eqn:E; simpl; intros H.
  - inversion H; subst. apply Z.ltb_lt in E. lia.
  - ok_steps H. inversion H; subst; simpl. unfold stats_sum at 2. simpl.
    fold (stats_sum st). unfold epsilon. rewrite Z.sub_diag. simpl. lia.
Qed.

(** C1.  After any history of [append], [markVerified] and plain insert
    statements, in any order and with failed statements rolled back, a
    call of the reconciler returns, and it leaves the global total less
    than [epsilon] (0.01) away from the sum of the actor totals.  More
    generally, from whatever database the reconciler starts, if it
    returns it leaves the two that close. *)
Theorem reconcile_after_any_history :
  (forall (accounts : list users_row) (h : list (timestamptz * statement))
          (now : timestamptz),
   exists st' r,
     sync_global_emissions_from_user_stats now (run h (db_init accounts))
       = Ok (st', r) /\
     Z.abs (total_lbs_saved (global_emissions st') - stats_sum st') < epsilon) /\
  (forall (now : timestamptz) (st st' : db) (r : sync_result),
   sync_global_emissions_from_user_stats now st = Ok (st', r) ->
   Z.abs (total_lbs_saved (global_emissions st') - stats_sum st') < epsilon).
Proof.
  split; [| exact sync_leaves_in_sync].
  intros accounts h now.
  assert (D : drift (run h (db_init accounts)) = 0)
    by (rewrite run_drift; reflexivity).
  assert (S : Z.abs (stats_sum (run h (db_init accounts))
                     - total_lbs_saved (global_emissions (run h (db_init accounts))))
              < epsilon)
    by (unfold drift in D; unfold epsilon; lia).
  eexists. eexists. split.
  - apply sync_when_in_sync. exact S.
  - unfold epsilon in *. lia.
Qed.

Lemma reconcile_after_any_history_witness :
  exists st' r,
    sync_global_emissions_from_user_stats 9 tampered = Ok (st', r) /\
    Z.abs (total_lbs_saved (global_emissions st') - stats_sum st') < epsilon.
Proof.
  eexists. eexists. split; [vm_compute; reflexivity |].
  exact (proj2 reconcile_after_any_history 9 tampered _ _ eq_refl).
Defined.

(** C2.  On a database whose global row and actor sum are values of the
    [NUMERIC(20,4)] column, the reconciler compares the sum of the actor
    totals with the global total.  Within [epsilon] it reports
    [was_in_sync = true] and writes nothing.  Otherwise it overwrites the
    global total with the sum, reports [fixed = true], and appends one
    audit row that carries the sum, the global total it saw and their
    distance. *)
Theorem reconcile_contract :
  forall (now : timestamptz) (st : db),
  let actorSum := stats_sum st in
  let g := global_emissions st in
  0 <= total_lbs_saved g < 10 ^ 20 ->
  0 <= total_actions g < 2 ^ 63 ->
  0 <= actorSum < 10 ^ 20 ->
  (Z.abs (actorSum - total_lbs_saved g) < epsilon ->
   sync_global_emissions_from_user_stats now st =
   Ok (st, {| r_was_in_sync := true;
              r_user_stats_sum := actorSum;
              r_global_total := total_lbs_saved g;
              r_fixed := false |})) /\
  (epsilon <= Z.abs (actorSum - total_lbs_saved g) ->
   sync_global_emissions_from_user_stats now st =
   Ok ({| users := users st;
          user_actions := user_actions st;
          user_stats := user_stats st;
          global_emissions :=
            {| total_lbs_saved := actorSum;
               total_actions := total_actions g;
               ge_last_updated := now |};
          sync_audit_log :=
            sync_audit_log st ++
            [{| check_timestamp := now;
                was_in_sync := false;
                user_stats_sum := actorSum;
                global_total := total_lbs_saved g;
                discrepancy := Z.abs (actorSum - total_lbs_saved g);
                fixed := true;
                details := None |}] |},
       {| r_was_in_sync := false;
          r_user_stats_sum := actorSum;
          r_global_total := total_lbs_saved g;
          r_fixed := true |})).
Proof.
  intros now st actorSum g Hg Hn Hs. split.
  - apply sync_when_in_sync.
  - intros Hfar. unfold sync_global_emissions_from_user_stats.
    fold actorSum. fold g.
    replace (Z.abs (actorSum - total_lbs_saved g) <? epsilon) with false
      by (symmetry; apply Z.ltb_ge; exact Hfar).
    cbv beta iota zeta. unfold negb.
    rewrite (proj2 (global_emissions_row_ok_iff _)) by (cbn [total_lbs_saved total_actions]; lia).
    rewrite sync_audit_log_row_ok_intro
      by (cbn [user_stats_sum global_total discrepancy]; lia).
    reflexivity.
Qed.

Lemma reconcile_contract_witness :
  sync_global_emissions_from_user_stats 9 second_pending =
  Ok (second_pending,
      {| r_was_in_sync := true; r_user_stats_sum := 50000;
         r_global_total := 50000; r_fixed := false |}) /\
  sync_global_emissions_from_user_stats 9 tampered =
  Ok ({| users := [];
         user_actions := [];
         user_stats := user_stats tampered;
         global_emissions :=
           {| total_lbs_saved := 80000; total_actions := 2; ge_last_updated := 9 |};
         sync_audit_log :=
           [{| check_timestamp := 9; was_in_sync := false;
               user_stats_sum := 80000; global_total := 1000000;
               discrepancy := 920000; fixed := true; details := None |}] |},
      {| r_was_in_sync := false; r_user_stats_sum := 80000;
         r_global_total := 1000000; r_fixed := true |}).
Proof.
  split.
  - apply (proj1 (reconcile_contract 9 second_pending
                    ltac:(evaluate) ltac:(evaluate) ltac:(evaluate))).
    evaluate.
  - apply (proj2 (reconcile_contract 9 tampered
                    ltac:(evaluate) ltac:(evaluate) ltac:(evaluate))).
    evaluate.
Defined.

(** What the reconciler writes to the audit log.  A call that finds the
    rollups in sync appends nothing; one that finds them out of sync
    appends exactly one row, with [was_in_sync] false and [fixed] true:
    the two columns never take another value.  Either way the call
    returns one result row. *)
Lemma reconcile_audits_repairs_only :
  forall (now : timestamptz) (st st' : db) (r : sync_result),
  sync_global_emissions_from_user_stats now st = Ok (st', r) ->
  sync_audit_log st' =
  sync_audit_log st ++
  (if r_was_in_sync r then []
   else [{| check_timestamp := now;
            was_in_sync := false;
            user_stats_sum := r_user_stats_sum r;
            global_total := r_global_total r;
            discrepancy := Z.abs (r_user_stats_sum r - r_global_total r);
            fixed := true;
            details := None |}]).
Proof.
  intros now st st' r. unfold sync_global_emissions_from_user_stats.
  destruct (Z.abs (stats_sum st - total_lbs_saved (global_emissions st)) <? epsilon);
    simpl; intros H.
  - inversion H; subst; simpl. now rewrite app_nil_r.
  - ok_steps H. inversion H; subst; simpl. reflexivity.
Qed.

Lemma reconcile_audits_repairs_only_witness :
  (exists st' r,
     sync_global_emissions_from_user_stats 9 tampered = Ok (st', r) /\
     sync_audit_log st' =
     [{| check_timestamp := 9; was_in_sync := false;
         user_stats_sum := 80000; global_total := 1000000;
         discrepancy := 920000; fixed := true; details := None |}]) /\
  (exists st' r,
     sync_global_emissions_from_user_stats 9 (db_init [alice; bob]) = Ok (st', r) /\
     sync_audit_log st' = []).
Proof.
  split; eexists; eexists.
  - split; [vm_compute; reflexivity |].
    exact (reconcile_audits_repairs_only 9 tampered _ _ eq_refl).
  - split; [vm_compute; reflexivity |].
    exact (reconcile_audits_repairs_only 9 (db_init [alice; bob]) _ _ eq_refl).
Defined.


(** ** One firing of the aggregator *)

Lemma is_stats_of_other (uid other : uuid) (r : user_stats_row) :
  is_stats_of uid r = true -> other <> uid -> is_stats_of other r = false.
Proof.
  unfold is_stats_of. intros H Hne. apply String.eqb_eq in H.
  apply String.eqb_neq. congruence.
Qed.

Lemma trigger_function_applies now OLD NEW st :
  verified NEW = true ->
  match OLD with None => True | Some o => verified o = false end ->
  delta_fits (ua_user_id NEW) (emissions_saved_lbs NEW) st ->
  exists st' R,
    global_sync_trigger_function now OLD NEW st = Ok (st', R) /\
    applies_delta (ua_user_id NEW) (emissions_saved_lbs NEW) st st' /\
    same_log st st'.
Proof.
  intros Hv Ho [Hu [Hq [Hrow [Hg Hn]]]].
  unfold global_sync_trigger_function, upsert_user_stats, applies_delta.
  rewrite Hv.
  replace (match OLD with None => true | Some o => negb (verified o) end)
    with true by (destruct OLD as [o |]; [now rewrite Ho | reflexivity]).
  cbn [andb].
  rewrite (proj2 (user_stats_row_ok_iff _))
    by (cbn [total_emissions_lbs action_count]; lia).
  cbn [bind].
  destruct (find_stats (ua_user_id NEW) st) as [old |] eqn:F.
  - assert (Hold : is_stats_of (ua_user_id NEW) old = true)
      by (apply (find_some _ _ F)).
    rewrite (proj2 (user_stats_row_ok_iff _))
      by (cbn [total_emissions_lbs action_count]; lia).
    cbn [bind]. unfold bump_global_emissions.
    rewrite (proj2 (global_emissions_row_ok_iff _))
      by (cbn [total_lbs_saved total_actions global_emissions]; lia).
    cbn [bind]. eexists. eexists. split; [reflexivity |].
    unfold find_stats, same_log in *. cbn -[Z.add Z.pow]. repeat split.
    + eexists. split.
      * apply (find_replace_first _ old); [exact F | exact Hold].
      * split; reflexivity.
    + intros other Hne.
      apply (find_replace_first_other _ _ old); [exact F | |];
        apply (is_stats_of_other (ua_user_id NEW)); assumption.
  - rewrite Hu. cbn [bind check]. unfold bump_global_emissions.
    rewrite (proj2 (global_emissions_row_ok_iff _))
      by (cbn [total_lbs_saved total_actions global_emissions]; lia).
    cbn [bind]. eexists. eexists. split; [reflexivity |].
    unfold find_stats, same_log in *. cbn -[Z.add Z.pow]. repeat split.
    + eexists. split.
      * rewrite find_snoc, F. unfold is_stats_of. cbn -[Z.add Z.pow].
        now rewrite String.eqb_refl.
      * split; reflexivity.
    + intros other Hne. rewrite find_snoc.
      destruct (find (is_stats_of other) (user_stats st)); [reflexivity |].
      unfold is_stats_of. cbn -[Z.add Z.pow].
      replace (String.eqb (ua_user_id NEW) other) with false; [reflexivity |].
      symmetry. apply String.eqb_neq. congruence.
Qed.

Lemma set_verified_same (r : user_actions_row) :
  set_verified (verified r) r = r.
Proof. now destruct r. Qed.

Lemma with_user_actions_same (st : db) :
  with_user_actions (user_actions st) st = st.
Proof. now destruct st. Qed.

(** The update of a row that is already verified changes nothing. *)
Lemma update_verified_again now id st OLD :
  find_action id st = Some OLD -> verified OLD = true ->
  update_verified now id true st = Ok (st, 1%nat).
Proof.
  intros F Hv. unfold update_verified, global_sync_trigger. rewrite F.
  assert (E : set_verified true OLD = OLD)
    by (rewrite <- Hv; apply set_verified_same).
  rewrite E, Hv. cbn [negb andb bind].
  unfold find_action in F.
  now rewrite (replace_first_same _ _ _ F), with_user_actions_same.
Qed.

(** The update of an unverified row fires the aggregator once and stores
    the row with its flag set and every other column as it was. *)
Lemma update_verified_first now id st OLD :
  find_action id st = Some OLD -> verified OLD = false ->
  delta_fits (ua_user_id OLD) (emissions_saved_lbs OLD) st ->
  exists st',
    update_verified now id true st = Ok (st', 1%nat) /\
    applies_delta (ua_user_id OLD) (emissions_saved_lbs OLD) st st' /\
    find_action id st' = Some (set_verified true OLD).
Proof.
  intros F Hv Hfit. unfold update_verified, global_sync_trigger. rewrite F.
  rewrite Hv. cbn [verified set_verified negb andb].
  destruct (trigger_function_applies now (Some OLD) (set_verified true OLD)
              (with_user_actions
                 (replace_first (is_action id) (set_verified true OLD)
                    (user_actions st)) st))
    as [st' [R [HT [HA [_ [HU _]]]]]]; [reflexivity | exact Hv | exact Hfit |].
  rewrite HT. cbn [bind fst]. exists st'. split; [reflexivity |].
  split; [exact HA |].
  unfold find_action in *. rewrite HU. cbn [user_actions with_user_actions].
  apply (find_replace_first _ OLD); [exact F |].
  apply (find_some _ _ F).
Qed.

(** C3.  When [markVerified] meets an unverified event and the rollup
    columns can hold the new values, it succeeds, and that one transition
    adds the event's quantity to its actor's total (creating the rollup
    with that quantity and count 1 when the actor had none, else raising
    its count by one), leaves every other actor's rollup alone, adds the
    quantity to the global total and one to the global count, and stores
    the event with its flag set. *)
Theorem aggregator_applies_one_transition :
  forall (now : timestamptz) (id : uuid) (st : db) (e : user_actions_row),
  find_action id st = Some e ->
  verified e = false ->
  delta_fits (ua_user_id e) (emissions_saved_lbs e) st ->
  exists st',
    markVerified now id st = Ok st' /\
    applies_delta (ua_user_id e) (emissions_saved_lbs e) st st' /\
    find_action id st' = Some (set_verified true e).
Proof.
  intros now id st e F Hv Hfit.
  destruct (update_verified_first now id st e F Hv Hfit) as [st' [HU [HA HF]]].
  exists st'. split; [| split; assumption].
  now apply markVerified_Ok.
Qed.

Lemma aggregator_applies_one_transition_witness :
  (exists st',
     markVerified 20 "e1" one_pending = Ok st' /\
     applies_delta "A" 50000 one_pending st' /\
     find_action "e1" st' = Some (set_verified true e1)) /\
  (exists st',
     markVerified 35 "e3" second_pending = Ok st' /\
     applies_delta "A" 20000 second_pending st' /\
     find_action "e3" st' = Some (set_verified true e3)).
Proof.
  split.
  - apply (aggregator_applies_one_transition 20 "e1" one_pending e1);
      evaluate.
  - apply (aggregator_applies_one_transition 35 "e3" second_pending e3);
      evaluate.
Defined.

(** C4.  [markVerified] on an event that is already verified returns
    without error and leaves the whole database as it is; and after one
    successful [markVerified] a second one on the same event returns the
    same database, so the actor and global rollups are those of calling
    it once. *)
Theorem markVerified_idempotent :
  forall (t1 t2 : timestamptz) (id : uuid) (st : db),
  (forall e, find_action id st = Some e -> verified e = true ->
             markVerified t1 id st = Ok st) /\
  (forall st1, markVerified t1 id st = Ok st1 ->
               markVerified t2 id st1 = Ok st1).
Proof.
  intros t1 t2 id st. split.
  - intros e F Hv. apply markVerified_Ok.
    now apply (update_verified_again t1 id st e).
  - intros st1 H. apply markVerified_Ok in H. apply markVerified_Ok.
    unfold update_verified in H.
    destruct (find_action id st) as [OLD |] eqn:F; [| discriminate].
    apply bind_Ok in H as [s [HT H]]. inversion H; subst s; clear H.
    assert (F1 : find_action id st1 = Some (set_verified true OLD)).
    { unfold global_sync_trigger in HT.
      assert (HU : user_actions st1 =
                   replace_first (is_action id) (set_verified true OLD)
                     (user_actions st)).
      { destruct (verified (set_verified true OLD) && negb (verified OLD)).
        - apply bind_Ok in HT as [[s R] [HT H]]. inversion H; subst; clear H.
          apply trigger_function_drift in HT. now destruct HT as [_ [_ [HU _]]].
        - now inversion HT. }
      unfold find_action in *. rewrite HU.
      apply (find_replace_first _ OLD); [exact F |].
      apply (find_some _ _ F). }
    now apply (update_verified_again t2 id st1 _ F1).
Qed.

Lemma markVerified_idempotent_witness :
  markVerified 30 "e1"
    (with_user_actions [set_verified true e1] one_pending) =
  Ok (with_user_actions [set_verified true e1] one_pending) /\
  exists st1,
    markVerified 20 "e1" one_pending = Ok st1 /\
    markVerified 30 "e1" st1 = Ok st1.
Proof.
  split.
  - apply (proj1 (markVerified_idempotent 30 30 "e1"
                    (with_user_actions [set_verified true e1] one_pending))
             (set_verified true e1));
      evaluate.
  - eexists. split.
    + vm_compute. reflexivity.
    + apply (proj2 (markVerified_idempotent 20 30 "e1" one_pending)).
      vm_compute. reflexivity.
Defined.

(** C8, at a concrete run.  A appends an event at time 10 and the event
    is marked verified at time 20: both statements succeed, and the
    stored event then has [verified = TRUE] with [verified_at] still
    null.  The trigger function computes a record with
    [verified_at = 20], but it runs as an AFTER trigger, whose returned
    record is dropped. *)
Theorem verified_event_without_verified_at :
  exists st1 st2 row,
    append 10 "e1" "A" "bike" 1000 "km" 50000 (db_init [alice; bob]) = Ok st1 /\
    markVerified 20 "e1" st1 = Ok st2 /\
    find_action "e1" st2 = Some row /\
    verified row = true /\
    verified_at row = None /\
    option_map (fun r => verified_at (snd r))
      (match global_sync_trigger_function 20 (Some e1) (set_verified true e1) st1 with
       | Ok r => Some r
       | Err _ => None
       end) = Some (Some 20).
Proof.
  eexists. eexists. eexists.
  split; [vm_compute; reflexivity |].
  split; [vm_compute; reflexivity |].
  split; [vm_compute; reflexivity |].
  split; [reflexivity |].
  split; reflexivity.
Qed.

Lemma user_actions_row_ok_intro (r : user_actions_row) :
  0 < quantity r < 10 ^ 12 ->
  0 <= emissions_saved_lbs r < 10 ^ 14 ->
  user_actions_row_ok r = Ok tt.
Proof.
  intros Hq He. unfold user_actions_row_ok, fits_numeric.
  replace (Z.abs (quantity r) <? 10 ^ 12) with true
    by (symmetry; apply Z.ltb_lt; lia).
  replace (Z.abs (emissions_saved_lbs r) <? 10 ^ 14) with true
    by (symmetry; apply Z.ltb_lt; lia).
  replace (0 <? quantity r) with true by (symmetry; apply Z.ltb_lt; lia).
  replace (0 <=? emissions_saved_lbs r) with true
    by (symmetry; apply Z.leb_le; lia).
  reflexivity.
Qed.

(** C10.  An event that is inserted with [verified = TRUE] (its key
    fresh, its columns within their types, the rollup columns able to
    hold the new values) is stored, and the insert itself adds its
    quantity to its actor's rollup and to the global rollup and one to
    the counts.  Any later [markVerified] on that event succeeds and
    changes nothing, so the event is counted once. *)
Theorem insert_verified_counts_once :
  forall (now : timestamptz) (NEW : user_actions_row) (st : db),
  verified NEW = true ->
  0 < quantity NEW < 10 ^ 12 ->
  0 <= emissions_saved_lbs NEW < 10 ^ 14 ->
  find_action (action_id NEW) st = None ->
  delta_fits (ua_user_id NEW) (emissions_saved_lbs NEW) st ->
  exists st',
    insert_user_action now NEW st = Ok st' /\
    applies_delta (ua_user_id NEW) (emissions_saved_lbs NEW) st st' /\
    find_action (action_id NEW) st' = Some NEW /\
    forall t, markVerified t (action_id NEW) st' = Ok st'.
Proof.
  intros now NEW st Hv Hq He Hfresh Hfit.
  unfold insert_user_action, global_sync_insert_trigger.
  rewrite (user_actions_row_ok_intro NEW Hq He), Hfresh.
  rewrite (proj1 Hfit), Hv. cbn [bind check].
  destruct (trigger_function_applies now None NEW
              (with_user_actions (user_actions st ++ [NEW]) st) Hv I Hfit)
    as [st' [R [HT [HA [_ [HU _]]]]]].
  rewrite HT. cbn [bind fst]. exists st'. split; [reflexivity |].
  split; [exact HA |].
  assert (F : find_action (action_id NEW) st' = Some NEW).
  { unfold find_action in *. rewrite HU. cbn [user_actions with_user_actions].
    rewrite find_snoc, Hfresh. unfold is_action. now rewrite String.eqb_refl. }
  split; [exact F |].
  intros t. apply markVerified_Ok.
  now apply (update_verified_again t _ st' NEW).
Qed.

Lemma insert_verified_counts_once_witness :
  exists st',
    insert_user_action 40 e2 one_pending = Ok st' /\
    applies_delta "B" 30000 one_pending st' /\
    find_action "e2" st' = Some e2 /\
    forall t, markVerified t "e2" st' = Ok st'.
Proof.
  apply (insert_verified_counts_once 40 e2 one_pending); evaluate.
Defined.

(** ** Ordering and numbering *)

Section Ordering.
Context {A : Type}.
Variable before : A -> A -> bool.

Local Abbreviation in_order := (in_order before).

Hypothesis before_asym : forall a b, before a b = true -> before b a = false.
Hypothesis in_order_trans :
  forall a b c, in_order a b -> in_order b c -> in_order a c.

Lemma insert_by_Forall (P : A -> Prop) (x : A) (l : list A) :
  P x -> Forall P l -> Forall P (insert_by before x l).
Proof.
  intros Hx. induction l as [| y t IH]; simpl; intros Hl.
  - auto.
  - inversion Hl; subst. destruct (before y x); auto.
Qed.

Lemma order_by_Forall (P : A -> Prop) (l : list A) :
  Forall P l -> Forall P (order_by before l).
Proof.
  induction l as [| x t IH]; simpl; intros Hl; [constructor |].
  inversion Hl; subst. apply insert_by_Forall; auto.
Qed.

Lemma insert_by_sorted (x : A) (l : list A) :
  StronglySorted in_order l -> StronglySorted in_order (insert_by before x l).
Proof.
  induction l as [| y t IH]; simpl; intros Hs.
  - repeat constructor.
  - inversion Hs as [| ? ? Ht Hy]; subst.
    destruct (before y x) eqn:E.
    + constructor; [now apply IH |].
      apply insert_by_Forall; [| exact Hy].
      now apply before_asym.
    + constructor; [exact Hs |].
      constructor; [exact E |].
      eapply Forall_impl; [| exact Hy].
      intros z Hz. now apply (in_order_trans x y z).
Qed.

Lemma order_by_sorted (l : list A) : StronglySorted in_order (order_by before l).
Proof.
  induction l as [| x t IH]; simpl; [constructor |].
  now apply insert_by_sorted.
Qed.

Lemma insert_by_length (x : A) (l : list A) :
  List.length (insert_by before x l) = S (List.length l).
Proof.
  induction l as [| y t IH]; simpl; [reflexivity |].
  destruct (before y x); simpl; now rewrite ?IH.
Qed.

Lemma order_by_length (l : list A) :
  List.length (order_by before l) = List.length l.
Proof.
  induction l as [| x t IH]; simpl; [reflexivity |].
  now rewrite insert_by_length, IH.
Qed.
End Ordering.

Lemma In_firstn {A : Type} (n : nat) (l : list A) (z : A) :
  In z (firstn n l) -> In z l.
Proof.
  revert l. induction n as [| n IH]; intros l Hz; simpl in Hz; [contradiction |].
  destruct l as [| y t]; [contradiction |].
  destruct Hz as [-> | Hz]; [now left | right; now apply IH].
Qed.

Lemma StronglySorted_firstn {A : Type} (R : A -> A -> Prop) (n : nat) (l : list A) :
  StronglySorted R l -> StronglySorted R (firstn n l).
Proof.
  revert l. induction n as [| n IH]; intros l Hs; simpl; [constructor |].
  destruct l as [| x t]; [constructor |].
  inversion Hs as [| ? ? Ht Hx]; subst. constructor; [now apply IH |].
  rewrite Forall_forall in *. intros z Hz. apply Hx.
  now apply (In_firstn n).
Qed.

Lemma StronglySorted_nth {A : Type} (R : A -> A -> Prop) (l : list A) :
  StronglySorted R l ->
  forall i j a b, (i < j)%nat -> nth_error l i = Some a -> nth_error l j = Some b ->
                  R a b.
Proof.
  induction 1 as [| x t Hs IH Hx]; intros i j a b Hij Ha Hb.
  - destruct i; discriminate.
  - destruct j as [| j]; [lia |]. simpl in Hb.
    destruct i as [| i]; simpl in Ha.
    + inversion Ha; subst. rewrite Forall_forall in Hx. apply Hx.
      now apply nth_error_In in Hb.
    + apply (IH i j); [lia | assumption | assumption].
Qed.

Lemma row_number_firstn {A : Type} (n : nat) (k : Z) (l : list A) :
  firstn n (row_number k l) = row_number k (firstn n l).
Proof.
  revert k l. induction n as [| n IH]; intros k l; [reflexivity |].
  destruct l as [| x t]; simpl; [reflexivity |]. now rewrite IH.
Qed.

Lemma row_number_fst {A : Type} (s : nat) (l : list A) :
  map fst (row_number (Z.of_nat s) l) = map Z.of_nat (seq s (List.length l)).
Proof.
  revert s. induction l as [| x t IH]; intros s; simpl; [reflexivity |].
  f_equal. replace (Z.of_nat s + 1) with (Z.of_nat (S s)) by lia. apply IH.
Qed.

Lemma row_number_snd {A : Type} (k : Z) (l : list A) :
  map snd (row_number k l) = l.
Proof.
  revert k. induction l as [| x t IH]; intros k; simpl; [reflexivity |].
  now rewrite IH.
Qed.

Lemma row_number_length {A : Type} (k : Z) (l : list A) :
  List.length (row_number k l) = List.length l.
Proof.
  revert k. induction l as [| x t IH]; intros k; simpl; [reflexivity |].
  now rewrite IH.
Qed.

Lemma row_number_nth {A : Type} (k : Z) (l : list A) (i : nat) (r : Z) (x : A) :
  nth_error (row_number k l) i = Some (r, x) ->
  r = k + Z.of_nat i /\ nth_error l i = Some x.
Proof.
  revert k i. induction l as [| y t IH]; intros k i H.
  - destruct i; discriminate.
  - destruct i as [| i]; simpl in H.
    + inversion H; subst. split; [lia | reflexivity].
    + apply IH in H. destruct H as [Hr Hx]. split; [lia | exact Hx].
Qed.

(** ** The ranker in the database *)

Lemma sorts_before_asym (a b : ranked_users_row) :
  sorts_before a b = true -> sorts_before b a = false.
Proof.
  unfold sorts_before.
  destruct (Z.ltb_spec (ru_total_emissions_lbs b) (ru_total_emissions_lbs a));
  destruct (Z.ltb_spec (ru_total_emissions_lbs a) (ru_total_emissions_lbs b));
  destruct (Z.eqb_spec (ru_total_emissions_lbs a) (ru_total_emissions_lbs b));
  destruct (Z.eqb_spec (ru_total_emissions_lbs b) (ru_total_emissions_lbs a));
  destruct (Z.ltb_spec (last_verified_action_at b) (last_verified_action_at a));
  destruct (Z.ltb_spec (last_verified_action_at a) (last_verified_action_at b));
  simpl; intros; try reflexivity; try discriminate; lia.
Qed.

Lemma sorts_before_in_order_trans (a b c : ranked_users_row) :
  in_order sorts_before a b -> in_order sorts_before b c ->
  in_order sorts_before a c.
Proof.
  unfold in_order, sorts_before.
  destruct (Z.ltb_spec (ru_total_emissions_lbs a) (ru_total_emissions_lbs b));
  destruct (Z.ltb_spec (ru_total_emissions_lbs b) (ru_total_emissions_lbs c));
  destruct (Z.ltb_spec (ru_total_emissions_lbs a) (ru_total_emissions_lbs c));
  destruct (Z.eqb_spec (ru_total_emissions_lbs b) (ru_total_emissions_lbs a));
  destruct (Z.eqb_spec (ru_total_emissions_lbs c) (ru_total_emissions_lbs b));
  destruct (Z.eqb_spec (ru_total_emissions_lbs c) (ru_total_emissions_lbs a));
  destruct (Z.ltb_spec (last_verified_action_at a) (last_verified_action_at b));
  destruct (Z.ltb_spec (last_verified_action_at b) (last_verified_action_at c));
  destruct (Z.ltb_spec (last_verified_action_at a) (last_verified_action_at c));
  simpl; intros; try reflexivity; try discriminate; lia.
Qed.

Lemma ranked_users_from_stats (st : db) (r : ranked_users_row) :
  In r (ranked_users st) ->
  exists us,
    In us (user_stats st) /\
    ru_user_id r = us_user_id us /\
    ru_total_emissions_lbs r = total_emissions_lbs us /\
    0 < total_emissions_lbs us /\
    last_verified_action_at r =
      match max_verified_at (us_user_id us) st with
      | Some t => t
      | None => last_updated us
      end.
Proof.
  unfold ranked_users. intros H. apply in_flat_map in H.
  destruct H as [us [Hus H]]. exists us. split; [exact Hus |].
  destruct (Z.ltb_spec 0 (total_emissions_lbs us)) as [Hpos |]; [| contradiction].
  apply in_map_iff in H. destruct H as [u [Hr _]]. subst r. simpl.
  repeat split. exact Hpos.
Qed.

(** What [get_leaderboard] guarantees: it returns for every limit that
    is not negative; only actors whose stored total is above zero are
    listed; the rows are in descending order of total, rows of equal
    total in descending order of the last verification time; of two
    listed actors with equal totals the one verified later has the
    smaller rank. *)
Lemma get_leaderboard_order (s : scan) (limit_count : Z) (st : db) :
  0 <= limit_count ->
  get_leaderboard s limit_count st
    = Ok (map select_row (ranked_rows s limit_count st)) /\
  Forall (fun p => In (snd p) (ranked_users st) /\ 0 < ru_total_emissions_lbs (snd p))
    (ranked_rows s limit_count st) /\
  StronglySorted (in_order sorts_before) (map snd (ranked_rows s limit_count st)) /\
  (forall i j ri rj a b,
     nth_error (ranked_rows s limit_count st) i = Some (ri, a) ->
     nth_error (ranked_rows s limit_count st) j = Some (rj, b) ->
     ru_total_emissions_lbs a = ru_total_emissions_lbs b ->
     last_verified_action_at b < last_verified_action_at a ->
     ri < rj).
Proof.
  intros Hl.
  assert (Hsorted :
    StronglySorted (in_order sorts_before) (map snd (ranked_rows s limit_count st))).
  { unfold ranked_rows. rewrite row_number_firstn, row_number_snd.
    apply StronglySorted_firstn.
    apply order_by_sorted; [apply sorts_before_asym |
                            apply sorts_before_in_order_trans]. }
  split; [| split; [| split; [exact Hsorted |]]].
  - unfold get_leaderboard.
    replace (0 <=? limit_count) with true by (symmetry; now apply Z.leb_le).
    reflexivity.
  - unfold ranked_rows. rewrite row_number_firstn.
    assert (H : Forall (fun r => In r (ranked_users st) /\ 0 < ru_total_emissions_lbs r)
                  (firstn (Z.to_nat limit_count)
                     (order_by sorts_before (deliver s (ranked_users st))))).
    { apply Forall_forall. intros r Hr. apply In_firstn in Hr. revert r Hr.
      apply Forall_forall. apply order_by_Forall. apply Forall_forall.
      intros r Hr.
      apply (Permutation_in _ (deliver_Permutation s (ranked_users st))) in Hr.
      split; [exact Hr |].
      destruct (ranked_users_from_stats st r Hr) as [us [_ [_ [Ht [Hp _]]]]].
      now rewrite Ht. }
    revert H. generalize (firstn (Z.to_nat limit_count)
                            (order_by sorts_before (deliver s (ranked_users st)))).
    generalize 1. intros k l. revert k.
    induction l as [| x t IH]; intros k H; simpl; constructor.
    + inversion H; subst. assumption.
    + inversion H; subst. now apply IH.
  - intros i j ri rj a b Ha Hb Htot Hlast.
    unfold ranked_rows in Ha, Hb. rewrite row_number_firstn in Ha, Hb.
    apply row_number_nth in Ha, Hb.
    destruct Ha as [-> Ha], Hb as [-> Hb].
    unfold ranked_rows in Hsorted.
    rewrite row_number_firstn, row_number_snd in Hsorted.
    assert (Hab : sorts_before a b = true).
    { unfold sorts_before.
      replace (ru_total_emissions_lbs a =? ru_total_emissions_lbs b) with true
        by (symmetry; now apply Z.eqb_eq).
      replace (last_verified_action_at b <? last_verified_action_at a) with true
        by (symmetry; now apply Z.ltb_lt).
      now rewrite orb_true_r. }
    destruct (Nat.lt_trichotomy i j) as [Hij | [Hij | Hij]]; [lia | |].
    + subst j. rewrite Ha in Hb. inversion Hb; subst. lia.
    + pose proof (StronglySorted_nth _ _ Hsorted j i b a Hij Hb Ha) as Hba.
      unfold in_order in Hba. congruence.
Qed.

(** ** The scenarios of the specification, run on the database *)

Example scenario_in_sync :
  let st := run five_then_three (db_init [alice; bob]) in
  map (fun r => (us_user_id r, total_emissions_lbs r)) (user_stats st)
    = [("A"%string, 50000); ("B"%string, 30000)] /\
  total_lbs_saved (global_emissions st) = 80000 /\
  sync_global_emissions_from_user_stats 5 st =
    Ok (st, {| r_was_in_sync := true; r_user_stats_sum := 80000;
               r_global_total := 80000; r_fixed := false |}) /\
  sync_audit_log st = [].
Proof. repeat split; vm_compute; reflexivity. Qed.

Example scenario_tie_broken_by_recency :
  forall s : scan,
    In s [as_stored; backwards] ->
    option_map (map (fun r => (rank r, lb_user_id r, lb_total_emissions_lbs r)))
      (match get_leaderboard s 100 (run ten_each (db_init [alice; bob])) with
       | Ok rows => Some rows
       | Err _ => None
       end)
    = Some [(1, "B"%string, 100000); (2, "A"%string, 100000)].
Proof. intros s [<- | [<- | []]]; vm_compute; reflexivity. Qed.

(** Among peers the scan decides: A and B, verified in one transaction
    with 10.0 each, come out in either order, and the first row under
    limit 1 need not be the first row under limit 2. *)
Example scenario_peers_follow_the_scan :
  let st := run ten_each_at_once (db_init [alice; bob]) in
  no_peers (ranked_users st) = false /\
  option_map (map (fun r => (rank r, lb_user_id r)))
    (match get_leaderboard as_stored 1 st with
     | Ok rows => Some rows
     | Err _ => None
     end)
  = Some [(1, "A"%string)] /\
  option_map (map (fun r => (rank r, lb_user_id r)))
    (match get_leaderboard backwards 2 st with
     | Ok rows => Some rows
     | Err _ => None
     end)
  = Some [(1, "B"%string); (2, "A"%string)].
Proof. repeat split; vm_compute; reflexivity. Qed.

(** ** The ranker and the read adapter in [climateStats.ts] *)

(** C5, at concrete inputs.  A and B both hold 10 and C holds 0, B's
    latest action (time 200) being more recent than A's (time 100).  The
    computed leaderboard lists C with value 0, and it ranks A and B in
    the order the table stores them, whichever was active last. *)
Theorem computed_leaderboard_lists_zero_and_ignores_recency :
  map (fun e => (TS.rank e, TS.le_user e, TS.co2_saved_kg e))
    (TS.calculateLeaderboardFromStats
       (summaries [summary "A" 10 10 100; summary "B" 10 10 200; summary "C" 0 0 50])
       noon TS.all_time 10)
  = [(1, "A"%string, 10%Q); (2, "B"%string, 10%Q); (3, "C"%string, 0%Q)] /\
  map (fun e => (TS.rank e, TS.le_user e, TS.co2_saved_kg e))
    (TS.calculateLeaderboardFromStats
       (summaries [summary "B" 10 10 200; summary "A" 10 10 100; summary "C" 0 0 50])
       noon TS.all_time 10)
  = [(1, "B"%string, 10%Q); (2, "A"%string, 10%Q); (3, "C"%string, 0%Q)].
Proof. split; vm_compute; reflexivity. Qed.

(** C6, at concrete inputs.  A holds 10 in all and 1 this month, B holds
    5 in all and 3 this month.  The computed monthly leaderboard returns
    B then A with the rank fields 2 then 1; and with limit 1 it returns
    A, the leader of the all-time order, although B leads the month. *)
Theorem computed_leaderboard_ranks_before_sorting :
  map (fun e => (TS.rank e, TS.le_user e, TS.co2_saved_kg e))
    (TS.calculateLeaderboardFromStats
       (summaries [summary "A" 10 1 100; summary "B" 5 3 200])
       noon TS.monthly 100)
  = [(2, "B"%string, 3%Q); (1, "A"%string, 1%Q)] /\
  map (fun e => (TS.rank e, TS.le_user e, TS.co2_saved_kg e))
    (TS.calculateLeaderboardFromStats
       (summaries [summary "A" 10 1 100; summary "B" 5 3 200])
       noon TS.monthly 1)
  = [(1, "A"%string, 1%Q)].
Proof. split; vm_compute; reflexivity. Qed.

(** Whenever the four leaderboard tables answer without error and
    without rows, [getLeaderboardEntries] returns the empty list, whatever
    the legacy leaderboard service holds. *)
Lemma legacy_leaderboard_not_consulted (s : TS.server) (c : TS.clock)
    (p : TS.period) (sc : TS.scope) (scopeId : option string) (limit : nat) :
  TS.leaderboard_snapshots s = TS.Rows [] ->
  TS.leaderboards s = TS.Rows [] ->
  TS.user_stats_summary s = TS.Rows [] ->
  TS.user_statistics s = TS.Rows [] ->
  TS.getLeaderboardEntries s c p sc scopeId limit = [].
Proof.
  intros H1 H2 H3 H4.
  unfold TS.getLeaderboardEntries, TS.calculateLeaderboardFromStats.
  rewrite H1, H2, H3, H4. cbn.
  destruct limit; reflexivity.
Qed.

(** C9, at concrete inputs.  The current and the prior generation answer
    without rows and the legacy leaderboard service holds an entry for A:
    [getLeaderboardEntries] returns the empty list.  When the prior stats
    table answers with an error instead, the same call does return A from
    the legacy service. *)
Theorem read_adapter_skips_legacy_leaderboard :
  TS.getLeaderboard (legacy_only (TS.Rows [])) 100 = TS.Resolved [legacy_A] /\
  TS.getLeaderboardEntries (legacy_only (TS.Rows [])) noon TS.all_time TS.global
    None 100 = [] /\
  map (fun e => (TS.rank e, TS.le_user e))
    (TS.getLeaderboardEntries (legacy_only TS.Failing) noon TS.all_time TS.global
       None 100) = [(1, "A"%string)].
Proof. repeat split; vm_compute; reflexivity. Qed.

(** ** What the cascade of the read adapter does do *)

(** A row of the current generation is returned as it is, and nothing
    else is read. *)
Lemma getUserStatistics_current (s : TS.server) (c : TS.clock) (userId : string)
    (l : list TS.UserStatsSummaryRow) (prodData : TS.UserStatsSummaryRow) :
  TS.user_stats_summary s = TS.Rows l ->
  filter (fun r => String.eqb (TS.uss_user_id r) userId) l = [prodData] ->
  TS.getUserStatistics s c userId =
  Some {| TS.user_id := TS.uss_user_id prodData;
          TS.total_co2_saved_kg :=
            TS.parseFloat_or (TS.uss_total_co2_saved_kg prodData) 0;
          TS.total_actions_count := TS.count_or_0 (TS.uss_total_actions prodData);
          TS.current_month_co2_saved :=
            TS.parseFloat_or (TS.uss_current_month_co2 prodData) 0;
          TS.current_year_co2_saved :=
            TS.parseFloat_or (TS.uss_current_year_co2 prodData) 0;
          TS.streak_days := TS.count_or_0 (TS.uss_streak_days prodData);
          TS.last_action_date := TS.uss_last_action_date prodData;
          TS.updated_at := TS.uss_updated_at prodData |}.
Proof.
  intros Ht Hrow. unfold TS.getUserStatistics, TS.maybeSingle.
  now rewrite Ht, Hrow.
Qed.

(** Without a row in the current generation, a row of the prior one is
    returned as it is. *)
Lemma getUserStatistics_prior (s : TS.server) (c : TS.clock) (userId : string)
    (l : list TS.UserStatsSummaryRow) (l' : list TS.UserStatisticsRow)
    (prevData : TS.UserStatisticsRow) :
  TS.user_stats_summary s = TS.Rows l ->
  filter (fun r => String.eqb (TS.uss_user_id r) userId) l = [] ->
  TS.user_statistics s = TS.Rows l' ->
  filter (fun r => String.eqb (TS.ust_user_id r) userId) l' = [prevData] ->
  TS.getUserStatistics s c userId =
  Some {| TS.user_id := TS.ust_user_id prevData;
          TS.total_co2_saved_kg :=
            TS.parseFloat_or (TS.ust_total_co2_saved_kg prevData) 0;
          TS.total_actions_count :=
            TS.count_or_0 (TS.ust_total_actions_count prevData);
          TS.current_month_co2_saved :=
            TS.parseFloat_or (TS.ust_current_month_co2_saved prevData) 0;
          TS.current_year_co2_saved :=
            TS.parseFloat_or (TS.ust_current_year_co2_saved prevData) 0;
          TS.streak_days := TS.count_or_0 (TS.ust_streak_days prevData);
          TS.last_action_date := TS.ust_last_action_date prevData;
          TS.updated_at := TS.ust_updated_at prevData |}.
Proof.
  intros Ht Hrow Ht' Hrow'. unfold TS.getUserStatistics, TS.maybeSingle.
  now rewrite Ht, Hrow, Ht', Hrow'.
Qed.

(** Without a row in either, the rollup is recomputed from the actor's
    events: [getUserStatistics] has no step that reads the legacy rollup
    table [user_stats]. *)
Lemma getUserStatistics_recomputed (s : TS.server) (c : TS.clock) (userId : string)
    (l : list TS.UserStatsSummaryRow) (l' : list TS.UserStatisticsRow) :
  TS.user_stats_summary s = TS.Rows l ->
  filter (fun r => String.eqb (TS.uss_user_id r) userId) l = [] ->
  TS.user_statistics s = TS.Rows l' ->
  filter (fun r => String.eqb (TS.ust_user_id r) userId) l' = [] ->
  TS.getUserStatistics s c userId =
  TS.calculateUserStatisticsFromActions s c userId.
Proof.
  intros Ht Hrow Ht' Hrow'. unfold TS.getUserStatistics, TS.maybeSingle.
  now rewrite Ht, Hrow, Ht', Hrow'.
Qed.

(** Recent events come from the first of the three event tables whose
    query answers with at least one row. *)
Lemma getRecentActionLogs_current (s : TS.server) (userId : option string)
    (limit : nat) (l : list TS.UserActionEventRow)
    (e : TS.UserActionEventRow) (rest : list TS.UserActionEventRow) :
  TS.user_action_events s = TS.Rows l ->
  firstn limit
    (TS.newest_first TS.e_event_timestamp
       (filter (fun x => TS.for_user userId (TS.e_user_id x)) l)) = e :: rest ->
  map TS.log_id (TS.getRecentActionLogs s userId limit) =
  map TS.e_event_id (e :: rest).
Proof.
  intros Ht Hrows. unfold TS.getRecentActionLogs, TS.select.
  rewrite Ht. cbn [TS.await TS.data TS.error]. rewrite Hrows.
  cbn [TS.try_catch]. now rewrite map_map.
Qed.

Lemma getRecentActionLogs_legacy (s : TS.server) (userId : option string)
    (limit : nat) :
  TS.user_action_events s = TS.Rows [] ->
  TS.user_action_logs s = TS.Rows [] ->
  TS.getRecentActionLogs s userId limit =
  TS.getRecentActionsFromOldSchema s userId limit.
Proof.
  intros Ht Ht'. unfold TS.getRecentActionLogs, TS.select.
  rewrite Ht, Ht'. cbn. now destruct limit.
Qed.

(** * Further properties of the migration *)

(** ** What one statement does to the rollups *)

Lemma map_replace_first_key {A B : Type} (key : A -> B) (p : A -> bool)
    (x y : A) (l : list A) :
  find p l = Some x -> key y = key x ->
  map key (replace_first p y l) = map key l.
Proof.
  induction l as [| a t IH]; simpl; [discriminate |].
  destruct (p a) eqn:E; intros H Hk; simpl.
  - inversion H; subst. now rewrite Hk.
  - now rewrite IH.
Qed.

Lemma sum_filter {A : Type} (f : A -> Z) (p : A -> bool) (l : list A) :
  fold_right Z.add 0 (map f (filter p l)) =
  fold_right Z.add 0 (map (fun r => if p r then f r else 0) l).
Proof.
  induction l as [| a t IH]; simpl; [reflexivity |].
  destruct (p a); simpl; now rewrite IH.
Qed.

Lemma upsert_user_stats_effect now NEW st st1 :
  upsert_user_stats now NEW st = Ok st1 ->
  (0 <= emissions_saved_lbs NEW /\
   (forall uid, actor_total uid st1 =
                actor_total uid st +
                (if String.eqb (ua_user_id NEW) uid then emissions_saved_lbs NEW else 0)) /\
   (forall uid, actor_count uid st1 =
                actor_count uid st +
                (if String.eqb (ua_user_id NEW) uid then 1 else 0)) /\
   stats_keys st1 =
     match find_stats (ua_user_id NEW) st with
     | Some _ => stats_keys st
     | None => stats_keys st ++ [ua_user_id NEW]
     end) /\
  global_emissions st1 = global_emissions st /\ same_log st st1.
Proof.
  unfold upsert_user_stats. intros H.
  apply bind_Ok in H as [u [Hex H]]. destruct u.
  apply user_stats_row_ok_iff in Hex. cbn [total_emissions_lbs] in Hex.
  split; [split; [lia |] | ].
  - unfold actor_total, actor_count, stats_keys, find_stats in *.
    destruct (find (is_stats_of (ua_user_id NEW)) (user_stats st))
      as [old |] eqn:F; ok_steps H; inversion H; subst; clear H;
      cbn [user_stats].
    + assert (Hold : is_stats_of (ua_user_id NEW) old = true)
        by (apply (find_some _ _ F)).
      repeat split.
      * intros uid. destruct (String.eqb (ua_user_id NEW) uid) eqn:E.
        -- apply String.eqb_eq in E. subst uid.
           erewrite find_replace_first; [| exact F | exact Hold].
           rewrite F. reflexivity.
        -- apply String.eqb_neq in E.
           erewrite (find_replace_first_other _ (is_stats_of uid));
             [now rewrite Z.add_0_r | exact F | |];
             apply (is_stats_of_other (ua_user_id NEW)); auto.
      * intros uid. destruct (String.eqb (ua_user_id NEW) uid) eqn:E.
        -- apply String.eqb_eq in E. subst uid.
           erewrite find_replace_first; [| exact F | exact Hold].
           rewrite F. reflexivity.
        -- apply String.eqb_neq in E.
           erewrite (find_replace_first_other _ (is_stats_of uid));
             [now rewrite Z.add_0_r | exact F | |];
             apply (is_stats_of_other (ua_user_id NEW)); auto.
      * apply (map_replace_first_key _ _ old); [exact F | reflexivity].
    + repeat split.
      * intros uid. rewrite find_snoc. unfold is_stats_of at 2.
        cbn [us_user_id].
        destruct (String.eqb (ua_user_id NEW) uid) eqn:E.
        -- apply String.eqb_eq in E. subst uid. now rewrite F.
        -- destruct (find (is_stats_of uid) (user_stats st)); lia.
      * intros uid. rewrite find_snoc. unfold is_stats_of at 2.
        cbn [us_user_id].
        destruct (String.eqb (ua_user_id NEW) uid) eqn:E.
        -- apply String.eqb_eq in E. subst uid. now rewrite F.
        -- destruct (find (is_stats_of uid) (user_stats st)); lia.
      * now rewrite map_app.
  - unfold same_log.
    destruct (find_stats (ua_user_id NEW) st); ok_steps H; inversion H; subst;
      cbn; repeat split.
Qed.

Lemma trigger_function_effect now OLD NEW st st' R :
  global_sync_trigger_function now OLD NEW st = Ok (st', R) ->
  if verified NEW && match OLD with None => true | Some o => negb (verified o) end
  then aggregated (ua_user_id NEW) (emissions_saved_lbs NEW) st st' /\ same_log st st'
  else st' = st.
Proof.
  unfold global_sync_trigger_function.
  destruct (verified NEW && _); intros H.
  - apply bind_Ok in H as [st1 [H1 H]].
    apply bind_Ok in H as [st2 [H2 H]].
    inversion H; subst; clear H.
    apply upsert_user_stats_effect in H1.
    apply bump_global_emissions_total in H2.
    destruct H1 as [[Hq [Ht [Hc Hk]]] [Hg [Hu [Ha Hl]]]].
    destruct H2 as [Hgt [Hgc [Hus [Hu' [Ha' Hl']]]]].
    unfold aggregated, actor_total, actor_count, stats_keys, find_stats, same_log in *.
    rewrite Hus, Hgt, Hgc, Hg.
    repeat split; try assumption; congruence.
  - now inversion H.
Qed.

Lemma insert_user_action_effect now NEW st st' :
  insert_user_action now NEW st = Ok st' ->
  user_actions st' = user_actions st ++ [NEW] /\
  users st' = users st /\
  if verified NEW
  then aggregated (ua_user_id NEW) (emissions_saved_lbs NEW) st st'
  else same_rollups st st'.
Proof.
  unfold insert_user_action, global_sync_insert_trigger. intros H.
  ok_steps H. destruct (verified NEW) eqn:V.
  - apply bind_Ok in H as [[s R] [H1 H]]. inversion H; subst; clear H.
    apply trigger_function_effect in H1. rewrite V in H1. cbn [andb fst] in *.
    destruct H1 as [Hagg [Hu [Ha _]]].
    split; [exact Ha | split; [exact Hu | exact Hagg]].
  - inversion H; subst. repeat split.
Qed.

Lemma update_verified_effect now id v st st' n :
  update_verified now id v st = Ok (st', n) ->
  match find_action id st with
  | None => st' = st /\ n = 0%nat
  | Some OLD =>
      n = 1%nat /\
      user_actions st' =
        replace_first (is_action id) (set_verified v OLD) (user_actions st) /\
      users st' = users st /\
      if v && negb (verified OLD)
      then aggregated (ua_user_id OLD) (emissions_saved_lbs OLD) st st'
      else same_rollups st st'
  end.
Proof.
  unfold update_verified, global_sync_trigger.
  destruct (find_action id st) as [OLD |]; intros H.
  - apply bind_Ok in H as [s [H1 H]]. inversion H; subst; clear H.
    cbn [verified set_verified] in H1.
    destruct (v && negb (verified OLD)) eqn:G.
    + apply bind_Ok in H1 as [[s R] [H1 H]]. inversion H; subst; clear H.
      apply trigger_function_effect in H1. cbn [verified set_verified] in H1.
      rewrite G in H1. cbn [fst]. destruct H1 as [Hagg [Hu [Ha _]]].
      split; [reflexivity | split; [exact Ha | split; [exact Hu | exact Hagg]]].
    + inversion H1; subst. repeat split.
  - inversion H; subst. split; reflexivity.
Qed.

(** ** The rollups against the event log *)

Lemma matches_log_snoc st st' NEW :
  matches_log st ->
  user_actions st' = user_actions st ++ [NEW] ->
  (if verified NEW
   then aggregated (ua_user_id NEW) (emissions_saved_lbs NEW) st st'
   else same_rollups st st') ->
  matches_log st'.
Proof.
  intros [Hact [Hg Hc]] Hl Heff. unfold matches_log.
  rewrite Hl. unfold verified_lbs, verified_count, by_actor in *.
  rewrite !sum_snoc.
  split; [intros uid; specialize (Hact uid); destruct Hact as [Ht Hn] |].
  - rewrite !sum_filter in *. rewrite !sum_snoc.
    destruct (verified NEW).
    + destruct Heff as [_ [Ht' [Hn' _]]]. rewrite Ht', Hn', Ht, Hn.
      destruct (String.eqb (ua_user_id NEW) uid); split; reflexivity.
    + destruct Heff as [Hus Hge].
      unfold actor_total, actor_count, find_stats in *. rewrite Hus, Ht, Hn.
      destruct (String.eqb (ua_user_id NEW) uid); split; lia.
  - destruct (verified NEW).
    + destruct Heff as [_ [_ [_ [_ [Hgt Hgc]]]]]. rewrite Hgt, Hgc. lia.
    + destruct Heff as [_ Hge]. rewrite Hge. lia.
Qed.

Lemma matches_log_set_verified st st' id OLD :
  matches_log st ->
  find_action id st = Some OLD ->
  user_actions st' =
    replace_first (is_action id) (set_verified true OLD) (user_actions st) ->
  (if negb (verified OLD)
   then aggregated (ua_user_id OLD) (emissions_saved_lbs OLD) st st'
   else same_rollups st st') ->
  matches_log st'.
Proof.
  intros [Hact [Hg Hc]] F Hl Heff. unfold matches_log, find_action in *.
  rewrite Hl. unfold verified_lbs, verified_count, by_actor in *.
  rewrite !(sum_replace_first _ _ OLD) by exact F.
  split; [intros uid; specialize (Hact uid); destruct Hact as [Ht Hn] |].
  - rewrite !sum_filter in *. rewrite !(sum_replace_first _ _ OLD) by exact F.
    cbn [verified set_verified ua_user_id emissions_saved_lbs].
    destruct (verified OLD); cbn [negb] in Heff.
    + destruct Heff as [Hus Hge].
      unfold actor_total, actor_count, find_stats in *. rewrite Hus, Ht, Hn.
      split; lia.
    + destruct Heff as [_ [Ht' [Hn' _]]]. rewrite Ht', Hn', Ht, Hn.
      destruct (String.eqb (ua_user_id OLD) uid); split; lia.
  - cbn [verified set_verified emissions_saved_lbs].
    destruct (verified OLD); cbn [negb] in Heff.
    + destruct Heff as [_ Hge]. rewrite Hge. lia.
    + destruct Heff as [_ [_ [_ [_ [Hgt Hgc]]]]]. rewrite Hgt, Hgc. lia.
Qed.

Lemma exec_matches_log now s st st' :
  matches_log st -> exec now s st = Ok st' -> matches_log st'.
Proof.
  intros Hinv. destruct s as [id actor kind qty unit_name lbs | id | NEW]; simpl.
  - unfold append. intros H. ok_steps H.
    apply insert_user_action_effect in H. destruct H as [Hl [_ Heff]].
    now apply (matches_log_snoc st st' _ Hinv Hl).
  - intros H. apply markVerified_Ok in H. apply update_verified_effect in H.
    destruct (find_action id st) as [OLD |] eqn:F; [| destruct H; discriminate].
    destruct H as [_ [Hl [_ Heff]]].
    now apply (matches_log_set_verified st st' id OLD).
  - intros H. apply insert_user_action_effect in H. destruct H as [Hl [_ Heff]].
    now apply (matches_log_snoc st st' _ Hinv Hl).
Qed.

Lemma run_matches_log h st : matches_log st -> matches_log (run h st).
Proof.
  revert st. induction h as [| [now s] h IH]; intros st Hinv; simpl; [exact Hinv |].
  apply IH. unfold commit. destruct (exec now s st) as [st' |] eqn:E; [| exact Hinv].
  now apply (exec_matches_log now s st).
Qed.

Lemma db_init_matches_log accounts : matches_log (db_init accounts).
Proof. repeat split. Qed.

(** X1.  After any history of statements on a freshly migrated database,
    every actor's rollup holds the sum of the savings of that actor's
    verified events and their number (zero for an actor without a
    rollup), and the global rollup holds the sum and the number over all
    verified events. *)
Theorem rollups_match_event_log :
  forall (accounts : list users_row) (h : list (timestamptz * statement)),
  let st := run h (db_init accounts) in
  (forall uid,
     actor_total uid st = verified_lbs (by_actor uid (user_actions st)) /\
     actor_count uid st = verified_count (by_actor uid (user_actions st))) /\
  total_lbs_saved (global_emissions st) = verified_lbs (user_actions st) /\
  total_actions (global_emissions st) = verified_count (user_actions st).
Proof.
  intros accounts h. apply run_matches_log. apply db_init_matches_log.
Qed.

Lemma aggregated_rollups_le u q st st' : aggregated u q st st' -> rollups_le st st'.
Proof.
  intros [Hq [Ht [Hc [_ [Hgt Hgc]]]]]. unfold rollups_le. repeat split.
  - rewrite Ht. destruct (String.eqb u uid); lia.
  - rewrite Hc. destruct (String.eqb u uid); lia.
  - lia.
  - lia.
Qed.

Lemma same_rollups_le st st' : same_rollups st st' -> rollups_le st st'.
Proof.
  intros [Hus Hge]. unfold rollups_le, actor_total, actor_count, find_stats.
  rewrite Hus, Hge. repeat split; lia.
Qed.

Lemma rollups_le_trans a b c : rollups_le a b -> rollups_le b c -> rollups_le a c.
Proof.
  intros [H1 [H2 H3]] [H1' [H2' H3']]. unfold rollups_le. repeat split;
    try lia; specialize (H1 uid); specialize (H1' uid); lia.
Qed.

Lemma exec_rollups_le now s st st' : exec now s st = Ok st' -> rollups_le st st'.
Proof.
  destruct s as [id actor kind qty unit_name lbs | id | NEW]; simpl.
  - unfold append. intros H. ok_steps H.
    apply insert_user_action_effect in H. destruct H as [_ [_ Heff]].
    cbn [verified] in Heff. now apply same_rollups_le.
  - intros H. apply markVerified_Ok in H. apply update_verified_effect in H.
    destruct (find_action id st) as [OLD |]; [| destruct H; discriminate].
    destruct H as [_ [_ [_ Heff]]].
    destruct (true && negb (verified OLD));
      [eapply aggregated_rollups_le; eassumption | now apply same_rollups_le].
  - intros H. apply insert_user_action_effect in H. destruct H as [_ [_ Heff]].
    destruct (verified NEW);
      [eapply aggregated_rollups_le; eassumption | now apply same_rollups_le].
Qed.

(** X2.  From whatever database a history of statements starts, no
    actor's total or count and neither the global total nor the global
    count ever goes down. *)
Theorem rollups_never_decrease :
  forall (h : list (timestamptz * statement)) (st : db) (uid : uuid),
  actor_total uid st <= actor_total uid (run h st) /\
  actor_count uid st <= actor_count uid (run h st) /\
  total_lbs_saved (global_emissions st)
    <= total_lbs_saved (global_emissions (run h st)) /\
  total_actions (global_emissions st)
    <= total_actions (global_emissions (run h st)).
Proof.
  intros h st uid.
  assert (H : rollups_le st (run h st)).
  { revert st. induction h as [| [now s] h IH]; intros st; simpl.
    - apply same_rollups_le. split; reflexivity.
    - apply (rollups_le_trans _ (commit now s st)); [| apply IH].
      unfold commit. destruct (exec now s st) as [st' |] eqn:E.
      + now apply (exec_rollups_le now s).
      + apply same_rollups_le. split; reflexivity. }
  destruct H as [Hact [Hg Hc]]. specialize (Hact uid). tauto.
Qed.

(** ** Active actors *)

Lemma find_stats_None_iff uid st :
  find_stats uid st = None <-> ~ In uid (stats_keys st).
Proof.
  unfold find_stats, stats_keys. induction (user_stats st) as [| r t IH]; simpl.
  - tauto.
  - unfold is_stats_of at 1. destruct (String.eqb_spec (us_user_id r) uid).
    + split; [discriminate | intros H; exfalso; apply H; now left].
    + rewrite IH. tauto.
Qed.

Lemma aggregated_keys u q st st' :
  aggregated u q st st' -> NoDup (stats_keys st) ->
  NoDup (stats_keys st') /\
  forall uid, In uid (stats_keys st') <-> uid = u \/ In uid (stats_keys st).
Proof.
  intros [_ [_ [_ [Hk _]]]] Hnd.
  destruct (find_stats u st) as [r |] eqn:F; rewrite Hk.
  - split; [exact Hnd |]. intros uid. split; [tauto |].
    intros [-> | H]; [| exact H].
    destruct (in_dec string_dec u (stats_keys st)) as [Hin | Hout]; [exact Hin |].
    apply find_stats_None_iff in Hout. congruence.
  - apply find_stats_None_iff in F. split.
    + apply NoDup_rev in Hnd. rewrite <- (rev_involutive (stats_keys st ++ [u])).
      apply NoDup_rev. rewrite rev_app_distr. simpl. constructor; [| exact Hnd].
      now rewrite <- in_rev.
    + intros uid. rewrite in_app_iff. simpl. intuition congruence.
Qed.

Lemma verified_actors_set_verified (p : user_actions_row -> bool)
    (OLD : user_actions_row) (l : list user_actions_row) :
  find p l = Some OLD -> verified OLD = false ->
  forall uid,
    In uid (map ua_user_id (filter verified (replace_first p (set_verified true OLD) l)))
    <-> uid = ua_user_id OLD \/ In uid (map ua_user_id (filter verified l)).
Proof.
  intros F Hv uid. revert F. induction l as [| a t IH]; simpl; [discriminate |].
  destruct (p a) eqn:E; intros F.
  - inversion F; subst a. rewrite Hv. simpl. intuition congruence.
  - simpl. destruct (verified a); simpl; rewrite (IH F); tauto.
Qed.

Lemma exec_rollups_cover_verified now s st st' :
  rollups_cover_verified st -> exec now s st = Ok st' ->
  rollups_cover_verified st'.
Proof.
  intros [Hnd Hiff] H.
  assert (Hins : forall NEW,
            insert_user_action now NEW st = Ok st' -> rollups_cover_verified st').
  { intros NEW Hi. apply insert_user_action_effect in Hi.
    destruct Hi as [Hl [_ Heff]]. unfold rollups_cover_verified, verified_actors.
    rewrite Hl, filter_app, map_app. simpl. destruct (verified NEW).
    - destruct (aggregated_keys _ _ _ _ Heff Hnd) as [Hnd' Hk].
      split; [exact Hnd' |]. intros uid. rewrite Hk, in_app_iff, Hiff.
      unfold verified_actors. simpl. intuition congruence.
    - destruct Heff as [Hus _]. unfold stats_keys in *. rewrite Hus.
      split; [exact Hnd |]. intros uid. simpl. rewrite app_nil_r. apply Hiff. }
  destruct s as [id actor kind qty unit_name lbs | id | NEW]; simpl in H.
  - unfold append in H. ok_steps H. now apply (Hins _ H).
  - apply markVerified_Ok in H. apply update_verified_effect in H.
    destruct (find_action id st) as [OLD |] eqn:F; [| destruct H; discriminate].
    destruct H as [_ [Hl [_ Heff]]].
    unfold rollups_cover_verified, verified_actors. rewrite Hl.
    destruct (verified OLD) eqn:V; cbn [andb negb] in Heff.
    + destruct Heff as [Hus _]. unfold stats_keys in *. rewrite Hus.
      replace (set_verified true OLD) with OLD
        by (rewrite <- V; symmetry; apply set_verified_same).
      unfold find_action in F. rewrite (replace_first_same _ _ _ F).
      split; [exact Hnd | exact Hiff].
    + destruct (aggregated_keys _ _ _ _ Heff Hnd) as [Hnd' Hk].
      split; [exact Hnd' |]. intros uid.
      rewrite Hk, (verified_actors_set_verified _ OLD _ F V), Hiff.
      reflexivity.
  - now apply (Hins _ H).
Qed.

Lemma run_rollups_cover_verified h st :
  rollups_cover_verified st -> rollups_cover_verified (run h st).
Proof.
  revert st. induction h as [| [now s] h IH]; intros st Hinv; simpl; [exact Hinv |].
  apply IH. unfold commit. destruct (exec now s st) as [st' |] eqn:E; [| exact Hinv].
  now apply (exec_rollups_cover_verified now s st).
Qed.

(** X3.  After any history of statements on a freshly migrated database
    no actor has two rollup rows, and [get_active_users_count] returns
    the number of rollup rows, as an [INTEGER]: the actors that have a
    verified event are exactly those that have a rollup. *)
Theorem active_users_are_rollup_rows :
  forall (accounts : list users_row) (h : list (timestamptz * statement)),
  let st := run h (db_init accounts) in
  NoDup (map us_user_id (user_stats st)) /\
  get_active_users_count st = to_integer (Z.of_nat (List.length (user_stats st))).
Proof.
  intros accounts h st.
  assert (Hinv : rollups_cover_verified st).
  { apply run_rollups_cover_verified. split; [constructor |].
    intros uid. simpl. tauto. }
  destruct Hinv as [Hnd Hiff]. split; [exact Hnd |].
  unfold get_active_users_count. do 2 f_equal.
  rewrite <- (length_map us_user_id (user_stats st)).
  apply Permutation_length.
  apply NoDup_Permutation; [apply NoDup_nodup | exact Hnd |].
  intros uid. rewrite nodup_In. symmetry. apply Hiff.
Qed.

(** ** Rounding to two decimals *)

Lemma round2_nonneg (v : Z) : 0 <= v -> round2 v = (v + 50) / 100 * 100.
Proof.
  intros Hv. unfold round2. rewrite Z.abs_eq by exact Hv.
  destruct (Z.eq_dec v 0) as [-> | Hne]; [reflexivity |].
  rewrite Z.sgn_pos by lia. lia.
Qed.

Lemma round2_monotone (a b : Z) : 0 <= a <= b -> round2 a <= round2 b.
Proof.
  intros H. rewrite !round2_nonneg by lia.
  apply Z.mul_le_mono_nonneg_r; [lia |].
  apply Z.div_le_mono; lia.
Qed.

Lemma round2_close (v : Z) : 0 <= v -> Z.abs (round2 v - v) <= 50.
Proof.
  intros Hv. rewrite round2_nonneg by exact Hv.
  pose proof (Z.div_mod (v + 50) 100 ltac:(lia)) as Hdm.
  pose proof (Z.mod_pos_bound (v + 50) 100 ltac:(lia)) as Hb.
  lia.
Qed.

Lemma round2_at_least (v : Z) : 100 <= v -> 100 <= round2 v.
Proof.
  intros Hv. rewrite round2_nonneg by lia.
  assert (1 <= (v + 50) / 100) by (apply Z.div_le_lower_bound; lia).
  lia.
Qed.

(** ** The hourly check *)

(** X4.  Whenever [hourly_sync_check] returns, its report describes the
    database as the check found it: [in_sync] equals [was_in_sync] and
    [fixed] is its negation.  After a repair the report therefore says
    [in_sync = false] with a discrepancy of at least 0.01 and a warning
    is raised, while the view [consistency_check] on the database the
    call leaves says [in_sync = true].  Without a repair no warning is
    raised and the database is unchanged. *)
Theorem hourly_sync_check_reports_the_state_found :
  forall (now : timestamptz) (st st' : db) (rep : hourly_result)
         (w : option sync_warning),
  hourly_sync_check now st = Ok (st', rep, w) ->
  hr_in_sync rep = hr_was_in_sync rep /\
  hr_fixed rep = negb (hr_was_in_sync rep) /\
  in_sync (consistency_check st') = true /\
  (hr_was_in_sync rep = false ->
   100 <= hr_discrepancy rep /\
   w = Some {| w_user_stats_sum := hr_user_stats_sum rep;
               w_global_total := hr_global_total rep;
               w_discrepancy := hr_discrepancy rep;
               w_fixed := true |}) /\
  (hr_was_in_sync rep = true -> w = None /\ st' = st).
Proof.
  intros now st st' rep w H. unfold hourly_sync_check in H.
  apply bind_Ok in H as [[s r] [Hs H]]. cbn [fst snd] in H.
  inversion H; subst; clear H. cbn [hr_in_sync hr_was_in_sync hr_fixed
    hr_discrepancy hr_user_stats_sum hr_global_total].
  pose proof (sync_leaves_in_sync _ _ _ _ Hs) as Hpost.
  unfold sync_global_emissions_from_user_stats in Hs.
  destruct (Z.abs (stats_sum st - total_lbs_saved (global_emissions st)) <? epsilon)
    eqn:E; cbn [negb] in Hs.
  - inversion Hs; subst; clear Hs. cbn [r_was_in_sync r_user_stats_sum
      r_global_total r_fixed negb]. rewrite E.
    repeat split; try discriminate.
    unfold consistency_check. cbn [in_sync]. exact E.
  - ok_steps Hs. inversion Hs; subst; clear Hs. cbn [r_was_in_sync
      r_user_stats_sum r_global_total r_fixed negb]. rewrite E.
    apply Z.ltb_ge in E. unfold epsilon in E.
    repeat split; try discriminate.
    + unfold consistency_check. cbn [in_sync]. apply Z.ltb_lt.
      rewrite Z.abs_lt in *. lia.
    + now apply round2_at_least.
Qed.

Lemma hourly_sync_check_reports_the_state_found_witness :
  exists st' rep w,
    hourly_sync_check 9 tampered = Ok (st', rep, w) /\
    hr_in_sync rep = false /\ hr_discrepancy rep = 920000 /\
    in_sync (consistency_check st') = true.
Proof.
  eexists. eexists. eexists. split; [vm_compute; reflexivity |].
  pose proof (hourly_sync_check_reports_the_state_found 9 tampered _ _ _ eq_refl)
    as [_ [_ [H _]]].
  split; [reflexivity | split; [reflexivity | exact H]].
Defined.

(** ** More on [get_leaderboard] *)

Lemma In_insert_by {A : Type} (before : A -> A -> bool) (x z : A) (l : list A) :
  In z (insert_by before x l) <-> z = x \/ In z l.
Proof.
  induction l as [| y t IH]; simpl; [intuition congruence |].
  destruct (before y x); simpl; rewrite ?IH; intuition congruence.
Qed.

Lemma In_order_by {A : Type} (before : A -> A -> bool) (z : A) (l : list A) :
  In z (order_by before l) <-> In z l.
Proof.
  induction l as [| x t IH]; simpl; [tauto |].
  rewrite In_insert_by, IH. intuition congruence.
Qed.

Lemma insert_by_Permutation {A : Type} (before : A -> A -> bool) (x : A)
    (l : list A) :
  Permutation (insert_by before x l) (x :: l).
Proof.
  induction l as [| y t IH]; simpl; [apply Permutation_refl |].
  destruct (before y x); [| apply Permutation_refl].
  apply (Permutation_trans (l' := y :: x :: t));
    [now apply perm_skip | apply perm_swap].
Qed.

Lemma order_by_Permutation {A : Type} (before : A -> A -> bool) (l : list A) :
  Permutation (order_by before l) l.
Proof.
  induction l as [| x t IH]; simpl; [constructor |].
  apply (Permutation_trans (insert_by_Permutation before x _)).
  now apply perm_skip.
Qed.

Lemma In_row_number {A : Type} (k : Z) (x : A) (l : list A) :
  In x l -> exists r, In (r, x) (row_number k l).
Proof.
  revert k. induction l as [| y t IH]; intros k H; [contradiction |].
  destruct H as [-> | H].
  - exists k. now left.
  - destruct (IH (k + 1) H) as [r Hr]. exists r. now right.
Qed.

Lemma ranked_users_source (st : db) (r : ranked_users_row) :
  In r (ranked_users st) ->
  exists us,
    In us (user_stats st) /\
    us_user_id us = ru_user_id r /\
    total_emissions_lbs us = ru_total_emissions_lbs r /\
    action_count us = ru_action_count r /\
    0 < total_emissions_lbs us /\
    user_exists (us_user_id us) st = true.
Proof.
  unfold ranked_users. intros H. apply in_flat_map in H.
  destruct H as [us [Hus H]]. exists us. split; [exact Hus |].
  destruct (Z.ltb_spec 0 (total_emissions_lbs us)) as [Hpos |]; [| contradiction].
  apply in_map_iff in H. destruct H as [u [Hr Hu]]. subst r. simpl.
  repeat split; [exact Hpos |].
  apply filter_In in Hu. unfold user_exists. apply existsb_exists.
  exists u. exact Hu.
Qed.

Lemma displayed_order (R : list (Z * ranked_users_row)) :
  StronglySorted (in_order sorts_before) (map snd R) ->
  Forall (fun p => 0 < ru_total_emissions_lbs (snd p)) R ->
  StronglySorted
    (fun a b => lb_total_emissions_lbs b <= lb_total_emissions_lbs a)
    (map select_row R).
Proof.
  induction R as [| p t IH]; simpl; intros Hs Hpos; [constructor |].
  inversion Hs as [| ? ? Ht Hp]; subst. inversion Hpos as [| ? ? Hp0 Ht0]; subst.
  constructor; [now apply IH |].
  rewrite Forall_forall in *. intros row Hrow.
  apply in_map_iff in Hrow. destruct Hrow as [p' [<- Hin]].
  cbn [lb_total_emissions_lbs select_row].
  apply round2_monotone. split; [specialize (Ht0 p' Hin); simpl in Ht0; lia |].
  assert (Hio : in_order sorts_before (snd p) (snd p'))
    by (apply Hp; now apply in_map).
  unfold in_order, sorts_before in Hio.
  apply orb_false_iff in Hio. destruct Hio as [Hlt _].
  now apply Z.ltb_ge in Hlt.
Qed.

(** X5.  For a limit that is not negative [get_leaderboard] returns
    rows whose displayed totals never increase down the list, and every
    row shows an actor that owns a rollup with a total above zero and an
    account: the row carries that rollup's action count and its total
    rounded to two decimals, which is within 0.005 of the stored one. *)
Theorem get_leaderboard_rows_are_rollups :
  forall (s : scan) (limit_count : Z) (st : db),
  0 <= limit_count ->
  exists rows,
    get_leaderboard s limit_count st = Ok rows /\
    StronglySorted
      (fun a b => lb_total_emissions_lbs b <= lb_total_emissions_lbs a) rows /\
    Forall
      (fun row =>
         exists us,
           In us (user_stats st) /\
           us_user_id us = lb_user_id row /\
           0 < total_emissions_lbs us /\
           user_exists (us_user_id us) st = true /\
           lb_action_count row = action_count us /\
           lb_total_emissions_lbs row = round2 (total_emissions_lbs us) /\
           Z.abs (lb_total_emissions_lbs row - total_emissions_lbs us) <= 50)
      rows.
Proof.
  intros s limit_count st Hl.
  destruct (get_leaderboard_order s limit_count st Hl) as [Hget [Hall [Hsorted _]]].
  exists (map select_row (ranked_rows s limit_count st)).
  split; [exact Hget |]. split.
  - apply displayed_order; [exact Hsorted |].
    eapply Forall_impl; [| exact Hall]. intros p [_ Hp]. exact Hp.
  - rewrite Forall_forall in *. intros row Hrow.
    apply in_map_iff in Hrow. destruct Hrow as [p [<- Hin]].
    destruct (Hall p Hin) as [Hru _].
    destruct (ranked_users_source st (snd p) Hru)
      as [us [Hus [Hid [Htot [Hcnt [Hpos Hex]]]]]].
    exists us. cbn [lb_user_id lb_action_count lb_total_emissions_lbs select_row].
    rewrite <- Htot. repeat split; auto.
    apply round2_close. lia.
Qed.

Lemma get_leaderboard_rows_are_rollups_witness :
  exists rows,
    get_leaderboard backwards 100 (run ten_each (db_init [alice; bob])) = Ok rows /\
    StronglySorted
      (fun a b => lb_total_emissions_lbs b <= lb_total_emissions_lbs a) rows /\
    Forall
      (fun row =>
         exists us,
           In us (user_stats (run ten_each (db_init [alice; bob]))) /\
           us_user_id us = lb_user_id row /\
           0 < total_emissions_lbs us /\
           user_exists (us_user_id us) (run ten_each (db_init [alice; bob])) = true /\
           lb_action_count row = action_count us /\
           lb_total_emissions_lbs row = round2 (total_emissions_lbs us) /\
           Z.abs (lb_total_emissions_lbs row - total_emissions_lbs us) <= 50)
      rows.
Proof.
  apply (get_leaderboard_rows_are_rollups backwards 100
           (run ten_each (db_init [alice; bob]))).
  evaluate.
Defined.

(** X6.  [get_leaderboard] raises an error for a negative limit;
    otherwise it returns as many rows as there are rollups with a total
    above zero joined to an account, cut at the limit. *)
Theorem get_leaderboard_length :
  forall (s : scan) (limit_count : Z) (st : db),
  (limit_count < 0 ->
   get_leaderboard s limit_count st = Err invalid_row_count_in_limit_clause) /\
  (0 <= limit_count ->
   exists rows,
     get_leaderboard s limit_count st = Ok rows /\
     List.length rows =
       Nat.min (Z.to_nat limit_count) (List.length (ranked_users st))).
Proof.
  intros s limit_count st. split; intros Hl.
  - unfold get_leaderboard.
    replace (0 <=? limit_count) with false by (symmetry; now apply Z.leb_gt).
    reflexivity.
  - exists (map select_row (ranked_rows s limit_count st)).
    split; [apply get_leaderboard_order; exact Hl |].
    unfold ranked_rows.
    rewrite length_map, length_firstn, row_number_length, order_by_length.
    now rewrite (Permutation_length (deliver_Permutation s (ranked_users st))).
Qed.

Lemma get_leaderboard_length_witness :
  get_leaderboard as_stored (-1) (run ten_each (db_init [alice; bob]))
    = Err invalid_row_count_in_limit_clause /\
  exists rows,
    get_leaderboard backwards 1 (run ten_each (db_init [alice; bob])) = Ok rows /\
    List.length rows = 1%nat.
Proof.
  split.
  - apply (proj1 (get_leaderboard_length as_stored (-1)
                    (run ten_each (db_init [alice; bob])))).
    evaluate.
  - apply (proj2 (get_leaderboard_length backwards 1
                    (run ten_each (db_init [alice; bob])))).
    evaluate.
Defined.

(** X7.  With a limit of at least the number of eligible rows, every
    actor that has an account and a rollup with a total above zero is on
    the leaderboard, shown with its rounded total. *)
Theorem get_leaderboard_lists_every_eligible_actor :
  forall (s : scan) (limit_count : Z) (st : db) (us : user_stats_row),
  Z.of_nat (List.length (ranked_users st)) <= limit_count ->
  In us (user_stats st) ->
  0 < total_emissions_lbs us ->
  user_exists (us_user_id us) st = true ->
  exists rows row,
    get_leaderboard s limit_count st = Ok rows /\
    In row rows /\
    lb_user_id row = us_user_id us /\
    lb_total_emissions_lbs row = round2 (total_emissions_lbs us).
Proof.
  intros s limit_count st us Hl Hus Hpos Hex.
  assert (H0 : 0 <= limit_count) by lia.
  unfold user_exists in Hex. apply existsb_exists in Hex.
  destruct Hex as [u [Hu Hisu]].
  set (r := {| ru_user_id := us_user_id us;
               ru_username := match u_username u with
                              | Some n => n
                              | None => u_email u
                              end;
               ru_total_emissions_lbs := total_emissions_lbs us;
               ru_action_count := action_count us;
               ru_last_update_timestamp := last_updated us;
               last_verified_action_at :=
                 match max_verified_at (us_user_id us) st with
                 | Some t => t
                 | None => last_updated us
                 end |}).
  assert (Hr : In r (ranked_users st)).
  { unfold ranked_users. apply in_flat_map. exists us. split; [exact Hus |].
    replace (0 <? total_emissions_lbs us) with true
      by (symmetry; now apply Z.ltb_lt).
    apply in_map_iff. exists u. split; [reflexivity |].
    apply filter_In. split; assumption. }
  assert (Hlen : List.length (deliver s (ranked_users st))
                 = List.length (ranked_users st))
    by apply (Permutation_length (deliver_Permutation s (ranked_users st))).
  apply (Permutation_in _ (Permutation_sym (deliver_Permutation s (ranked_users st))))
    in Hr.
  apply (In_order_by sorts_before) in Hr.
  destruct (In_row_number 1 r _ Hr) as [k Hk].
  exists (map select_row (ranked_rows s limit_count st)), (select_row (k, r)).
  split; [apply get_leaderboard_order; exact H0 |].
  split; [| split; reflexivity].
  apply in_map. unfold ranked_rows. rewrite firstn_all2; [exact Hk |].
  rewrite row_number_length, order_by_length. lia.
Qed.

Lemma get_leaderboard_lists_every_eligible_actor_witness :
  exists rows row,
    get_leaderboard backwards 2 (run ten_each (db_init [alice; bob])) = Ok rows /\
    In row rows /\
    lb_user_id row = "A"%string /\
    lb_total_emissions_lbs row = 100000.
Proof.
  apply (get_leaderboard_lists_every_eligible_actor backwards 2
           (run ten_each (db_init [alice; bob]))
           {| us_user_id := "A"; total_emissions_lbs := 100000;
              action_count := 1; monthly_lbs := []; yearly_lbs := [];
              last_updated := 2 |}).
  - evaluate.
  - vm_compute. left. reflexivity.
  - evaluate.
  - evaluate.
Defined.

(** ** Peers and the scan *)

Lemma peers_refl (a : ranked_users_row) : peers a a = true.
Proof. unfold peers. now rewrite !Z.eqb_refl. Qed.

Lemma peers_sym (a b : ranked_users_row) : peers a b = peers b a.
Proof.
  unfold peers.
  now rewrite (Z.eqb_sym (ru_total_emissions_lbs a)),
              (Z.eqb_sym (last_verified_action_at a)).
Qed.

Lemma sorts_before_total (a b : ranked_users_row) :
  peers a b = false -> sorts_before a b = true \/ sorts_before b a = true.
Proof.
  unfold peers, sorts_before.
  destruct (Z.eqb_spec (ru_total_emissions_lbs a) (ru_total_emissions_lbs b));
  destruct (Z.eqb_spec (ru_total_emissions_lbs b) (ru_total_emissions_lbs a));
  destruct (Z.eqb_spec (last_verified_action_at a) (last_verified_action_at b));
  destruct (Z.ltb_spec (ru_total_emissions_lbs b) (ru_total_emissions_lbs a));
  destruct (Z.ltb_spec (ru_total_emissions_lbs a) (ru_total_emissions_lbs b));
  destruct (Z.ltb_spec (last_verified_action_at b) (last_verified_action_at a));
  destruct (Z.ltb_spec (last_verified_action_at a) (last_verified_action_at b));
  simpl; intros; try discriminate; auto; lia.
Qed.

Lemma no_peers_apart (l : list ranked_users_row) :
  no_peers l = true -> apart l.
Proof.
  unfold apart. induction l as [| x t IH]; simpl; intros H.
  - split; [constructor | intros a b []].
  - apply andb_prop in H. destruct H as [Hx Ht].
    destruct (IH Ht) as [Hnd Hpair]. rewrite forallb_forall in Hx.
    assert (Hfresh : forall y, In y t -> peers x y = false).
    { intros y Hy. specialize (Hx y Hy). now apply negb_true_iff in Hx. }
    split.
    + constructor; [| exact Hnd]. intros Hin.
      specialize (Hfresh x Hin). rewrite peers_refl in Hfresh. discriminate.
    + intros a b [<- | Ha] [<- | Hb] Hne.
      * congruence.
      * now apply Hfresh.
      * rewrite peers_sym. now apply Hfresh.
      * now apply Hpair.
Qed.

Lemma apart_Permutation (l l' : list ranked_users_row) :
  Permutation l l' -> apart l -> apart l'.
Proof.
  intros P [Hnd Hpair]. split.
  - exact (Permutation_NoDup P Hnd).
  - intros a b Ha Hb. apply Hpair; eapply Permutation_in;
      try (apply Permutation_sym; exact P); assumption.
Qed.

Lemma apart_strictly_sorted (l : list ranked_users_row) :
  apart l ->
  StronglySorted (in_order sorts_before) l ->
  StronglySorted (fun a b => sorts_before a b = true) l.
Proof.
  intros [Hnd Hpair] Hs. induction Hs as [| x t Hs IH Hx].
  - constructor.
  - inversion Hnd as [| ? ? Hfresh Hnd']; subst. constructor.
    + apply IH; [exact Hnd' |]. intros a b Ha Hb. apply Hpair; now right.
    + rewrite Forall_forall in *. intros z Hz.
      assert (Hne : x <> z) by (intros ->; contradiction).
      destruct (sorts_before_total x z) as [H | H]; [| exact H |].
      * apply Hpair; [now left | now right | exact Hne].
      * specialize (Hx z Hz). unfold in_order in Hx. congruence.
Qed.

(** A list has at most one arrangement that a strict order sorts. *)
Lemma strictly_sorted_unique {A : Type} (before : A -> A -> bool) :
  (forall a b, before a b = true -> before b a = false) ->
  forall l1 l2 : list A,
  StronglySorted (fun a b => before a b = true) l1 ->
  StronglySorted (fun a b => before a b = true) l2 ->
  Permutation l1 l2 -> l1 = l2.
Proof.
  intros Hasym. induction l1 as [| x t1 IH]; intros l2 H1 H2 P.
  - apply Permutation_nil in P. now subst.
  - destruct l2 as [| y t2].
    + apply Permutation_sym, Permutation_nil in P. discriminate.
    + inversion H1 as [| ? ? Hs1 Hx]; subst.
      inversion H2 as [| ? ? Hs2 Hy]; subst.
      rewrite Forall_forall in Hx, Hy.
      assert (Exy : x = y).
      { assert (Hin : In x (y :: t2))
          by (apply (Permutation_in _ P); now left).
        destruct Hin as [E | Hin]; [now symmetry |].
        assert (Hin' : In y (x :: t1))
          by (apply (Permutation_in _ (Permutation_sym P)); now left).
        destruct Hin' as [E | Hin']; [exact E |].
        specialize (Hx y Hin'). specialize (Hy x Hin).
        apply Hasym in Hx. congruence. }
      subst y. f_equal. apply IH; [assumption | assumption |].
      now apply Permutation_cons_inv in P.
Qed.

(** Without peers the ordered rows do not depend on the scan. *)
Lemma order_without_peers (s s' : scan) (l : list ranked_users_row) :
  no_peers l = true ->
  order_by sorts_before (deliver s l) = order_by sorts_before (deliver s' l).
Proof.
  intros H. apply no_peers_apart in H.
  assert (P : forall e : scan,
             Permutation (order_by sorts_before (deliver e l)) l).
  { intros e. apply (Permutation_trans (order_by_Permutation _ _)).
    apply deliver_Permutation. }
  assert (S : forall e : scan,
             StronglySorted (fun a b => sorts_before a b = true)
               (order_by sorts_before (deliver e l))).
  { intros e. apply apart_strictly_sorted.
    - exact (apart_Permutation _ _ (Permutation_sym (P e)) H).
    - apply order_by_sorted; [apply sorts_before_asym |
                              apply sorts_before_in_order_trans]. }
  apply (strictly_sorted_unique sorts_before sorts_before_asym); [apply S | apply S |].
  exact (Permutation_trans (P s) (Permutation_sym (P s'))).
Qed.

(** X8.  Whatever the scan, the rank column of [get_leaderboard] reads
    1, 2, ..., N in the order of the rows.  When no two eligible rows are
    peers, the result for a smaller limit is a prefix of the result for
    a larger one, whichever scans the two executions use: the cut is
    made on the fully ordered list.  Among peers the order is the
    scan's, and the prefix may differ. *)
Theorem get_leaderboard_ranks :
  forall (s : scan) (limit_count : Z) (st : db),
  0 <= limit_count ->
  exists rows,
    get_leaderboard s limit_count st = Ok rows /\
    map rank rows = map Z.of_nat (seq 1 (List.length rows)) /\
    (no_peers (ranked_users st) = true ->
     forall (s' : scan) (m : Z) (rows' : list leaderboard_row),
       limit_count <= m -> get_leaderboard s' m st = Ok rows' ->
       rows = firstn (Z.to_nat limit_count) rows').
Proof.
  intros s limit_count st Hl.
  exists (map select_row (ranked_rows s limit_count st)).
  split; [apply get_leaderboard_order; exact Hl |]. split.
  - rewrite map_map. cbn [rank select_row]. rewrite length_map.
    unfold ranked_rows. rewrite row_number_firstn.
    change 1 with (Z.of_nat 1) at 1.
    rewrite <- (map_map fst (fun x => x)), row_number_fst, map_id.
    now rewrite row_number_length.
  - intros Hpeers s' m rows' Hm H.
    rewrite (proj1 (get_leaderboard_order s' m st ltac:(lia))) in H.
    inversion H; subst rows'. unfold ranked_rows.
    rewrite (order_without_peers s s' _ Hpeers).
    rewrite <- !firstn_map, firstn_firstn. f_equal. lia.
Qed.

Lemma get_leaderboard_ranks_witness :
  no_peers (ranked_users (run ten_each (db_init [alice; bob]))) = true /\
  exists rows,
    get_leaderboard as_stored 1 (run ten_each (db_init [alice; bob])) = Ok rows /\
    map rank rows = map Z.of_nat (seq 1 (List.length rows)) /\
    forall m rows', 1 <= m ->
      get_leaderboard backwards m (run ten_each (db_init [alice; bob])) = Ok rows' ->
      rows = firstn (Z.to_nat 1) rows'.
Proof.
  split; [vm_compute; reflexivity |].
  destruct (get_leaderboard_ranks as_stored 1 (run ten_each (db_init [alice; bob]))
              ltac:(lia)) as [rows [Hget [Hrank Hprefix]]].
  exists rows. split; [exact Hget |]. split; [exact Hrank |].
  intros m rows'. apply Hprefix. vm_compute. reflexivity.
Defined.

(** ** Statements at their edges *)

Lemma user_actions_row_ok_iff (r : user_actions_row) :
  user_actions_row_ok r = Ok tt <->
  0 < quantity r < 10 ^ 12 /\ 0 <= emissions_saved_lbs r < 10 ^ 14.
Proof.
  split; [| intros [Hq He]; now apply user_actions_row_ok_intro].
  unfold user_actions_row_ok, fits_numeric. intros H. ok_steps H.
  apply Z.ltb_lt in Hstep, Hstep0, Hstep1. apply Z.leb_le in H. lia.
Qed.

(** X9.  The insert of an unverified event succeeds exactly when its
    quantity is positive and within [NUMERIC(12,3)], its savings are not
    negative and within [NUMERIC(14,4)], its key is new and its actor is
    an account; it then appends the event and touches nothing else, no
    rollup in particular. *)
Theorem insert_unverified_only_appends :
  forall (now : timestamptz) (NEW : user_actions_row) (st st' : db),
  verified NEW = false ->
  (insert_user_action now NEW st = Ok st' <->
   0 < quantity NEW < 10 ^ 12 /\
   0 <= emissions_saved_lbs NEW < 10 ^ 14 /\
   find_action (action_id NEW) st = None /\
   user_exists (ua_user_id NEW) st = true /\
   st' = with_user_actions (user_actions st ++ [NEW]) st).
Proof.
  intros now NEW st st' Hv. unfold insert_user_action, global_sync_insert_trigger.
  rewrite Hv. split.
  - intros H. apply bind_Ok in H as [u [Hok H]]. destruct u.
    apply user_actions_row_ok_iff in Hok. destruct Hok as [Hq He].
    ok_steps H. inversion H; subst.
    destruct (find_action (action_id NEW) st); [discriminate |].
    repeat split; try lia; assumption.
  - intros [Hq [He [Hf [Hu ->]]]].
    rewrite (user_actions_row_ok_intro NEW Hq He), Hf, Hu. reflexivity.
Qed.

Lemma insert_unverified_only_appends_witness :
  insert_user_action 30 e3 one_pending =
  Ok (with_user_actions [e1; e3] one_pending).
Proof.
  apply (proj2 (insert_unverified_only_appends 30 e3 one_pending
                  (with_user_actions [e1; e3] one_pending) eq_refl)).
  evaluate.
Defined.

(** X10.  When the savings of an unverified event would lift its actor's
    total out of [NUMERIC(16,4)], marking it verified fails with
    "numeric value out of range", and the statement, rolled back, leaves
    the event unverified and every rollup as it was. *)
Theorem markVerified_fails_on_overflow :
  forall (now : timestamptz) (id : uuid) (st : db) (e : user_actions_row)
         (r : user_stats_row),
  find_action id st = Some e ->
  verified e = false ->
  0 <= emissions_saved_lbs e < 10 ^ 16 ->
  find_stats (ua_user_id e) st = Some r ->
  10 ^ 16 <= total_emissions_lbs r + emissions_saved_lbs e ->
  markVerified now id st = Err numeric_value_out_of_range /\
  commit now (MarkVerified id) st = st.
Proof.
  intros now id st e r F Hv Hq Hr Hover.
  assert (H : markVerified now id st = Err numeric_value_out_of_range).
  { unfold markVerified, update_verified, global_sync_trigger. rewrite F.
    cbn [verified set_verified]. rewrite Hv. cbn [negb andb].
    unfold global_sync_trigger_function. cbn [verified set_verified andb negb].
    rewrite Hv. cbn [negb].
    unfold upsert_user_stats. cbn [ua_user_id emissions_saved_lbs set_verified].
    rewrite (proj2 (user_stats_row_ok_iff _))
      by (cbn [total_emissions_lbs action_count]; lia).
    cbn [bind]. unfold find_stats in *. cbn [user_stats with_user_actions].
    rewrite Hr. unfold user_stats_row_ok at 1, fits_numeric.
    cbn [total_emissions_lbs].
    replace (Z.abs (total_emissions_lbs r + emissions_saved_lbs e) <? 10 ^ 16)
      with false by (symmetry; apply Z.ltb_ge; lia).
    reflexivity. }
  split; [exact H |]. unfold commit. cbn [exec]. now rewrite H.
Qed.

Lemma markVerified_fails_on_overflow_witness :
  markVerified 35 "e3" at_the_limit = Err numeric_value_out_of_range /\
  commit 35 (MarkVerified "e3") at_the_limit = at_the_limit.
Proof.
  apply (markVerified_fails_on_overflow 35 "e3" at_the_limit e3
           {| us_user_id := "A"; total_emissions_lbs := 10 ^ 16 - 1;
              action_count := 1; monthly_lbs := []; yearly_lbs := [];
              last_updated := 20 |});
    evaluate.
Defined.

Lemma delta_fits_same (u : uuid) (q : numeric) (st st' : db) :
  users st' = users st -> same_rollups st st' ->
  delta_fits u q st -> delta_fits u q st'.
Proof.
  intros Hu [Hus Hge]. unfold delta_fits, user_exists, find_stats.
  now rewrite Hu, Hus, Hge.
Qed.

(** X11.  The trigger has no case for a flag that goes back to false:
    [UPDATE user_actions SET verified = FALSE] on an event succeeds,
    stores the event unverified and leaves every rollup as it was.  If
    the event had been counted, marking it verified again counts its
    savings a second time. *)
Theorem clearing_the_flag_keeps_the_rollups :
  forall (t1 t2 : timestamptz) (id : uuid) (st : db) (e : user_actions_row),
  find_action id st = Some e ->
  exists st1,
    update_verified t1 id false st = Ok (st1, 1%nat) /\
    user_stats st1 = user_stats st /\
    global_emissions st1 = global_emissions st /\
    find_action id st1 = Some (set_verified false e) /\
    (delta_fits (ua_user_id e) (emissions_saved_lbs e) st ->
     exists st2,
       markVerified t2 id st1 = Ok st2 /\
       applies_delta (ua_user_id e) (emissions_saved_lbs e) st st2).
Proof.
  intros t1 t2 id st e F.
  assert (H1 : update_verified t1 id false st =
               Ok (with_user_actions
                     (replace_first (is_action id) (set_verified false e)
                        (user_actions st)) st, 1%nat)).
  { unfold update_verified, global_sync_trigger. now rewrite F. }
  eexists. split; [exact H1 |]. split; [reflexivity |]. split; [reflexivity |].
  assert (F1 : find_action id
                 (with_user_actions
                    (replace_first (is_action id) (set_verified false e)
                       (user_actions st)) st) = Some (set_verified false e)).
  { unfold find_action in *. cbn [user_actions with_user_actions].
    apply (find_replace_first _ e); [exact F | apply (find_some _ _ F)]. }
  split; [exact F1 |]. intros Hfit.
  destruct (update_verified_first t2 id _ (set_verified false e) F1 eq_refl)
    as [st2 [HU [HA _]]].
  - apply (delta_fits_same _ _ st); [reflexivity | split; reflexivity | exact Hfit].
  - exists st2. split; [now apply markVerified_Ok | exact HA].
Qed.

Lemma clearing_the_flag_keeps_the_rollups_witness :
  exists st1,
    update_verified 50 "e1" false second_pending = Ok (st1, 1%nat) /\
    user_stats st1 = user_stats second_pending /\
    global_emissions st1 = global_emissions second_pending /\
    find_action "e1" st1 = Some e1 /\
    exists st2,
      markVerified 60 "e1" st1 = Ok st2 /\
      applies_delta "A" 50000 second_pending st2.
Proof.
  destruct (clearing_the_flag_keeps_the_rollups 50 60 "e1" second_pending
              (set_verified true e1) eq_refl)
    as [st1 [H1 [H2 [H3 [H4 H5]]]]].
  exists st1. repeat split; try assumption.
  apply H5. evaluate.
Defined.

(** * Further properties of [climateStats.ts] *)

(** ** The rollup recomputed from an actor's events *)

Lemma StronglySorted_impl {A : Type} (R R' : A -> A -> Prop) (l : list A) :
  (forall a b, R a b -> R' a b) -> StronglySorted R l -> StronglySorted R' l.
Proof.
  intros Himp. induction 1 as [| x t Hs IH Hx]; constructor; [exact IH |].
  eapply Forall_impl; [| exact Hx]. intros b. apply Himp.
Qed.

Lemma newest_first_sorted {A : Type} (at_ : A -> Z) (l : list A) :
  StronglySorted (fun a b => at_ b <= at_ a) (TS.newest_first at_ l).
Proof.
  unfold TS.newest_first.
  apply (StronglySorted_impl (in_order (fun a b => at_ b <? at_ a))).
  - unfold in_order. intros a b H. now apply Z.ltb_ge in H.
  - apply order_by_sorted.
    + intros a b H. apply Z.ltb_lt in H. apply Z.ltb_ge. lia.
    + unfold in_order. intros a b c H1 H2.
      apply Z.ltb_ge in H1, H2. apply Z.ltb_ge. lia.
Qed.

Lemma newest_first_head {A : Type} (at_ : A -> Z) (l : list A) :
  l <> [] ->
  exists h, hd_error (TS.newest_first at_ l) = Some h /\ In h l /\
            forall a, In a l -> at_ a <= at_ h.
Proof.
  intros Hne. pose proof (newest_first_sorted at_ l) as Hs.
  assert (Hall : forall z, In z (TS.newest_first at_ l) <-> In z l)
    by (intros z; apply In_order_by).
  destruct (TS.newest_first at_ l) as [| h t].
  - destruct l as [| x l']; [congruence |].
    destruct (proj2 (Hall x) (or_introl eq_refl)).
  - exists h. split; [reflexivity |]. split; [apply Hall; now left |].
    intros a Ha. apply Hall in Ha.
    inversion Hs as [| ? ? _ Hh]; subst. destruct Ha as [-> | Ha]; [lia |].
    rewrite Forall_forall in Hh. now apply Hh.
Qed.

Lemma tally_count (c : TS.clock) (acts : list TS.UserActionRow) (acc : TS.tally) :
  TS.actionCount (fold_left (TS.tally_action c) acts acc) =
  TS.actionCount acc + Z.of_nat (List.length acts).
Proof.
  revert acc. induction acts as [| a t IH]; intros acc; simpl; [lia |].
  rewrite IH. cbn [TS.actionCount TS.tally_action]. lia.
Qed.

Lemma tally_last (c : TS.clock) (acts : list TS.UserActionRow) (acc : TS.tally) :
  TS.lastActionDate (fold_left (TS.tally_action c) acts acc) =
  match TS.lastActionDate acc with
  | Some d => Some d
  | None => option_map TS.a_logged_at (hd_error acts)
  end.
Proof.
  revert acc. induction acts as [| a t IH]; intros acc; simpl.
  - now destruct (TS.lastActionDate acc).
  - rewrite IH. cbn [TS.lastActionDate TS.tally_action].
    now destruct (TS.lastActionDate acc).
Qed.

Lemma num_or_nonneg (x : option Q) (d : Q) :
  (forall q, x = Some q -> (0 <= q)%Q) -> (0 <= d)%Q -> (0 <= TS.num_or x d)%Q.
Proof.
  intros Hx Hd. unfold TS.num_or, TS.parseFloat_or.
  destruct (TS.truthy x); [| exact Hd]. destruct x as [q |]; [now apply Hx | exact Hd].
Qed.

Lemma emissionsKg_nonneg (a : TS.UserActionRow) :
  (forall q, TS.custom_emissions_saved a = Some q -> (0 <= q)%Q) ->
  (forall q, TS.template_emissions_saved a = Some q -> (0 <= q)%Q) ->
  (0 <= TS.emissionsKg a)%Q.
Proof.
  intros Hc Ht. unfold TS.emissionsKg.
  assert (H1 : (0 <= TS.num_or (TS.template_emissions_saved a) 0)%Q)
    by (apply num_or_nonneg; [exact Ht | lra]).
  assert (H2 : (0 <= TS.num_or (TS.custom_emissions_saved a)
                       (TS.kgToLbs (TS.num_or (TS.template_emissions_saved a) 0)))%Q)
    by (apply num_or_nonneg; [exact Hc | unfold TS.kgToLbs; lra]).
  unfold TS.lbsToKg. lra.
Qed.

Lemma tally_order (c : TS.clock) (acts : list TS.UserActionRow) (acc : TS.tally) :
  TS.thisYear c <= TS.thisMonth c ->
  Forall (fun a => (0 <= TS.emissionsKg a)%Q) acts ->
  (0 <= TS.monthCo2Kg acc)%Q /\ (TS.monthCo2Kg acc <= TS.yearCo2Kg acc)%Q /\
  (TS.yearCo2Kg acc <= TS.totalCo2Kg acc)%Q ->
  let t := fold_left (TS.tally_action c) acts acc in
  (0 <= TS.monthCo2Kg t)%Q /\ (TS.monthCo2Kg t <= TS.yearCo2Kg t)%Q /\
  (TS.yearCo2Kg t <= TS.totalCo2Kg t)%Q.
Proof.
  intros Hclock. revert acc. induction acts as [| a t IH]; intros acc Hpos Hacc;
    simpl; [exact Hacc |].
  inversion Hpos as [| ? ? Ha Ht]; subst. apply IH; [exact Ht |].
  cbn [TS.monthCo2Kg TS.yearCo2Kg TS.totalCo2Kg TS.tally_action].
  destruct Hacc as [H0 [H1 H2]].
  destruct (Z.leb_spec (TS.thisMonth c) (TS.a_logged_at a));
    destruct (Z.leb_spec (TS.thisYear c) (TS.a_logged_at a));
    try lia; repeat split; lra.
Qed.

(** X13.  When the events table answers, the recomputed rollup of an
    actor counts exactly that actor's events, reports a streak of 0 and,
    as last action date, the time of one of the actor's events that none
    of the actor's events is later than (none for an actor without
    events).  If no stored value is negative and the year starts no
    later than the month, the month's sum is at most the year's, which
    is at most the total. *)
Theorem recomputed_rollup_counts_the_actors_events :
  forall (s : TS.server) (c : TS.clock) (userId : string)
         (l : list TS.UserActionRow),
  TS.user_actions s = TS.Rows l ->
  let mine := filter (fun a => String.eqb (TS.a_user_id a) userId) l in
  exists r,
    TS.calculateUserStatisticsFromActions s c userId = Some r /\
    TS.user_id r = userId /\
    TS.total_actions_count r = Z.of_nat (List.length mine) /\
    TS.streak_days r = 0 /\
    (mine = [] -> TS.last_action_date r = None) /\
    (mine <> [] ->
       exists h, In h mine /\
                 TS.last_action_date r = Some (TS.a_logged_at h) /\
                 forall a, In a mine -> TS.a_logged_at a <= TS.a_logged_at h) /\
    (TS.thisYear c <= TS.thisMonth c ->
     (forall a q, In a mine ->
        TS.custom_emissions_saved a = Some q \/
        TS.template_emissions_saved a = Some q -> (0 <= q)%Q) ->
     (0 <= TS.current_month_co2_saved r)%Q /\
     (TS.current_month_co2_saved r <= TS.current_year_co2_saved r)%Q /\
     (TS.current_year_co2_saved r <= TS.total_co2_saved_kg r)%Q).
Proof.
  intros s c userId l Ht mine.
  unfold TS.calculateUserStatisticsFromActions, TS.select. rewrite Ht.
  cbn [TS.await TS.error TS.data TS.try_catch]. fold mine.
  eexists. split; [reflexivity |].
  cbn [TS.user_id TS.total_actions_count TS.streak_days TS.last_action_date
       TS.current_month_co2_saved TS.current_year_co2_saved TS.total_co2_saved_kg].
  split; [reflexivity |]. split.
  { rewrite tally_count. cbn [TS.actionCount]. unfold TS.newest_first.
    now rewrite order_by_length. }
  split; [reflexivity |]. split.
  { intros ->. reflexivity. }
  split.
  { intros Hne. rewrite tally_last. cbn [TS.lastActionDate].
    destruct (newest_first_head TS.a_logged_at mine Hne) as [h [Hh [Hin Hle]]].
    rewrite Hh. exists h. split; [exact Hin |]. split; [reflexivity | exact Hle]. }
  intros Hclock Hpos. apply tally_order; [exact Hclock | |].
  - apply Forall_forall. intros a Ha. apply In_order_by in Ha.
    apply emissionsKg_nonneg; intros q Hq; apply (Hpos a q Ha); auto.
  - cbn. repeat split; lra.
Qed.

Lemma recomputed_rollup_counts_the_actors_events_witness :
  exists r,
    TS.calculateUserStatisticsFromActions
      (legacy_events [event_of "A" 4 100; event_of "B" 7 200; event_of "A" 2 300])
      noon "A" = Some r /\
    TS.total_actions_count r = 2 /\
    (exists h, In h [event_of "A" 4 100; event_of "A" 2 300] /\
               TS.last_action_date r = Some (TS.a_logged_at h) /\
               forall a, In a [event_of "A" 4 100; event_of "A" 2 300] ->
                         TS.a_logged_at a <= TS.a_logged_at h) /\
    (TS.current_month_co2_saved r <= TS.current_year_co2_saved r)%Q.
Proof.
  destruct (recomputed_rollup_counts_the_actors_events
              (legacy_events [event_of "A" 4 100; event_of "B" 7 200;
                              event_of "A" 2 300])
              noon "A" _ eq_refl)
    as [r [Hr [_ [Hn [_ [_ [Hlast Hsum]]]]]]].
  exists r. split; [exact Hr |]. split; [exact Hn |]. split.
  - apply Hlast. discriminate.
  - apply Hsum; [evaluate |].
    intros a q Ha Hq. vm_compute in Ha.
    destruct Ha as [<- | [<- | []]]; destruct Hq as [Hq | Hq];
      inversion Hq; subst; evaluate.
Defined.

Lemma calculateUserStatisticsFromActions_Some (s : TS.server) (c : TS.clock)
    (userId : string) (l : list TS.UserActionRow) :
  TS.user_actions s = TS.Rows l ->
  exists r, TS.calculateUserStatisticsFromActions s c userId = Some r.
Proof.
  intros Ht. unfold TS.calculateUserStatisticsFromActions, TS.select.
  rewrite Ht. cbn [TS.await TS.error TS.data TS.try_catch]. eexists. reflexivity.
Qed.

Lemma maybeSingle_cases {A : Type} (t : TS.table A) (q : list A -> list A) :
  TS.maybeSingle t q = TS.Rejected \/
  (exists x, TS.maybeSingle t q = TS.Resolved {| TS.data := Some x; TS.error := false |}) \/
  (exists e, TS.maybeSingle t q = TS.Resolved {| TS.data := None; TS.error := e |}).
Proof.
  unfold TS.maybeSingle. destruct t as [l | |]; [| right; right; eauto | now left].
  destruct (q l) as [| x [| y t]]; right; [right | left | right]; eauto.
Qed.

(** X14.  As long as the legacy events table answers, [getUserStatistics]
    returns statistics for every actor, whatever the state of the two
    rollup tables (missing, failing, rejecting, or holding several rows
    for the actor): an actor nobody knows gets a record, not null. *)
Theorem getUserStatistics_answers_when_events_answer :
  forall (s : TS.server) (c : TS.clock) (userId : string)
         (l : list TS.UserActionRow),
  TS.user_actions s = TS.Rows l ->
  exists r, TS.getUserStatistics s c userId = Some r.
Proof.
  intros s c userId l Ht.
  destruct (calculateUserStatisticsFromActions_Some s c userId l Ht) as [r0 H0].
  unfold TS.getUserStatistics.
  destruct (maybeSingle_cases (TS.user_stats_summary s)
              (filter (fun r => String.eqb (TS.uss_user_id r) userId)))
    as [-> | [[x ->] | [e ->]]]; cbn [TS.await TS.try_catch TS.error TS.data].
  - eauto.
  - eauto.
  - assert (Hprev :
      exists r,
        TS.try_catch
          (TS.await
             (TS.maybeSingle (TS.user_statistics s)
                (filter (fun r => String.eqb (TS.ust_user_id r) userId)))
             (fun prev =>
                match TS.error prev, TS.data prev with
                | false, Some prevData =>
                    TS.Resolved (Some
                      {| TS.user_id := TS.ust_user_id prevData;
                         TS.total_co2_saved_kg :=
                           TS.parseFloat_or (TS.ust_total_co2_saved_kg prevData) 0;
                         TS.total_actions_count :=
                           TS.count_or_0 (TS.ust_total_actions_count prevData);
                         TS.current_month_co2_saved :=
                           TS.parseFloat_or (TS.ust_current_month_co2_saved prevData) 0;
                         TS.current_year_co2_saved :=
                           TS.parseFloat_or (TS.ust_current_year_co2_saved prevData) 0;
                         TS.streak_days := TS.count_or_0 (TS.ust_streak_days prevData);
                         TS.last_action_date := TS.ust_last_action_date prevData;
                         TS.updated_at := TS.ust_updated_at prevData |})
                | _, _ =>
                    TS.Resolved (TS.calculateUserStatisticsFromActions s c userId)
                end))
          (TS.calculateUserStatisticsFromActions s c userId) = Some r).
    { destruct (maybeSingle_cases (TS.user_statistics s)
                  (filter (fun r => String.eqb (TS.ust_user_id r) userId)))
        as [-> | [[x ->] | [e' ->]]]; cbn [TS.await TS.try_catch TS.error TS.data].
      - eauto.
      - eauto.
      - destruct e'; eauto. }
    destruct e; exact Hprev.
Qed.

Lemma getUserStatistics_answers_when_events_answer_witness :
  exists r,
    TS.getUserStatistics (legacy_events []) noon "nobody" = Some r.
Proof.
  exact (getUserStatistics_answers_when_events_answer
           (legacy_events []) noon "nobody" [] eq_refl).
Defined.

(** ** Recent events *)

Lemma recent_query {A : Type} (at_ : A -> Z) (uid_of : A -> string)
    (userId : option string) (limit : nat) (l : list A) :
  let rows :=
    firstn limit
      (TS.newest_first at_ (filter (fun x => TS.for_user userId (uid_of x)) l)) in
  (List.length rows <= limit)%nat /\
  StronglySorted (fun a b => at_ b <= at_ a) rows /\
  Forall (fun x => TS.for_user userId (uid_of x) = true) rows.
Proof.
  intros rows. subst rows. split; [apply firstn_le_length |]. split.
  - apply StronglySorted_firstn, newest_first_sorted.
  - apply Forall_forall. intros x Hx. apply In_firstn in Hx.
    apply In_order_by in Hx. apply filter_In in Hx. tauto.
Qed.

Lemma recent_ok_map {A : Type} (at_ : A -> Z) (uid_of : A -> string)
    (f : A -> TS.UserActionLog) (userId : option string) (limit : nat)
    (rows : list A) :
  (forall x, TS.logged_at (f x) = at_ x) ->
  (forall x, TS.al_user_id (f x) = uid_of x) ->
  (List.length rows <= limit)%nat /\
  StronglySorted (fun a b => at_ b <= at_ a) rows /\
  Forall (fun x => TS.for_user userId (uid_of x) = true) rows ->
  recent_ok userId limit (map f rows).
Proof.
  intros Hat Huid [Hlen [Hs Hu]]. unfold recent_ok.
  split; [now rewrite length_map |]. split.
  - clear Hlen Hu. induction Hs as [| x t Hs IH Hx]; simpl; constructor; [exact IH |].
    rewrite Forall_forall in *. intros e He. apply in_map_iff in He.
    destruct He as [y [<- Hy]]. rewrite !Hat. now apply Hx.
  - rewrite Forall_forall in *. intros e He. apply in_map_iff in He.
    destruct He as [y [<- Hy]]. rewrite Huid. now apply Hu.
Qed.

Lemma recent_ok_nil userId limit : recent_ok userId limit [].
Proof. repeat split; [apply Nat.le_0_l | constructor | constructor]. Qed.

Lemma sorted_numbered {A : Type} (at_ : A -> Z) (f : Z * A -> TS.UserActionLog)
    (k : Z) (l : list A) :
  (forall p, TS.logged_at (f p) = at_ (snd p)) ->
  StronglySorted (fun a b => at_ b <= at_ a) l ->
  StronglySorted (fun a b => TS.logged_at b <= TS.logged_at a)
    (map f (row_number k l)).
Proof.
  intros Hat. revert k. induction l as [| x t IH]; intros k Hs; simpl;
    [constructor |].
  inversion Hs as [| ? ? Ht Hx]; subst. constructor; [now apply IH |].
  rewrite Forall_forall in *. intros e He. apply in_map_iff in He.
  destruct He as [[r y] [<- Hy]]. rewrite !Hat. cbn [snd].
  apply Hx. apply (in_map snd) in Hy. now rewrite row_number_snd in Hy.
Qed.

Lemma old_schema_recent_ok (s : TS.server) (userId : option string) (limit : nat) :
  recent_ok userId limit (TS.getRecentActionsFromOldSchema s userId limit).
Proof.
  unfold TS.getRecentActionsFromOldSchema, TS.select.
  destruct (TS.user_actions s) as [l | |];
    cbn [TS.await TS.try_catch TS.error TS.data]; try apply recent_ok_nil.
  pose proof (recent_query TS.a_logged_at TS.a_user_id userId limit l) as Hq.
  cbv zeta in Hq. destruct Hq as [Hlen [Hs Hu]].
  unfold recent_ok. split; [now rewrite length_map, row_number_length |].
  set (rows := firstn limit _) in *.
  split.
  - apply (sorted_numbered TS.a_logged_at); [reflexivity | exact Hs].
  - rewrite Forall_forall in *. intros e He. apply in_map_iff in He.
    destruct He as [[r y] [<- Hy]]. cbn [TS.al_user_id snd].
    apply Hu. apply (in_map snd) in Hy. now rewrite row_number_snd in Hy.
Qed.

(** X15.  Whatever the state of the three event tables, the list
    [getRecentActionLogs] returns is at most [limit] long and runs from
    the newest entry to the oldest; when an actor is asked for, every
    entry belongs to that actor. *)
Theorem getRecentActionLogs_is_bounded_and_newest_first :
  forall (s : TS.server) (userId : option string) (limit : nat),
  let r := TS.getRecentActionLogs s userId limit in
  (List.length r <= limit)%nat /\
  StronglySorted (fun a b => TS.logged_at b <= TS.logged_at a) r /\
  (forall u, userId = Some u -> u <> ""%string ->
             Forall (fun e => TS.al_user_id e = u) r).
Proof.
  intros s userId limit r.
  assert (H : recent_ok userId limit r).
  { subst r. unfold TS.getRecentActionLogs, TS.select.
    pose proof (old_schema_recent_ok s userId limit) as Hold.
    assert (Hlogs :
      forall (p : TS.promise (TS.response (list TS.UserActionLogRow))),
        p = match TS.user_action_logs s with
            | TS.Rows l =>
                TS.Resolved
                  {| TS.data :=
                       Some (firstn limit
                               (TS.newest_first TS.g_logged_at
                                  (filter (fun g => TS.for_user userId (TS.g_user_id g)) l)));
                     TS.error := false |}
            | TS.Failing => TS.Resolved {| TS.data := None; TS.error := true |}
            | TS.Throwing => TS.Rejected
            end ->
        recent_ok userId limit
          (TS.try_catch
             (TS.await p
                (fun lg =>
                   match TS.error lg, TS.data lg with
                   | false, Some (e :: logData) =>
                       TS.Resolved
                         (map (fun log =>
                                 {| TS.log_id := TS.g_log_id log;
                                    TS.al_user_id := TS.g_user_id log;
                                    TS.action_id := TS.g_action_id log;
                                    TS.quantity := TS.parseFloat_or (TS.g_quantity log) 1;
                                    TS.al_co2_saved_kg :=
                                      TS.parseFloat_or (TS.g_co2_saved_kg log) 0;
                                    TS.logged_at := TS.g_logged_at log;
                                    TS.action_date := TS.g_action_date log;
                                    TS.notes := TS.g_notes log;
                                    TS.location := TS.g_location log |})
                              (e :: logData))
                   | _, _ =>
                       TS.Resolved (TS.getRecentActionsFromOldSchema s userId limit)
                   end))
             (TS.getRecentActionsFromOldSchema s userId limit))).
    { intros p ->. destruct (TS.user_action_logs s) as [l | |];
        cbn [TS.await TS.try_catch TS.error TS.data]; try exact Hold.
      pose proof (recent_query TS.g_logged_at TS.g_user_id userId limit l) as Hq.
      cbv zeta in Hq. destruct (firstn limit _) as [| e rest]; [exact Hold |].
      apply (recent_ok_map TS.g_logged_at TS.g_user_id); auto. }
    destruct (TS.user_action_events s) as [l | |];
      cbn [TS.await TS.try_catch TS.error TS.data].
    - pose proof (recent_query TS.e_event_timestamp TS.e_user_id userId limit l) as Hq.
      cbv zeta in Hq. destruct (firstn limit _) as [| e rest].
      + apply Hlogs. reflexivity.
      + apply (recent_ok_map TS.e_event_timestamp TS.e_user_id); auto.
    - apply Hlogs. reflexivity.
    - exact Hold. }
  destruct H as [Hlen [Hs Hu]]. split; [exact Hlen |]. split; [exact Hs |].
  intros u -> Hne. eapply Forall_impl; [| exact Hu].
  intros e He. unfold TS.for_user, TS.is_given in He.
  destruct u; [congruence |]. now apply String.eqb_eq in He.
Qed.

Lemma getRecentActionLogs_is_bounded_and_newest_first_witness :
  Forall (fun e => TS.al_user_id e = "A"%string)
    (TS.getRecentActionLogs
       (legacy_events [event_of "A" 4 100; event_of "B" 7 200; event_of "A" 2 300])
       (Some "A"%string) 5).
Proof.
  apply (proj2 (proj2 (getRecentActionLogs_is_bounded_and_newest_first
                         (legacy_events [event_of "A" 4 100; event_of "B" 7 200;
                                         event_of "A" 2 300])
                         (Some "A"%string) 5)) "A"%string eq_refl).
  discriminate.
Defined.

(** X16.  The entries the old-schema fallback builds carry the ids
    1, 2, ..., N in list order, quantity 1, action id 0 and neither notes
    nor a location.  When the events table answers there are
    [min limit (number of matching events)] of them, and each is built
    from one matching event of the table: its actor, its time, the day
    its time text shows and its savings in kilograms.  When the table
    cannot be read the fallback returns the empty list. *)
Theorem old_schema_entries_are_numbered :
  forall (s : TS.server) (userId : option string) (limit : nat),
  let r := TS.getRecentActionsFromOldSchema s userId limit in
  map TS.log_id r = map Z.of_nat (seq 1 (List.length r)) /\
  Forall (fun e => TS.quantity e = 1%Q /\ TS.action_id e = 0 /\
                   TS.notes e = None /\ TS.location e = None) r /\
  (forall l, TS.user_actions s = TS.Rows l ->
     List.length r =
       Nat.min limit
         (List.length (filter (fun a => TS.for_user userId (TS.a_user_id a)) l)) /\
     Forall (fun e =>
               exists a, In a l /\
                 TS.for_user userId (TS.a_user_id a) = true /\
                 TS.al_user_id e = TS.a_user_id a /\
                 TS.logged_at e = TS.a_logged_at a /\
                 TS.action_date e = TS.a_logged_at_day a /\
                 TS.al_co2_saved_kg e = TS.emissionsKg a) r) /\
  (TS.user_actions s = TS.Failing \/ TS.user_actions s = TS.Throwing -> r = []).
Proof.
  intros s userId limit r. subst r.
  unfold TS.getRecentActionsFromOldSchema, TS.select.
  destruct (TS.user_actions s) as [l | |];
    cbn [TS.await TS.try_catch TS.error TS.data].
  - split; [| split; [| split]].
    + rewrite map_map. cbn [TS.log_id]. rewrite length_map, row_number_length.
      change 1 with (Z.of_nat 1) at 1.
      rewrite <- (map_map fst (fun x => x)), row_number_fst, map_id. reflexivity.
    + apply Forall_forall. intros e He. apply in_map_iff in He.
      destruct He as [p [<- _]]. repeat split.
    + intros l' Hl'. inversion Hl'; subst l'. split.
      * rewrite length_map, row_number_length, length_firstn.
        unfold TS.newest_first. now rewrite order_by_length.
      * apply Forall_forall. intros e He. apply in_map_iff in He.
        destruct He as [[k a] [<- Hin]]. exists a. cbn [snd].
        apply (in_map snd) in Hin. rewrite row_number_snd in Hin. cbn [snd] in Hin.
        apply In_firstn in Hin. apply In_order_by in Hin.
        apply filter_In in Hin. destruct Hin as [Hin Hfor].
        repeat split; assumption.
    + intros [H | H]; discriminate.
  - split; [reflexivity |]. split; [constructor |].
    split; [intros l H; discriminate | reflexivity].
  - split; [reflexivity |]. split; [constructor |].
    split; [intros l H; discriminate | reflexivity].
Qed.

Lemma old_schema_entries_are_numbered_witness :
  TS.getRecentActionsFromOldSchema broken_events None 5 = [] /\
  (let r := TS.getRecentActionsFromOldSchema
              (legacy_events [event_of "A" 4 100; event_printed_ahead "A" 2;
                              event_of "B" 7 200])
              (Some "A"%string) 5 in
   List.length r = 2%nat /\
   map (fun e => (TS.log_id e, TS.logged_at e, TS.action_date e)) r
     = [(1, 82800000, 86400000); (2, 100, 0)]).
Proof.
  split.
  - apply (proj2 (proj2 (proj2 (old_schema_entries_are_numbered broken_events None 5)))).
    left. reflexivity.
  - split.
    + apply (proj1 (proj2 (proj2 (old_schema_entries_are_numbered
                 (legacy_events [event_of "A" 4 100; event_printed_ahead "A" 2;
                                 event_of "B" 7 200])
                 (Some "A"%string) 5))) _ eq_refl).
    + vm_compute. reflexivity.
Defined.

(** ** The computed leaderboard *)

Lemma numbered_ranks {A : Type} (f : Z * A -> TS.LeaderboardEntry) (l : list A) :
  (forall p, TS.rank (f p) = fst p) ->
  map TS.rank (map f (row_number 1 l)) = map Z.of_nat (seq 1 (List.length l)).
Proof.
  intros Hf. rewrite map_map. rewrite (map_ext _ fst) by exact Hf.
  change 1 with (Z.of_nat 1) at 1. apply row_number_fst.
Qed.

Lemma ranks_cover_numbered {A : Type} (f : Z * A -> TS.LeaderboardEntry)
    (l : list A) :
  (forall p, TS.rank (f p) = fst p) -> ranks_cover (map f (row_number 1 l)).
Proof.
  intros Hf. unfold ranks_cover.
  rewrite (numbered_ranks f l Hf), length_map, row_number_length.
  apply Permutation_refl.
Qed.

Lemma ranks_cover_sorted (l : list TS.LeaderboardEntry) :
  ranks_cover l -> ranks_cover (TS.sort_by_co2 l).
Proof.
  unfold ranks_cover, TS.sort_by_co2. intros H.
  rewrite order_by_length.
  apply (Permutation_trans (l' := map TS.rank l)); [| exact H].
  apply Permutation_map, order_by_Permutation.
Qed.

Lemma lt_number_false (a b : Q) : TS.lt_number a b = false <-> (b <= a)%Q.
Proof.
  unfold TS.lt_number. rewrite negb_false_iff. apply Qle_bool_iff.
Qed.

Lemma lt_number_true (a b : Q) : TS.lt_number a b = true <-> (a < b)%Q.
Proof.
  unfold TS.lt_number. rewrite negb_true_iff. split.
  - intros H. apply Qnot_le_lt. intros Hle. apply Qle_bool_iff in Hle. congruence.
  - intros H. destruct (Qle_bool b a) eqn:E; [| reflexivity].
    apply Qle_bool_iff in E. lra.
Qed.

Lemma sort_by_co2_by_value (l : list TS.LeaderboardEntry) :
  by_value (TS.sort_by_co2 l).
Proof.
  unfold by_value, TS.sort_by_co2.
  apply (StronglySorted_impl
           (in_order (fun a b => TS.lt_number (TS.co2_saved_kg b) (TS.co2_saved_kg a)))).
  - unfold in_order. intros a b H. now apply lt_number_false in H.
  - apply order_by_sorted.
    + intros a b H. apply lt_number_true in H. apply lt_number_false. lra.
    + unfold in_order. intros a b c H1 H2.
      apply lt_number_false in H1, H2. apply lt_number_false. lra.
Qed.

(** The last step of [calculateLeaderboardFromStats], on the answer [r]
    of whichever stats table was asked last. *)
Lemma computed_leaderboard_cases (s : TS.server) (c : TS.clock) (p : TS.period)
    (limit : nat) :
  TS.calculateLeaderboardFromStats s c p limit = [] \/
  (exists stats,
     (List.length stats <= limit)%nat /\
     TS.calculateLeaderboardFromStats s c p limit =
     TS.sort_by_co2
       (map (fun ix =>
               {| TS.rank := fst ix;
                  TS.le_user := TS.stat_user_id (snd ix);
                  TS.username := TS.or_Anonymous (TS.stat_username (snd ix));
                  TS.co2_saved_kg := TS.getCo2Value p (snd ix);
                  TS.le_period := p;
                  TS.le_updated_at := TS.now c |})
            (row_number 1 stats))) \/
  (exists entries,
     TS.getLeaderboard s limit = TS.Resolved entries /\
     TS.user_statistics s = TS.Failing /\
     TS.calculateLeaderboardFromStats s c p limit =
     map (fun ix =>
            {| TS.rank := fst ix;
               TS.le_user := TS.le_user_id (snd ix);
               TS.username := TS.le_username (snd ix);
               TS.co2_saved_kg := TS.lbsToKg (TS.le_total_emissions_lbs (snd ix));
               TS.le_period := TS.all_time;
               TS.le_updated_at := TS.le_last_update_timestamp (snd ix) |})
         (row_number 1 entries)).
Proof.
  unfold TS.calculateLeaderboardFromStats, TS.select, TS.top_by_total.
  assert (Hlen : forall (l : list TS.stat),
            (List.length
               (firstn limit
                  (order_by (fun a b => TS.desc_before (TS.stat_total_co2_saved_kg a)
                                          (TS.stat_total_co2_saved_kg b)) l))
             <= limit)%nat) by (intros; apply firstn_le_length).
  destruct (TS.user_stats_summary s) as [l | |] eqn:T1;
    cbn [TS.await TS.try_catch TS.error TS.data orb]; [| | now left].
  - destruct (firstn limit (order_by _ (map TS.stat_of_summary l)))
      as [| x rest] eqn:E1.
    + destruct (TS.user_statistics s) as [l' | |] eqn:T2;
        cbn [TS.await TS.try_catch TS.error TS.data]; [| | now left].
      * right. left. eexists. split; [apply (Hlen (map TS.stat_of_statistics l')) |].
        reflexivity.
      * destruct (TS.getLeaderboard s limit) as [entries |] eqn:G;
          cbn [TS.await TS.try_catch]; [| now left].
        right. right. exists entries. repeat split.
    + cbn [TS.await TS.try_catch TS.error TS.data].
      right. left. exists (x :: rest). split; [| reflexivity].
      rewrite <- E1. apply Hlen.
  - destruct (TS.user_statistics s) as [l' | |] eqn:T2;
      cbn [TS.await TS.try_catch TS.error TS.data]; [| | now left].
    + right. left. eexists. split; [apply (Hlen (map TS.stat_of_statistics l')) |].
      reflexivity.
    + destruct (TS.getLeaderboard s limit) as [entries |] eqn:G;
        cbn [TS.await TS.try_catch]; [| now left].
      right. right. exists entries. repeat split.
Qed.

(** X17.  Whatever the tables hold, the rank fields of the list
    [calculateLeaderboardFromStats] returns are the numbers 1 to N,
    each once, though not always in list order; and unless the list
    comes from the legacy leaderboard service (which is asked only after
    the prior stats table answered with an error) it runs from the
    largest value to the smallest and is at most [limit] long. *)
Theorem computed_leaderboard_ranks_cover_1_to_N :
  forall (s : TS.server) (c : TS.clock) (p : TS.period) (limit : nat),
  let r := TS.calculateLeaderboardFromStats s c p limit in
  Permutation (map TS.rank r) (map Z.of_nat (seq 1 (List.length r))) /\
  (TS.user_statistics s <> TS.Failing ->
   StronglySorted (fun a b => (TS.co2_saved_kg b <= TS.co2_saved_kg a)%Q) r /\
   (List.length r <= limit)%nat).
Proof.
  intros s c p limit r. subst r.
  destruct (computed_leaderboard_cases s c p limit)
    as [-> | [[stats [Hlen ->]] | [entries [_ [Hfail ->]]]]].
  - split; [apply Permutation_refl |]. intros _.
    split; [constructor | apply Nat.le_0_l].
  - split.
    + apply ranks_cover_sorted, ranks_cover_numbered. reflexivity.
    + intros _. split; [apply sort_by_co2_by_value |].
      unfold TS.sort_by_co2.
      now rewrite order_by_length, length_map, row_number_length.
  - split; [apply ranks_cover_numbered; reflexivity |].
    intros H1. contradiction.
Qed.

Lemma computed_leaderboard_ranks_cover_1_to_N_witness :
  StronglySorted (fun a b => (TS.co2_saved_kg b <= TS.co2_saved_kg a)%Q)
    (TS.calculateLeaderboardFromStats
       (summaries [summary "A" 10 1 100; summary "B" 5 3 200]) noon TS.monthly 100)
  /\
  (List.length
     (TS.calculateLeaderboardFromStats
        (summaries [summary "A" 10 1 100; summary "B" 5 3 200]) noon TS.monthly 100)
   <= 100)%nat.
Proof.
  apply (proj2 (computed_leaderboard_ranks_cover_1_to_N
                  (summaries [summary "A" 10 1 100; summary "B" 5 3 200])
                  noon TS.monthly 100)); discriminate.
Defined.


Lemma order_by_sorted_id {A : Type} (before : A -> A -> bool) (l : list A) :
  StronglySorted (in_order before) l -> order_by before l = l.
Proof.
  induction 1 as [| x t Hs IH Hx]; simpl; [reflexivity |].
  rewrite IH. destruct t as [| y t']; [reflexivity |]. simpl.
  inversion Hx as [| ? ? Hy _]; subst. unfold in_order in Hy. now rewrite Hy.
Qed.

Lemma parseFloat_or_Some (x : Q) : (TS.parseFloat_or (Some x) 0 == x)%Q.
Proof.
  unfold TS.parseFloat_or, TS.truthy.
  destruct (Qeq_bool x 0) eqn:E; simpl; [| reflexivity].
  apply Qeq_bool_iff in E. now rewrite E.
Qed.

Lemma desc_before_asym (a b : option Q) :
  TS.desc_before a b = true -> TS.desc_before b a = false.
Proof.
  destruct a as [x |], b as [y |]; simpl; try reflexivity; try discriminate.
  intros H. apply lt_number_true in H. apply lt_number_false. lra.
Qed.

Lemma desc_before_trans (a b c : option Q) :
  TS.desc_before b a = false -> TS.desc_before c b = false ->
  TS.desc_before c a = false.
Proof.
  destruct a as [x |], b as [y |], c as [z |]; simpl;
    try reflexivity; try discriminate.
  intros H1 H2. apply lt_number_false in H1, H2. apply lt_number_false. lra.
Qed.

Lemma all_time_entries_in_order (c : TS.clock) (stats : list TS.stat) (k : Z) :
  Forall (fun x => TS.stat_total_co2_saved_kg x <> None) stats ->
  StronglySorted
    (in_order (fun a b => TS.desc_before (TS.stat_total_co2_saved_kg a)
                            (TS.stat_total_co2_saved_kg b))) stats ->
  StronglySorted
    (in_order (fun a b => TS.lt_number (TS.co2_saved_kg b) (TS.co2_saved_kg a)))
    (map (fun ix =>
            {| TS.rank := fst ix;
               TS.le_user := TS.stat_user_id (snd ix);
               TS.username := TS.or_Anonymous (TS.stat_username (snd ix));
               TS.co2_saved_kg := TS.getCo2Value TS.all_time (snd ix);
               TS.le_period := TS.all_time;
               TS.le_updated_at := TS.now c |})
         (row_number k stats)).
Proof.
  revert k. induction stats as [| x t IH]; intros k Hsome Hs; simpl; [constructor |].
  inversion Hs as [| ? ? Ht Hx]; subst. inversion Hsome as [| ? ? Hx0 Ht0]; subst.
  constructor; [now apply IH |].
  rewrite Forall_forall in *. intros e He. apply in_map_iff in He.
  destruct He as [[r y] [<- Hy]]. apply (in_map snd) in Hy.
  rewrite row_number_snd in Hy. cbn [snd] in *.
  specialize (Hx y Hy). specialize (Ht0 y Hy).
  unfold in_order in *. cbn [TS.co2_saved_kg TS.getCo2Value].
  destruct (TS.stat_total_co2_saved_kg x) as [qx |]; [| congruence].
  destruct (TS.stat_total_co2_saved_kg y) as [qy |]; [| congruence].
  simpl in Hx. apply lt_number_false in Hx. apply lt_number_false.
  rewrite !parseFloat_or_Some. exact Hx.
Qed.

(** X18.  For the all-time period, when the current stats table answers
    with at least one row, the limit is positive and no row has a null
    total, the rank fields of the computed leaderboard read 1, 2, ..., N
    in list order and the list holds [min limit (number of rows)]
    entries. *)
Theorem computed_all_time_leaderboard_is_ranked_in_order :
  forall (s : TS.server) (c : TS.clock) (limit : nat)
         (l : list TS.UserStatsSummaryRow),
  TS.user_stats_summary s = TS.Rows l ->
  l <> [] ->
  (0 < limit)%nat ->
  Forall (fun r => TS.uss_total_co2_saved_kg r <> None) l ->
  let r := TS.calculateLeaderboardFromStats s c TS.all_time limit in
  map TS.rank r = map Z.of_nat (seq 1 (List.length r)) /\
  List.length r = Nat.min limit (List.length l).
Proof.
  intros s c limit l Ht Hne Hlim Hsome r. subst r.
  unfold TS.calculateLeaderboardFromStats, TS.select. rewrite Ht.
  cbn [TS.await TS.error TS.data orb].
  set (stats := TS.top_by_total limit (map TS.stat_of_summary l)).
  assert (Hlen : List.length stats = Nat.min limit (List.length l)).
  { subst stats. unfold TS.top_by_total.
    now rewrite length_firstn, order_by_length, length_map. }
  assert (Hstats : stats <> []).
  { intros E. rewrite E in Hlen. simpl in Hlen.
    destruct l; [congruence |]. simpl in Hlen. lia. }
  destruct stats as [| x rest] eqn:Es; [congruence |].
  cbn [TS.await TS.try_catch TS.error TS.data]. rewrite <- Es in *.
  assert (Hsorted :
    StronglySorted
      (in_order (fun a b => TS.desc_before (TS.stat_total_co2_saved_kg a)
                              (TS.stat_total_co2_saved_kg b))) stats).
  { rewrite Es. fold stats in Es. rewrite <- Es. unfold stats, TS.top_by_total.
    apply StronglySorted_firstn. apply order_by_sorted.
    - intros a b. apply desc_before_asym.
    - unfold in_order. intros a b d. apply desc_before_trans. }
  assert (Hall : Forall (fun x => TS.stat_total_co2_saved_kg x <> None) stats).
  { rewrite Es. fold stats in Es. rewrite <- Es. unfold stats, TS.top_by_total.
    apply Forall_forall. intros y Hy. apply In_firstn in Hy.
    apply In_order_by in Hy. apply in_map_iff in Hy.
    destruct Hy as [row [<- Hrow]]. rewrite Forall_forall in Hsome.
    now apply Hsome. }
  unfold TS.sort_by_co2.
  rewrite (order_by_sorted_id _ _ (all_time_entries_in_order c stats 1 Hall Hsorted)).
  split.
  - rewrite length_map, row_number_length. apply numbered_ranks. reflexivity.
  - now rewrite length_map, row_number_length.
Qed.

Lemma computed_all_time_leaderboard_is_ranked_in_order_witness :
  map TS.rank
    (TS.calculateLeaderboardFromStats
       (summaries [summary "A" 10 1 100; summary "B" 5 3 200]) noon TS.all_time 1)
  = map Z.of_nat
      (seq 1 (List.length
                (TS.calculateLeaderboardFromStats
                   (summaries [summary "A" 10 1 100; summary "B" 5 3 200])
                   noon TS.all_time 1))).
Proof.
  apply (computed_all_time_leaderboard_is_ranked_in_order
           (summaries [summary "A" 10 1 100; summary "B" 5 3 200]) noon 1
           [summary "A" 10 1 100; summary "B" 5 3 200] eq_refl).
  - discriminate.
  - apply Nat.lt_0_1.
  - repeat constructor; discriminate.
Defined.

Lemma computed_leaderboard_length (s : TS.server) (c : TS.clock) (p : TS.period)
    (limit : nat) :
  (forall entries, TS.getLeaderboard s limit = TS.Resolved entries ->
                   (List.length entries <= limit)%nat) ->
  (List.length (TS.calculateLeaderboardFromStats s c p limit) <= limit)%nat.
Proof.
  intros Hlegacy.
  destruct (computed_leaderboard_cases s c p limit)
    as [-> | [[stats [Hlen ->]] | [entries [Hg [_ ->]]]]].
  - apply Nat.le_0_l.
  - unfold TS.sort_by_co2.
    now rewrite order_by_length, length_map, row_number_length.
  - rewrite length_map, row_number_length. now apply Hlegacy.
Qed.

(** X19.  If the legacy leaderboard service honours the limit it is
    given, [getLeaderboardEntries] never returns more than [limit]
    entries, whichever of its sources answers. *)
Theorem getLeaderboardEntries_honours_limit :
  forall (s : TS.server) (c : TS.clock) (p : TS.period) (sc : TS.scope)
         (scopeId : option string) (limit : nat),
  (forall entries, TS.getLeaderboard s limit = TS.Resolved entries ->
                   (List.length entries <= limit)%nat) ->
  (List.length (TS.getLeaderboardEntries s c p sc scopeId limit) <= limit)%nat.
Proof.
  intros s c p sc scopeId limit Hlegacy.
  pose proof (computed_leaderboard_length s c p limit Hlegacy) as Hcalc.
  unfold TS.getLeaderboardEntries, TS.select.
  assert (Hprev :
    forall (q : list TS.LeaderboardsRow -> list TS.LeaderboardsRow),
      (forall l, exists l', q l = firstn limit l') ->
      (List.length
         (TS.try_catch
            (TS.await
               match TS.leaderboards s with
               | TS.Rows l => TS.Resolved {| TS.data := Some (q l); TS.error := false |}
               | TS.Failing => TS.Resolved {| TS.data := None; TS.error := true |}
               | TS.Throwing => TS.Rejected
               end
               (fun prev =>
                  match TS.error prev, TS.data prev with
                  | false, Some (e :: prevData) =>
                      TS.Resolved
                        (map (fun entry =>
                                {| TS.rank := TS.l_rank entry;
                                   TS.le_user := TS.l_user_id entry;
                                   TS.username := TS.or_Anonymous (TS.l_username entry);
                                   TS.co2_saved_kg :=
                                     TS.parseFloat_or (TS.l_co2_saved_kg entry) 0;
                                   TS.le_period := TS.l_period entry;
                                   TS.le_updated_at := TS.l_updated_at entry |})
                             (e :: prevData))
                  | _, _ => TS.Resolved (TS.calculateLeaderboardFromStats s c p limit)
                  end))
            (TS.calculateLeaderboardFromStats s c p limit)) <= limit)%nat).
  { intros q Hq. destruct (TS.leaderboards s) as [l | |];
      cbn [TS.await TS.try_catch TS.error TS.data]; try exact Hcalc.
    destruct (Hq l) as [l' Hl']. destruct (q l) as [| e rest] eqn:E; [exact Hcalc |].
    cbn [TS.try_catch]. rewrite length_map, Hl'. apply firstn_le_length. }
  destruct (TS.leaderboard_snapshots s) as [l | |];
    cbn [TS.await TS.try_catch TS.error TS.data].
  - match goal with
    | |- context [match firstn limit ?x with _ => _ end] =>
        destruct (firstn limit x) as [| e rest] eqn:E
    end.
    + apply Hprev. intros l0. eexists. reflexivity.
    + cbn [TS.try_catch]. rewrite length_map, <- E. apply firstn_le_length.
  - apply Hprev. intros l0. eexists. reflexivity.
  - exact Hcalc.
Qed.

Lemma getLeaderboardEntries_honours_limit_witness :
  (List.length
     (TS.getLeaderboardEntries (legacy_only TS.Failing) noon TS.all_time
        TS.global None 100) <= 100)%nat.
Proof.
  apply (getLeaderboardEntries_honours_limit (legacy_only TS.Failing) noon
           TS.all_time TS.global None 100).
  intros entries H. inversion H; subst. simpl. lia.
Defined.

(** ** Global statistics *)

Lemma single_cases {A : Type} (t : TS.table A) (q : list A -> list A) :
  TS.single t q = TS.Rejected \/
  (exists x, TS.single t q = TS.Resolved {| TS.data := Some x; TS.error := false |}) \/
  TS.single t q = TS.Resolved {| TS.data := None; TS.error := true |}.
Proof.
  unfold TS.single. destruct t as [l | |]; [| right; right; eauto | now left].
  destruct (q l) as [| x [| y t]]; right; [right | left | right]; eauto.
Qed.

(** X20.  Unless one of the three requests of the fallback rejects,
    [getGlobalStatistics] returns statistics, never null, whatever the
    state of the two rollup tables.  When every table answers with an
    error the statistics are all zero, stamped with the current time. *)
Theorem getGlobalStatistics_degrades_to_zeros :
  forall (s : TS.server) (g : TS.global_tables) (c : TS.clock),
  (TS.global_emissions g <> TS.Throwing ->
   TS.profiles g <> TS.Throwing ->
   TS.user_actions s <> TS.Throwing ->
   exists r, TS.getGlobalStatistics s g c = Some r) /\
  (TS.global_stats_rollup g = TS.Failing ->
   TS.global_statistics g = TS.Failing ->
   TS.global_emissions g = TS.Failing ->
   TS.profiles g = TS.Failing ->
   TS.user_actions s = TS.Failing ->
   exists r,
     TS.getGlobalStatistics s g c = Some r /\
     TS.id r = 1 /\ TS.total_users r = 0 /\ TS.g_total_actions_count r = 0 /\
     (TS.g_total_co2_saved_kg r == 0)%Q /\ TS.countries_count r = 0 /\
     TS.last_updated r = TS.now c).
Proof.
  intros s g c. split.
  - intros H1 H2 H3.
    assert (Hcalc : exists r, TS.calculateGlobalStatisticsFromExisting s g c = Some r).
    { unfold TS.calculateGlobalStatisticsFromExisting, TS.maybeSingle, TS.count_rows.
      destruct (TS.global_emissions g) as [l | |]; [| | congruence];
        destruct (TS.profiles g) as [l2 | |]; try congruence;
        destruct (TS.user_actions s) as [l3 | |]; try congruence;
        try (destruct (filter _ l) as [| x [| y t]]);
        cbn [TS.await TS.try_catch]; eauto. }
    unfold TS.getGlobalStatistics.
    destruct (single_cases (TS.global_stats_rollup g)
                (filter (fun r => String.eqb (TS.rollup_key r) "global_all_time")))
      as [-> | [[x ->] | ->]]; cbn [TS.await TS.try_catch TS.error TS.data];
      [exact Hcalc | eauto |].
    destruct (single_cases (TS.global_statistics g)
                (filter (fun r => TS.gs_id r =? 1)))
      as [-> | [[x ->] | ->]]; cbn [TS.await TS.try_catch TS.error TS.data];
      [exact Hcalc | eauto | exact Hcalc].
  - intros H1 H2 H3 H4 H5.
    unfold TS.getGlobalStatistics, TS.calculateGlobalStatisticsFromExisting,
      TS.single, TS.maybeSingle, TS.count_rows.
    rewrite H1, H2, H3, H4, H5. cbn. eexists. split; [reflexivity |].
    cbn. repeat split; reflexivity.
Qed.

Lemma getGlobalStatistics_degrades_to_zeros_witness :
  (exists r, TS.getGlobalStatistics (legacy_events []) no_globals noon = Some r) /\
  (exists r,
     TS.getGlobalStatistics broken_events no_globals noon = Some r /\
     TS.id r = 1 /\ TS.total_users r = 0 /\ TS.g_total_actions_count r = 0 /\
     (TS.g_total_co2_saved_kg r == 0)%Q /\ TS.countries_count r = 0 /\
     TS.last_updated r = 1000).
Proof.
  split.
  - apply (proj1 (getGlobalStatistics_degrades_to_zeros (legacy_events [])
                    no_globals noon)); discriminate.
  - apply (proj2 (getGlobalStatistics_degrades_to_zeros broken_events no_globals
                    noon)); reflexivity.
Defined.


(** * Properties of [simpleEmissionLogging.ts] and of the dashboard *)

Lemma filter_key_NoDup {A : Type} (key : A -> string) (l : list A) (r : A) :
  NoDup (map key l) -> In r l ->
  filter (fun x => String.eqb (key x) (key r)) l = [r].
Proof.
  induction l as [| a t IH]; simpl; intros Hnd Hin; [contradiction |].
  inversion Hnd as [| ? ? Hout Hnd']; subst.
  assert (Hnone : forall z, ~ In (key z) (map key t) ->
            filter (fun x => String.eqb (key x) (key z)) t = []).
  { clear. intros z Hz. induction t as [| b t IH]; simpl; [reflexivity |].
    destruct (String.eqb_spec (key b) (key z)) as [E | E].
    - exfalso. apply Hz. left. exact E.
    - apply IH. intros H. apply Hz. now right. }
  destruct Hin as [-> | Hin].
  - rewrite String.eqb_refl. now rewrite (Hnone r Hout).
  - destruct (String.eqb_spec (key a) (key r)) as [E | E].
    + exfalso. apply Hout. rewrite E. now apply in_map.
    + now apply IH.
Qed.

Lemma fold_left_ext_in {A B : Type} (f g : B -> A -> B) (l : list A) (acc : B) :
  (forall b x, In x l -> f b x = g b x) -> fold_left f l acc = fold_left g l acc.
Proof.
  revert acc. induction l as [| x t IH]; intros acc H; simpl; [reflexivity |].
  rewrite (H acc x (or_introl eq_refl)). apply IH.
  intros b y Hy. apply H. now right.
Qed.

(** X22.  The formula of the service's header, on its fallbacks: when
    the database functions answer with an error, the global row cannot
    be read and [user_stats] holds one row per actor, [getGlobalTotal]
    is the sum of [getUserTotal] over the actors of [user_stats], added
    up from 0 in the order of the rows. *)
Theorem global_total_is_the_sum_of_user_totals :
  forall (b : SimpleEmissionLogging.backend)
         (l : list SimpleEmissionLogging.UserStatsRow),
  SimpleEmissionLogging.rpc_get_global_total b
    = TS.Resolved {| TS.data := None; TS.error := true |} ->
  (forall u, SimpleEmissionLogging.rpc_get_user_total b u
             = TS.Resolved {| TS.data := None; TS.error := true |}) ->
  SimpleEmissionLogging.global_emissions b = TS.Failing ->
  SimpleEmissionLogging.user_stats b = TS.Rows l ->
  NoDup (map SimpleEmissionLogging.s_user_id l) ->
  SimpleEmissionLogging.getGlobalTotal b =
  fold_left
    (fun sum r =>
       (sum + SimpleEmissionLogging.getUserTotal b
                (SimpleEmissionLogging.s_user_id r))%Q)
    l 0%Q.
Proof.
  intros b l Hg Hu Hge Hus Hnd.
  assert (Huser : forall r, In r l ->
            SimpleEmissionLogging.getUserTotal b (SimpleEmissionLogging.s_user_id r) =
            SimpleEmissionLogging.coalesce (SimpleEmissionLogging.total_lbs r)
              (SimpleEmissionLogging.total_emissions_lbs r)).
  { intros r Hr. unfold SimpleEmissionLogging.getUserTotal, TS.maybeSingle.
    rewrite Hu, Hus. cbn [TS.await TS.error TS.data].
    now rewrite (filter_key_NoDup SimpleEmissionLogging.s_user_id l r Hnd Hr). }
  unfold SimpleEmissionLogging.getGlobalTotal,
    SimpleEmissionLogging.calculateGlobalTotalFromUserStats, TS.maybeSingle, TS.select.
  rewrite Hg, Hge, Hus. cbn [TS.await TS.error TS.data TS.try_catch].
  apply fold_left_ext_in. intros sum r Hr. now rewrite (Huser r Hr).
Qed.

Lemma global_total_is_the_sum_of_user_totals_witness :
  SimpleEmissionLogging.getGlobalTotal
    (tables_only [stats_of "A" 5; stats_of "B" 3] []) =
  fold_left
    (fun sum r =>
       (sum + SimpleEmissionLogging.getUserTotal
                (tables_only [stats_of "A" 5; stats_of "B" 3] [])
                (SimpleEmissionLogging.s_user_id r))%Q)
    [stats_of "A" 5; stats_of "B" 3] 0%Q.
Proof.
  apply (global_total_is_the_sum_of_user_totals
           (tables_only [stats_of "A" 5; stats_of "B" 3] [])
           [stats_of "A" 5; stats_of "B" 3]); try reflexivity.
  repeat constructor; simpl; intuition discriminate.
Defined.

(** X23.  Whatever the backend answers, the dashboard of a signed-in
    user counts at most 10 actions for the current month, because it
    counts among the 10 newest actions it fetched; what it lists is at
    most 10 actions long; and the figure it shows for the year is the
    user's all-time total in pounds times 0.453592. *)
Theorem dashboard_counts_at_most_ten_actions :
  forall (b : SimpleEmissionLogging.backend) (p : Dashboard.profile)
         (thisMonth : Z),
  exists d,
    Dashboard.loadDashboardData b (Some p) thisMonth = Some d /\
    0 <= Dashboard.actionsThisMonth (Dashboard.figures d) <= 10 /\
    (Dashboard.yearlyCo2Kg (Dashboard.figures d) ==
     TS.lbsToKg (Dashboard.totalEmissionsSaved (Dashboard.figures d)))%Q /\
    Dashboard.currentStreak (Dashboard.figures d) = Dashboard.current_streak p /\
    forall shown, Dashboard.actions d = Some shown ->
      (List.length shown <= 10)%nat /\
      Dashboard.actionsThisMonth (Dashboard.figures d) =
        Z.of_nat (List.length
                    (filter (fun a => thisMonth <=? TS.a_logged_at a) shown)).
Proof.
  intros b p thisMonth. unfold Dashboard.loadDashboardData, TS.select.
  eexists. split; [reflexivity |].
  destruct (SimpleEmissionLogging.user_actions b) as [l | |];
    cbn [TS.await TS.try_catch TS.data Dashboard.figures Dashboard.actions
         Dashboard.actionsThisMonth Dashboard.yearlyCo2Kg
         Dashboard.totalEmissionsSaved Dashboard.currentStreak].
  - set (shown := firstn 10 _).
    assert (Hlen : (List.length shown <= 10)%nat) by apply firstn_le_length.
    pose proof (filter_length_le (fun a => thisMonth <=? TS.a_logged_at a) shown).
    split; [lia |]. split; [unfold TS.lbsToKg; reflexivity |].
    split; [reflexivity |]. intros shown' H'. inversion H'; subst. split; auto.
  - split; [lia |]. split; [unfold TS.lbsToKg; reflexivity |].
    split; [reflexivity |]. intros shown' H'. discriminate.
  - split; [lia |]. split; [unfold TS.lbsToKg; reflexivity |].
    split; [reflexivity |]. intros shown' H'. discriminate.
Qed.

Lemma dashboard_counts_at_most_ten_actions_witness :
  exists d,
    Dashboard.loadDashboardData
      (tables_only [] [event_of "C" 5 10; event_of "C" 7 30; event_of "D" 1 40])
      (Some carol) 20 = Some d /\
    Dashboard.actions d = Some [event_of "C" 7 30; event_of "C" 5 10] /\
    Dashboard.actionsThisMonth (Dashboard.figures d) = 1.
Proof.
  destruct (dashboard_counts_at_most_ten_actions
              (tables_only [] [event_of "C" 5 10; event_of "C" 7 30;
                               event_of "D" 1 40])
              carol 20) as [d [Hd [_ [_ [_ Hshown]]]]].
  exists d. split; [exact Hd |].
  assert (Ha : Dashboard.actions d = Some [event_of "C" 7 30; event_of "C" 5 10]).
  { vm_compute in Hd. injection Hd as <-. reflexivity. }
  split; [exact Ha |].
  destruct (Hshown _ Ha) as [_ Hn]. rewrite Hn. reflexivity.
Defined.

(** X24.  The two readers of the current rollup table agree: whenever
    [getGlobalStatsRollup] returns a record for the key
    [global_all_time], [getGlobalStatistics] returns the same users,
    kilograms and actions under id 1, with no countries and the
    rollup's computation time, and consults no other table. *)
Theorem global_statistics_are_the_all_time_rollup :
  forall (s : TS.server) (g : TS.global_tables) (c : TS.clock)
         (r : TS.GlobalStatsRollup),
  TS.getGlobalStatsRollup g "global_all_time" = Some r ->
  TS.r_rollup_key r = "global_all_time"%string /\
  TS.getGlobalStatistics s g c =
    Some {| TS.id := 1;
            TS.total_users := TS.r_total_users r;
            TS.g_total_co2_saved_kg := TS.r_total_co2_saved_kg r;
            TS.g_total_actions_count := TS.r_total_actions r;
            TS.countries_count := 0;
            TS.last_updated := TS.r_computed_at r |}.
Proof.
  intros s g c r. unfold TS.getGlobalStatsRollup, TS.getGlobalStatistics.
  unfold TS.maybeSingle, TS.single.
  destruct (TS.global_stats_rollup g) as [l | |];
    cbn [TS.await TS.try_catch TS.error TS.data]; try discriminate.
  pose proof (filter_In (fun x => String.eqb (TS.rollup_key x) "global_all_time") ) as HIn.
  destruct (filter _ l) as [| x [| y t]] eqn:F;
    cbn [TS.await TS.try_catch TS.error TS.data]; try discriminate.
  intros H. injection H as <-. cbn [TS.r_rollup_key TS.r_total_users
    TS.r_total_co2_saved_kg TS.r_total_actions TS.r_computed_at].
  split; [| reflexivity].
  assert (Hx : In x (filter (fun x => String.eqb (TS.rollup_key x) "global_all_time") l))
    by (rewrite F; now left).
  apply filter_In in Hx. destruct Hx as [_ Hx]. now apply String.eqb_eq in Hx.
Qed.

Lemma global_statistics_are_the_all_time_rollup_witness :
  exists r,
    TS.getGlobalStatsRollup (rollup_only [all_time_rollup]) "global_all_time"
      = Some r /\
    TS.getGlobalStatistics broken_events (rollup_only [all_time_rollup]) noon =
      Some {| TS.id := 1;
              TS.total_users := 3;
              TS.g_total_co2_saved_kg := 12;
              TS.g_total_actions_count := 0;
              TS.countries_count := 0;
              TS.last_updated := 500 |}.
Proof.
  eexists. split; [reflexivity |].
  exact (proj2 (global_statistics_are_the_all_time_rollup broken_events
                  (rollup_only [all_time_rollup]) noon _ eq_refl)).
Defined.
